(** * Fitbit Treadmill Sync: a shallow embedding of the coordinator and the
      API client, with the properties of the specification.

    Sources embedded here:
    - [custom_components/fitbit_treadmill_sync/const.py]
    - [custom_components/fitbit_treadmill_sync/api.py]       (class FitbitAPI)
    - [custom_components/fitbit_treadmill_sync/coordinator.py]
      (class FitbitTreadmillCoordinator)
    - [custom_components/fitbit_treadmill_sync/config_flow.py]
      (the conversion step and the options step)

    Conventions of the model.
    - A Python [float] is an exact rational ([Q]) and float arithmetic is
      exact: the rounding of binary64 operations is not modelled, so the
      statements are about the expressions the code evaluates.  A Python
      [int] is a [Z].
    - [int(x)] on a float truncates toward zero ([py_int]).
    - A [datetime] is a number of microseconds ([Z]); the difference of two
      of them is a [timedelta], again in microseconds.
    - Exceptions are values of [exn]; the attributes of the two objects
      form the [store]; a method is a function from the store to a result
      (a value or a raised exception) and the new store.
    - What the code receives from outside (clock readings, the sensor, the
      replies of the remote service) is a field of [env]; what it sends out
      (requests, notifications, events) is appended to the [trace].
    - Notifications, event firing and the reauth trigger of the host are
      taken to return normally; [datetime.now] is taken to accept the host's
      time zone value.  Of the log lines only the one that announces the
      create-activity call is kept, as the mark of that call. *)

From Stdlib Require Import ZArith QArith Qround String List Bool Lia Lqa.
Import ListNotations.

Local Open Scope Q_scope.

(* ================================================================== *)
(** ** Numbers *)

(** [int(x)] for a float [x]: truncation toward zero. *)
Definition py_int (x : Q) : Z := Z.quot (Qnum x) (Zpos (Qden x)).

(** [a < b] on floats, as a boolean. *)
Definition Qlt_bool (a b : Q) : bool := negb (Qle_bool b a).

(** [max(1, n)] on ints. *)
Definition max1 (n : Z) : Z := Z.max 1 n.

(* ================================================================== *)
(** ** const.py *)

Definition STATE_POST_WORKOUT : string := "Post-Workout".
Definition STATE_WORKING : string := "Working".
Definition STATE_STANDBY : string := "Standby".

Definition ACTIVITY_TYPES : list (string * Z) :=
  [ ("Walking"%string, 90013%Z);
    ("Running"%string, 90009%Z);
    ("Treadmill"%string, 15000%Z) ].

Definition FITBIT_RATE_LIMIT : nat := 150.
Definition TOKEN_REFRESH_BUFFER : Q := 300.
Definition FEET_PER_MILE : Q := 5280.
Definition MIN_DISTANCE : Q := 1 # 100.
Definition MAX_DISTANCE : Q := 100.
Definition MIN_STRIDE : Q := 1 # 2.
Definition MAX_STRIDE : Q := 5.
Definition MAX_HISTORY_SIZE : nat := 50.

(** [ACTIVITY_TYPES.get(activity_type, ACTIVITY_TYPES["Walking"])]. *)
Fixpoint dict_get (d : list (string * Z)) (k : string) : option Z :=
  match d with
  | [] => None
  | (k', v) :: d' => if String.eqb k k' then Some v else dict_get d' k
  end.

Definition activity_id_of (activity_type : string) : Z :=
  match dict_get ACTIVITY_TYPES activity_type with
  | Some v => v
  | None => 90013%Z
  end.

(* ================================================================== *)
(** ** Exceptions and results *)

Inductive value_error : Type :=
| DistanceEntityNotConfigured
| DistanceEntityNotFound
| DistanceEntityUnavailable
| InvalidDistanceValue.

(** The exceptions the two classes raise, catch or let through.
    [RateLimitError] is a subclass of [FitbitAPIError]; [KeyError] comes
    from indexing the token dict; [ExternalFailure] stands for whatever a
    library or host call raises and the code catches as [Exception]. *)
Inductive exn : Type :=
| ConfigEntryAuthFailed
| RateLimitError
| FitbitAPIError
| ValueError (why : value_error)
| ZeroDivisionError
| KeyError (key : string)
| ExternalFailure.

Inductive result (A : Type) : Type :=
| Ok (a : A)
| Raise (e : exn).
Arguments Ok {A} a.
Arguments Raise {A} e.

(* ================================================================== *)
(** ** api.py: the rate limiter *)

(** The comprehension's condition [current_time - t < 3600]. *)
Definition within_hour (current_time t : Q) : bool :=
  Qlt_bool (current_time - t) 3600.

(** [FitbitAPI._check_rate_limit] on the list [_request_times], with the
    reading of [time.time()] as an argument.  The list is reassigned to
    the purged one before the quota test, so a rejection keeps the purge. *)
Definition check_rate_limit_at (current_time : Q) (request_times : list Q)
  : result unit * list Q :=
  let request_times := filter (within_hour current_time) request_times in
  if (150 <=? length request_times)%nat
  then (Raise RateLimitError, request_times)
  else (Ok tt, request_times ++ [current_time]).

(** A sequence of admission attempts, one per clock reading, from a given
    stored list: the stored list after the last attempt. *)
Fixpoint window_after (ts : list Q) (w : list Q) : list Q :=
  match ts with
  | [] => w
  | t :: ts' => window_after ts' (snd (check_rate_limit_at t w))
  end.

(** The timestamps of the attempts that were admitted, in order. *)
Fixpoint admitted (ts : list Q) (w : list Q) : list Q :=
  match ts with
  | [] => []
  | t :: ts' =>
      match check_rate_limit_at t w with
      | (Ok _, w') => t :: admitted ts' w'
      | (Raise _, w') => admitted ts' w'
      end
  end.

(** [t] lies in the trailing window that ends at [T]: [T - 3600 < t <= T]. *)
Definition in_trailing_window (T t : Q) : bool :=
  Qlt_bool (T - 3600) t && Qle_bool t T.

(** Clock readings that never go back. *)
Fixpoint nondecreasing_from (t0 : Q) (ts : list Q) : Prop :=
  match ts with
  | [] => True
  | t :: ts' => t0 <= t /\ nondecreasing_from t ts'
  end.

Definition nondecreasing (ts : list Q) : Prop :=
  match ts with
  | [] => True
  | t :: ts' => nondecreasing_from t ts'
  end.

(* ================================================================== *)
(** ** The data of the two objects *)

(** A [datetime], in microseconds; a [timedelta] is a difference of two. *)
Definition datetime : Type := Z.

(** [timedelta.total_seconds()]. *)
Definition total_seconds (td : Z) : Q := td # 1000000.

(** [self._current_session]: the dict with keys [start_time] and
    [start_distance]. *)
Record session : Type := {
  start_time : datetime;
  start_distance : Q
}.

(** The dict [sync_record] appended to [self._sync_history]. *)
Record sync_record : Type := {
  timestamp : datetime;
  distance_miles : Q;
  steps : Z;
  duration_minutes : Z;
  conversion_method : string;
  activity_type : string;
  success : bool;
  fitbit_log_id : option Z
}.

(** The dict [activity_data] sent to the remote service.  [startTime] and
    [date] are the two [strftime] renderings of the same [start_time]. *)
Record activity_data : Type := {
  activityId : Z;
  startTime : datetime;
  durationMillis : Z;
  date : datetime;
  distance : Q;
  distanceUnit : string;
  payload_steps : option Z
}.

(** The text of the [error] argument of [_notify_sync_result]. *)
Inductive error_text : Type :=
| DistanceTooSmall (workout_distance : Q)
| DistanceTooLarge (workout_distance : Q)
| AuthenticationFailedText
| RateLimitExceededText
| FitbitApiErrorText (err : exn)
| UnexpectedErrorText (err : exn)
| StrOf (err : exn).

(** What the code sends out. *)
Inductive event : Type :=
| RefreshTokenRequest
| UpdateEntry (access refresh : string) (expires : Q)
| ActivitiesRequest (data : activity_data)
| UserProfileRequest
| LogCreatingActivity (activity : string) (miles : Q) (nsteps : Z)
                      (method : string)
| Notification (ok : bool) (nsteps : option Z) (miles : option Q)
               (error : option error_text)
| WorkoutSynced (nsteps : Z) (miles : Q) (minutes : Z) (method : string)
| StartReauth.

(** The attributes of [FitbitAPI] and of [FitbitTreadmillCoordinator] that
    the methods read and write, and the effects so far. *)
Record store : Type := {
  access_token : string;
  refresh_token : string;
  expires_at : Q;
  request_times : list Q;
  current_session : option session;
  sync_history : list sync_record;
  last_sync_time : option datetime;
  trace : list event
}.

Definition set_access_token (v : string) (s : store) : store :=
  {| access_token := v; refresh_token := refresh_token s;
     expires_at := expires_at s; request_times := request_times s;
     current_session := current_session s; sync_history := sync_history s;
     last_sync_time := last_sync_time s; trace := trace s |}.

Definition set_refresh_token (v : string) (s : store) : store :=
  {| access_token := access_token s; refresh_token := v;
     expires_at := expires_at s; request_times := request_times s;
     current_session := current_session s; sync_history := sync_history s;
     last_sync_time := last_sync_time s; trace := trace s |}.

Definition set_expires_at (v : Q) (s : store) : store :=
  {| access_token := access_token s; refresh_token := refresh_token s;
     expires_at := v; request_times := request_times s;
     current_session := current_session s; sync_history := sync_history s;
     last_sync_time := last_sync_time s; trace := trace s |}.

Definition set_request_times (v : list Q) (s : store) : store :=
  {| access_token := access_token s; refresh_token := refresh_token s;
     expires_at := expires_at s; request_times := v;
     current_session := current_session s; sync_history := sync_history s;
     last_sync_time := last_sync_time s; trace := trace s |}.

Definition set_current_session (v : option session) (s : store) : store :=
  {| access_token := access_token s; refresh_token := refresh_token s;
     expires_at := expires_at s; request_times := request_times s;
     current_session := v; sync_history := sync_history s;
     last_sync_time := last_sync_time s; trace := trace s |}.

Definition set_sync_history (v : list sync_record) (s : store) : store :=
  {| access_token := access_token s; refresh_token := refresh_token s;
     expires_at := expires_at s; request_times := request_times s;
     current_session := current_session s; sync_history := v;
     last_sync_time := last_sync_time s; trace := trace s |}.

Definition set_last_sync_time (v : option datetime) (s : store) : store :=
  {| access_token := access_token s; refresh_token := refresh_token s;
     expires_at := expires_at s; request_times := request_times s;
     current_session := current_session s; sync_history := sync_history s;
     last_sync_time := v; trace := trace s |}.

Definition add_event (ev : event) (s : store) : store :=
  {| access_token := access_token s; refresh_token := refresh_token s;
     expires_at := expires_at s; request_times := request_times s;
     current_session := current_session s; sync_history := sync_history s;
     last_sync_time := last_sync_time s; trace := trace s ++ [ev] |}.

(* ================================================================== *)
(** ** What the code receives from outside *)

(** The [state] string of the distance entity: the two markers of the
    host, or a text that [float()] parses or rejects. *)
Inductive sensor_value : Type :=
| STATE_UNAVAILABLE
| STATE_UNKNOWN
| StateText (parsed : option Q).

(** The dict returned by the token endpoint; a key may be missing. *)
Record token_data : Type := {
  td_access_token : option string;
  td_refresh_token : option string;
  td_expires_in : option Q
}.

(** The outcome of [self.client.activities]: a response, whose nested
    [activityLog.logId] may be absent, or one of the exceptions that
    [create_activity_log] tells apart. *)
Inductive http_reply : Type :=
| HttpOk (logId : option Z)
| HTTPUnauthorized
| HTTPTooManyRequests
| HTTPBadRequest
| HttpOtherFailure.

Record env : Type := {
  (* entry.data *)
  data_activity_type : option string;
  data_stride_length : option Q;
  data_auto_sync : option bool;
  data_notification_enabled : option bool;
  (* entry.options *)
  options_distance_entity : option string;
  (* hass.states.get *)
  states_get : string -> option sensor_value;
  (* time.time() in _ensure_token_valid, _refresh_token, _check_rate_limit *)
  time_ensure_token_valid : Q;
  time_refresh_token : Q;
  time_check_rate_limit : Q;
  (* datetime.now() for the record, for last_sync_time, in manual_sync *)
  now_timestamp : datetime;
  now_last_sync : datetime;
  now_manual_sync : datetime;
  (* replies: the token endpoint (None: the call raised), the host's
     async_update_entry, the activities endpoint, the profile endpoint *)
  refresh_reply : option token_data;
  update_entry_raises : bool;
  activities_reply : http_reply;
  profile_raises : bool
}.

(* ================================================================== *)
(** ** Methods as transformers of the store *)

Definition M (A : Type) : Type := store -> result A * store.

Definition ret {A : Type} (a : A) : M A := fun s => (Ok a, s).

Definition raise {A : Type} (e : exn) : M A := fun s => (Raise e, s).

Definition bind {A B : Type} (m : M A) (k : A -> M B) : M B :=
  fun s =>
    match m s with
    | (Ok a, s') => k a s'
    | (Raise e, s') => (Raise e, s')
    end.

Notation "x <- m ;; k" := (bind m (fun x => k))
  (at level 61, m at next level, right associativity).
Notation "m ;;; k" := (bind m (fun _ => k))
  (at level 61, right associativity).

(** [try: body  except Exception as err: handler err]. *)
Definition try_except {A : Type} (body : M A) (handler : exn -> M A) : M A :=
  fun s =>
    match body s with
    | (Ok a, s') => (Ok a, s')
    | (Raise e, s') => handler e s'
    end.

(** [try: body  finally: fin]. *)
Definition try_finally {A : Type} (body : M A) (fin : M unit) : M A :=
  fun s =>
    match body s with
    | (r, s') =>
        match fin s' with
        | (Ok _, s'') => (r, s'')
        | (Raise e, s'') => (Raise e, s'')
        end
    end.

Definition get {A : Type} (f : store -> A) : M A := fun s => (Ok (f s), s).

Definition modify (f : store -> store) : M unit := fun s => (Ok tt, f s).

Definition emit (ev : event) : M unit := modify (add_event ev).

(* ================================================================== *)
(** ** api.py: class FitbitAPI *)

(** [token_data[key]]: a missing key raises [KeyError]. *)
Definition index {A : Type} (key : string) (v : option A) : M A :=
  match v with
  | Some a => ret a
  | None => raise (KeyError key)
  end.

(** The part of [_refresh_token] that runs once the awaited executor job
    has replied: the rest of the [try] block and the [except] clause. *)
Definition refresh_after_reply (e : env) : M unit :=
  try_except
    ( token_data <- match refresh_reply e with
                    | Some td => ret td
                    | None => raise ExternalFailure
                    end ;;
      (* Update stored tokens *)
      a <- index "access_token" (td_access_token token_data) ;;
      modify (set_access_token a) ;;;
      r <- index "refresh_token" (td_refresh_token token_data) ;;
      modify (set_refresh_token r) ;;;
      x <- index "expires_in" (td_expires_in token_data) ;;
      modify (set_expires_at (time_refresh_token e + x)) ;;;
      (* Update config entry *)
      a' <- get access_token ;;
      r' <- get refresh_token ;;
      x' <- get expires_at ;;
      emit (UpdateEntry a' r' x') ;;;
      if update_entry_raises e then raise ExternalFailure else ret tt )
    (fun err => raise ConfigEntryAuthFailed).

(** [FitbitAPI._refresh_token]: the request to the token endpoint is
    handed to the executor and awaited, then the reply is processed. *)
Definition _refresh_token (e : env) : M unit :=
  emit RefreshTokenRequest ;;;
  refresh_after_reply e.

(** The test [current_time >= self.expires_at - TOKEN_REFRESH_BUFFER]. *)
Definition needs_refresh (current_time expires : Q) : bool :=
  Qle_bool (expires - TOKEN_REFRESH_BUFFER) current_time.

(** [FitbitAPI._ensure_token_valid]. *)
Definition _ensure_token_valid (e : env) : M unit :=
  let current_time := time_ensure_token_valid e in
  x <- get expires_at ;;
  if needs_refresh current_time x then _refresh_token e else ret tt.

(** [FitbitAPI._check_rate_limit]. *)
Definition _check_rate_limit (e : env) : M unit :=
  fun s =>
    match check_rate_limit_at (time_check_rate_limit e) (request_times s) with
    | (r, times) => (r, set_request_times times s)
    end.

(** [FitbitAPI.convert_distance_to_steps]; float division by zero raises. *)
Definition convert_distance_to_steps
    (distance_miles stride_feet : Q) (activity : string) : M (Z * string) :=
  let distance_feet := distance_miles * FEET_PER_MILE in
  if Qeq_bool stride_feet 0 then raise ZeroDivisionError
  else
    let steps := py_int (distance_feet / stride_feet) in
    ret (steps, "manual_calculation"%string).

(** [FitbitAPI.create_activity_log]; it returns the response, of which the
    caller reads [activityLog.logId]. *)
Definition create_activity_log (e : env)
    (activity : string) (miles : Q) (start : datetime)
    (minutes : Z) (nsteps : option Z) : M (option Z) :=
  (* Ensure token is valid *)
  _ensure_token_valid e ;;;
  (* Check rate limit *)
  _check_rate_limit e ;;;
  let activity_id := activity_id_of activity in
  let data :=
    {| activityId := activity_id;
       startTime := start;
       durationMillis := minutes * 60 * 1000;
       date := start;
       distance := miles;
       distanceUnit := "mi";
       payload_steps := nsteps |} in
  emit (ActivitiesRequest data) ;;;
  match activities_reply e with
  | HttpOk logId => ret logId
  | HTTPUnauthorized => raise ConfigEntryAuthFailed
  | HTTPTooManyRequests => raise RateLimitError
  | HTTPBadRequest => raise FitbitAPIError
  | HttpOtherFailure => raise FitbitAPIError
  end.

(** [FitbitAPI.get_user_profile]. *)
Definition get_user_profile (e : env) : M unit :=
  _ensure_token_valid e ;;;
  emit UserProfileRequest ;;;
  if profile_raises e then raise FitbitAPIError else ret tt.

(* ================================================================== *)
(** ** coordinator.py: class FitbitTreadmillCoordinator *)

(** [d.get(key, default)]. *)
Definition get_default {A : Type} (v : option A) (default : A) : A :=
  match v with
  | Some a => a
  | None => default
  end.

(** [FitbitTreadmillCoordinator._get_distance_value]. *)
Definition _get_distance_value (e : env) : M Q :=
  match options_distance_entity e with
  | None => raise (ValueError DistanceEntityNotConfigured)
  | Some distance_entity =>
      if String.eqb distance_entity ""
      then raise (ValueError DistanceEntityNotConfigured)
      else
        match states_get e distance_entity with
        | None => raise (ValueError DistanceEntityNotFound)
        | Some STATE_UNAVAILABLE => raise (ValueError DistanceEntityUnavailable)
        | Some STATE_UNKNOWN => raise (ValueError DistanceEntityUnavailable)
        | Some (StateText None) => raise (ValueError InvalidDistanceValue)
        | Some (StateText (Some distance)) => ret distance
        end
  end.

(** [FitbitTreadmillCoordinator._notify_sync_result]. *)
Definition _notify_sync_result (e : env) (ok : bool) (nsteps : option Z)
    (miles : option Q) (error : option error_text) : M unit :=
  if negb (get_default (data_notification_enabled e) true) then ret tt
  else emit (Notification ok nsteps miles error).

(** [self._sync_history.append(sync_record)], then the [pop(0)] when the
    list is longer than [MAX_HISTORY_SIZE]. *)
Definition append_history (r : sync_record) (h : list sync_record)
  : list sync_record :=
  let h := h ++ [r] in
  if (MAX_HISTORY_SIZE <? length h)%nat then tl h else h.

(** The [except] clauses of [_async_sync_workout], in their order. *)
Definition sync_workout_handler (e : env) (err : exn) : M sync_record :=
  match err with
  | ConfigEntryAuthFailed =>
      _notify_sync_result e false None None (Some AuthenticationFailedText) ;;;
      emit StartReauth ;;;
      raise err
  | RateLimitError =>
      _notify_sync_result e false None None (Some RateLimitExceededText) ;;;
      raise err
  | FitbitAPIError =>
      _notify_sync_result e false None None (Some (FitbitApiErrorText err)) ;;;
      raise err
  | _ =>
      _notify_sync_result e false None None (Some (UnexpectedErrorText err)) ;;;
      raise err
  end.

(** [FitbitTreadmillCoordinator._async_sync_workout]. *)
Definition _async_sync_workout (e : env)
    (miles : Q) (start : datetime) (minutes : Z) : M sync_record :=
  try_except
    ( (* Get configuration *)
      let activity := get_default (data_activity_type e) "Walking"%string in
      let stride_length := get_default (data_stride_length e) (5 # 2) in
      (* Convert distance to steps *)
      sm <- convert_distance_to_steps miles stride_length activity ;;
      let nsteps := fst sm in
      let method := snd sm in
      emit (LogCreatingActivity activity miles nsteps method) ;;;
      (* Create activity log in Fitbit *)
      response <- create_activity_log e activity miles start minutes
                    (Some nsteps) ;;
      (* Record in history *)
      let record :=
        {| timestamp := now_timestamp e;
           distance_miles := miles;
           steps := nsteps;
           duration_minutes := minutes;
           conversion_method := method;
           activity_type := activity;
           success := true;
           fitbit_log_id := response |} in
      modify (fun s =>
                set_sync_history (append_history record (sync_history s)) s) ;;;
      modify (set_last_sync_time (Some (now_last_sync e))) ;;;
      (* Notify user *)
      _notify_sync_result e true (Some nsteps) (Some miles) None ;;;
      (* Fire event for automations *)
      emit (WorkoutSynced nsteps miles minutes method) ;;;
      ret record )
    (sync_workout_handler e).

(** [FitbitTreadmillCoordinator._async_start_session]. *)
Definition _async_start_session (e : env) (start : datetime) : M unit :=
  try_except
    ( miles <- _get_distance_value e ;;
      modify (set_current_session
                (Some {| start_time := start; start_distance := miles |})) )
    (fun err =>
       modify (set_current_session
                 (Some {| start_time := start; start_distance := 0 |}))).

(** The statement
    [duration_minutes = max(1, int(duration.total_seconds() / 60))]
    of [_async_complete_session]. *)
Definition duration_minutes_of (start end_time : datetime) : Z :=
  let duration := (end_time - start)%Z in
  max1 (py_int (total_seconds duration / 60)).

(** The [try / except / finally] of [_async_complete_session], for the
    [start_time] and [start_distance] chosen before it. *)
Definition complete_session_from (e : env)
    (end_time start : datetime) (start_miles : Q) : M unit :=
  try_finally
    (try_except
       ( (* Get final distance *)
         end_distance <- _get_distance_value e ;;
         let workout_distance := end_distance - start_miles in
         (* Validate distance *)
         if Qlt_bool workout_distance MIN_DISTANCE then
           _notify_sync_result e false None None
             (Some (DistanceTooSmall workout_distance)) ;;;
           modify (set_current_session None)
         else if Qlt_bool MAX_DISTANCE workout_distance then
           _notify_sync_result e false None None
             (Some (DistanceTooLarge workout_distance)) ;;;
           modify (set_current_session None)
         else
           (* Calculate duration *)
           let minutes := duration_minutes_of start end_time in
           (* Sync to Fitbit *)
           _async_sync_workout e workout_distance start minutes ;;;
           ret tt )
       (fun err => _notify_sync_result e false None None (Some (StrOf err))))
    (modify (set_current_session None)).

(** [FitbitTreadmillCoordinator._async_complete_session]. *)
Definition _async_complete_session (e : env) (end_time : datetime) : M unit :=
  cur <- get current_session ;;
  match cur with
  | None => complete_session_from e end_time end_time 0
  | Some ses =>
      complete_session_from e end_time (start_time ses) (start_distance ses)
  end.

(** The host's [State] object: its [state] string and [last_changed]. *)
Record State : Type := {
  state : string;
  last_changed : datetime
}.

(** [FitbitTreadmillCoordinator._async_status_changed], on the event's
    [old_state] and [new_state]. *)
Definition _async_status_changed (e : env)
    (old_state new_state : option State) : M unit :=
  match new_state, old_state with
  | Some new_state, Some old_state =>
      if negb (String.eqb (state old_state) STATE_WORKING)
         && String.eqb (state new_state) STATE_WORKING
      then _async_start_session e (last_changed new_state)
      else if String.eqb (state old_state) STATE_WORKING
              && String.eqb (state new_state) STATE_POST_WORKOUT
      then
        if get_default (data_auto_sync e) true
        then _async_complete_session e (last_changed new_state)
        else ret tt
      else ret tt
  | _, _ => ret tt
  end.

(** [FitbitTreadmillCoordinator.manual_sync]. *)
Definition manual_sync (e : env) (distance_override : option Q)
  : M sync_record :=
  try_except
    ( (* Get distance *)
      miles <- match distance_override with
               | Some d => ret d
               | None => _get_distance_value e
               end ;;
      (* Use current time *)
      let start := now_manual_sync e in
      (* Estimate duration based on distance *)
      let minutes := max1 (py_int (miles * 20)) in
      _async_sync_workout e miles start minutes )
    (fun err =>
       _notify_sync_result e false None None (Some (StrOf err)) ;;;
       raise err).

(* ================================================================== *)
(** ** Callers of [_ensure_token_valid] on the event loop

    The methods are coroutines: a caller runs without interruption up to
    an [await] that suspends it, and the loop may run another caller in
    between.  [_ensure_token_valid] suspends at one place only, the
    [await] of the refresh job; the code holds no lock around it. *)

Inductive caller : Type :=
| Ready                          (* has not started *)
| AwaitingRefresh                (* suspended, its refresh call in flight *)
| Finished (r : result unit).

(** The store shared by the callers and where each of them stands. *)
Record loop : Type := {
  shared : store;
  callers : list caller
}.

(** What the loop does next: start caller [i] when the clock reads [now],
    or resume caller [i] with the reply of its refresh job (the reply, the
    clock reading and the host's answer are in [e]). *)
Inductive action : Type :=
| Start (i : nat) (now : Q)
| Resume (i : nat) (e : env).

Fixpoint set_nth {A : Type} (i : nat) (a : A) (l : list A) : list A :=
  match l, i with
  | [], _ => []
  | _ :: l', O => a :: l'
  | x :: l', S i' => x :: set_nth i' a l'
  end.

(** One turn of the loop; an action that is not enabled changes nothing. *)
Definition loop_step (a : action) (l : loop) : loop :=
  match a with
  | Start i now =>
      match nth_error (callers l) i with
      | Some Ready =>
          if needs_refresh now (expires_at (shared l))
          then {| shared := add_event RefreshTokenRequest (shared l);
                  callers := set_nth i AwaitingRefresh (callers l) |}
          else {| shared := shared l;
                  callers := set_nth i (Finished (Ok tt)) (callers l) |}
      | _ => l
      end
  | Resume i e =>
      match nth_error (callers l) i with
      | Some AwaitingRefresh =>
          match refresh_after_reply e (shared l) with
          | (r, s') => {| shared := s';
                          callers := set_nth i (Finished r) (callers l) |}
          end
      | _ => l
      end
  end.

Fixpoint loop_run (acts : list action) (l : loop) : loop :=
  match acts with
  | [] => l
  | a :: acts' => loop_run acts' (loop_step a l)
  end.

Definition is_awaiting (c : caller) : bool :=
  match c with
  | AwaitingRefresh => true
  | _ => false
  end.

(** The number of refresh calls in flight. *)
Definition in_flight (l : loop) : nat :=
  length (filter is_awaiting (callers l)).

(** Callers that do not overlap: each one is started and, if it was
    suspended, resumed before the next one starts. *)
Fixpoint one_after_another (calls : list (nat * env)) : list action :=
  match calls with
  | [] => []
  | (i, e) :: calls' =>
      Start i (time_ensure_token_valid e) :: Resume i e
        :: one_after_another calls'
  end.

(* ================================================================== *)
(** ** What the statements below speak of *)

Definition is_refresh_request (ev : event) : bool :=
  match ev with
  | RefreshTokenRequest => true
  | _ => false
  end.

Definition is_remote_request (ev : event) : bool :=
  match ev with
  | RefreshTokenRequest | ActivitiesRequest _ | UserProfileRequest => true
  | _ => false
  end.

(** The number of requests to the remote service sent so far, and of
    those the refresh requests. *)
Definition remote_requests (s : store) : nat :=
  length (filter is_remote_request (trace s)).

Definition refresh_requests (s : store) : nat :=
  length (filter is_refresh_request (trace s)).

(** The coordinator's attributes are the same in both stores. *)
Definition same_coordinator (s s' : store) : Prop :=
  sync_history s' = sync_history s
  /\ current_session s' = current_session s
  /\ last_sync_time s' = last_sync_time s.

(** The three token attributes are the same in both stores. *)
Definition same_tokens (s s' : store) : Prop :=
  access_token s' = access_token s
  /\ refresh_token s' = refresh_token s
  /\ expires_at s' = expires_at s.


Definition quota_left (e : env) (s : store) : Prop :=
  (length (filter (within_hour (time_check_rate_limit e)) (request_times s))
   < 150)%nat.

(** The start time and start distance that [_async_complete_session] takes
    from [self._current_session]. *)
Definition session_start (cur : option session) (end_time : datetime)
  : datetime :=
  match cur with
  | Some ses => start_time ses
  | None => end_time
  end.

Definition session_start_distance (cur : option session) : Q :=
  match cur with
  | Some ses => start_distance ses
  | None => 0
  end.

(** What [_notify_sync_result] does to the store. *)
Definition notified (e : env) (ev : event) (s : store) : store :=
  if get_default (data_notification_enabled e) true then add_event ev s else s.

(** The dict [sync_record] that [_async_sync_workout] builds. *)
Definition sync_record_of (e : env) (activity : string) (miles : Q)
    (nsteps minutes : Z) (method : string) (logId : option Z) : sync_record :=
  {| timestamp := now_timestamp e;
     distance_miles := miles;
     steps := nsteps;
     duration_minutes := minutes;
     conversion_method := method;
     activity_type := activity;
     success := true;
     fitbit_log_id := logId |}.

(** The store after the bookkeeping of a successful [_async_sync_workout]:
    history, [last_sync_time], notification, event. *)
Definition synced (e : env) (r : sync_record) (s : store) : store :=
  add_event
    (WorkoutSynced (steps r) (distance_miles r) (duration_minutes r)
       (conversion_method r))
    (notified e
       (Notification true (Some (steps r)) (Some (distance_miles r)) None)
       (set_last_sync_time (Some (now_last_sync e))
          (set_sync_history (append_history r (sync_history s)) s))).

(** The store after the [except] clause of [_async_sync_workout] that
    catches [err]. *)
Definition handled (e : env) (err : exn) (s : store) : store :=
  match err with
  | ConfigEntryAuthFailed =>
      add_event StartReauth
        (notified e
           (Notification false None None (Some AuthenticationFailedText)) s)
  | RateLimitError =>
      notified e (Notification false None None (Some RateLimitExceededText)) s
  | FitbitAPIError =>
      notified e
        (Notification false None None (Some (FitbitApiErrorText err))) s
  | _ =>
      notified e
        (Notification false None None (Some (UnexpectedErrorText err))) s
  end.

(** The dict [activity_data] that [create_activity_log] builds. *)
Definition activity_data_of (activity : string) (miles : Q) (start : datetime)
    (minutes : Z) (nsteps : option Z) : activity_data :=
  {| activityId := activity_id_of activity;
     startTime := start;
     durationMillis := minutes * 60 * 1000;
     date := start;
     distance := miles;
     distanceUnit := "mi";
     payload_steps := nsteps |}.

(** The result of [create_activity_log] for each reply of the service. *)
Definition result_of_reply (reply : http_reply) : result (option Z) :=
  match reply with
  | HttpOk logId => Ok logId
  | HTTPUnauthorized => Raise ConfigEntryAuthFailed
  | HTTPTooManyRequests => Raise RateLimitError
  | HTTPBadRequest => Raise FitbitAPIError
  | HttpOtherFailure => Raise FitbitAPIError
  end.

(* ================================================================== *)
(** ** The specification's rounding *)

(** Follows the spec's words, for comparison with [duration_minutes_of]:
    the elapsed time rounded to the nearest minute, with a floor of 1. *)
Definition round_nearest (x : Q) : Z := Qfloor (x + (1 # 2)).

Definition spec_duration_minutes (start end_time : datetime) : Z :=
  Z.max 1 (round_nearest (total_seconds (end_time - start) / 60)).

(* ================================================================== *)
(** ** Concrete inputs of the examples *)

(** Clock readings with one step back of a second: 150 attempts at 3600,
    one at 7200, then 149 at 7199. *)
Definition clock_steps_back : list Q :=
  repeat 3600 150 ++ [7200] ++ repeat 7199 149.

(** Clock readings that never go back. *)
Definition steady_clock : list Q := [0; 10; 10; 4000].

(** A store with a session open since time 0 at reading 1.0: the token is
    valid for a long time yet, the rate window and the history are empty. *)
Definition store_in_session : store :=
  {| access_token := "at0"; refresh_token := "rt0";
     expires_at := 100000; request_times := [];
     current_session := Some {| start_time := 0%Z; start_distance := 1 |};
     sync_history := []; last_sync_time := None; trace := [] |}.

(** The same store with no session open. *)
Definition store_idle : store := set_current_session None store_in_session.

(** A store whose rate window holds 150 requests of the last hour. *)
Definition store_quota_used : store :=
  set_request_times (repeat 4000 150) store_idle.

(** A store whose token expires 100 seconds after the clock reading 5000
    of [env_reading]. *)
Definition store_near_expiry : store := set_expires_at 5100 store_idle.

(** An environment in which the distance sensor shows [reading]: activity
    Treadmill, stride 2.5 ft, notifications and auto-sync enabled, the
    clock at 5000 s, the token endpoint failing and the activities
    endpoint answering with log id 77. *)
Definition env_reading (reading : Q) : env :=
  {| data_activity_type := Some "Treadmill"%string;
     data_stride_length := Some (5 # 2);
     data_auto_sync := Some true;
     data_notification_enabled := Some true;
     options_distance_entity := Some "sensor.treadmill_distance"%string;
     states_get := fun _ => Some (StateText (Some reading));
     time_ensure_token_valid := 5000;
     time_refresh_token := 5001;
     time_check_rate_limit := 5002;
     now_timestamp := 1800000000%Z;
     now_last_sync := 1800000001%Z;
     now_manual_sync := 1800000002%Z;
     refresh_reply := None;
     update_entry_raises := false;
     activities_reply := HttpOk (Some 77%Z);
     profile_raises := false |}.

(** An environment with another reply of the token endpoint. *)
Definition with_refresh_reply (reply : option token_data) (e : env) : env :=
  {| data_activity_type := data_activity_type e;
     data_stride_length := data_stride_length e;
     data_auto_sync := data_auto_sync e;
     data_notification_enabled := data_notification_enabled e;
     options_distance_entity := options_distance_entity e;
     states_get := states_get e;
     time_ensure_token_valid := time_ensure_token_valid e;
     time_refresh_token := time_refresh_token e;
     time_check_rate_limit := time_check_rate_limit e;
     now_timestamp := now_timestamp e;
     now_last_sync := now_last_sync e;
     now_manual_sync := now_manual_sync e;
     refresh_reply := reply;
     update_entry_raises := update_entry_raises e;
     activities_reply := activities_reply e;
     profile_raises := profile_raises e |}.

(** A reply of the token endpoint without the key [refresh_token]. *)
Definition reply_without_refresh_token : token_data :=
  {| td_access_token := Some "at1"%string;
     td_refresh_token := None;
     td_expires_in := Some 28800 |}.

(** A complete reply of the token endpoint. *)
Definition reply_complete : token_data :=
  {| td_access_token := Some "at1"%string;
     td_refresh_token := Some "rt1"%string;
     td_expires_in := Some 28800 |}.

(** A [State] object of the status entity. *)
Definition status_at (status : string) (changed : datetime) : State :=
  {| state := status; last_changed := changed |}.

(** Two callers that have not started, on the store whose token is near
    expiry. *)
Definition two_callers : loop :=
  {| shared := store_near_expiry; callers := [Ready; Ready] |}.

(* ================================================================== *)
(** ** Relations between the store before and after a method *)

(** Every run of [m] takes a store to one that [R] relates to it. *)
Definition relates (R : store -> store -> Prop) {A : Type} (m : M A) : Prop :=
  forall (s : store) (r : result A) (s' : store), m s = (r, s') -> R s s'.

(** The trace grows by events that all satisfy [P]. *)
Definition emits_only (P : event -> Prop) (s s' : store) : Prop :=
  exists evs : list event, trace s' = trace s ++ evs /\ Forall P evs.

(** The attribute [f] has the same value. *)
Definition keeps {A : Type} (f : store -> A) (s s' : store) : Prop :=
  f s' = f s.

(** The property [I] of the store is not lost. *)
Definition maintains (I : store -> Prop) (s s' : store) : Prop :=
  I s -> I s'.

(** The events that [create_activity_log] may send for its arguments. *)
Definition create_event (activity : string) (miles : Q) (start : datetime)
    (minutes : Z) (nsteps : option Z) (ev : event) : Prop :=
  match ev with
  | RefreshTokenRequest | UpdateEntry _ _ _ => True
  | ActivitiesRequest data =>
      data = activity_data_of activity miles start minutes nsteps
  | _ => False
  end.

(** The events that [_async_sync_workout] may send for its arguments: a
    notification needs notifications enabled, a success notification and
    the event for automations carry the synced values, and the profile is
    never requested. *)
Definition sync_event (e : env) (miles : Q) (start : datetime) (minutes : Z)
    (ev : event) : Prop :=
  let activity := get_default (data_activity_type e) "Walking"%string in
  let stride := get_default (data_stride_length e) (5 # 2) in
  let nsteps := py_int (miles * FEET_PER_MILE / stride) in
  match ev with
  | RefreshTokenRequest | UpdateEntry _ _ _ | StartReauth => True
  | ActivitiesRequest data =>
      data = activity_data_of activity miles start minutes (Some nsteps)
  | LogCreatingActivity a m n _ => a = activity /\ m = miles /\ n = nsteps
  | Notification ok n m err =>
      get_default (data_notification_enabled e) true = true
      /\ (if ok then n = Some nsteps /\ m = Some miles /\ err = None
          else n = None /\ m = None /\ err <> None)
  | WorkoutSynced n m mins _ => n = nsteps /\ m = miles /\ mins = minutes
  | UserProfileRequest => False
  end.

(** A failure notification, sent with notifications enabled. *)
Definition failure_notice (e : env) (ev : event) : Prop :=
  exists why : error_text,
    ev = Notification false None None (Some why)
    /\ get_default (data_notification_enabled e) true = true.

(** The events of the completion pipeline: a failure notification, or an
    event of a sync whose distance lies within the bounds and whose
    duration is at least a minute. *)
Definition completion_event (e : env) (ev : event) : Prop :=
  failure_notice e ev
  \/ exists (miles : Q) (start : datetime) (minutes : Z),
       MIN_DISTANCE <= miles /\ miles <= MAX_DISTANCE /\ (1 <= minutes)%Z
       /\ sync_event e miles start minutes ev.

(** The events of a manual sync: a failure notification, or an event of a
    sync that starts now and lasts the estimated time. *)
Definition manual_event (e : env) (ev : event) : Prop :=
  failure_notice e ev
  \/ exists miles : Q,
       sync_event e miles (now_manual_sync e) (max1 (py_int (miles * 20))) ev.

(** The same environment with notifications switched off, and with
    another reply of the activities endpoint. *)
Definition with_notifications (enabled : option bool) (e : env) : env :=
  {| data_activity_type := data_activity_type e;
     data_stride_length := data_stride_length e;
     data_auto_sync := data_auto_sync e;
     data_notification_enabled := enabled;
     options_distance_entity := options_distance_entity e;
     states_get := states_get e;
     time_ensure_token_valid := time_ensure_token_valid e;
     time_refresh_token := time_refresh_token e;
     time_check_rate_limit := time_check_rate_limit e;
     now_timestamp := now_timestamp e;
     now_last_sync := now_last_sync e;
     now_manual_sync := now_manual_sync e;
     refresh_reply := refresh_reply e;
     update_entry_raises := update_entry_raises e;
     activities_reply := activities_reply e;
     profile_raises := profile_raises e |}.

Definition with_activities_reply (reply : http_reply) (e : env) : env :=
  {| data_activity_type := data_activity_type e;
     data_stride_length := data_stride_length e;
     data_auto_sync := data_auto_sync e;
     data_notification_enabled := data_notification_enabled e;
     options_distance_entity := options_distance_entity e;
     states_get := states_get e;
     time_ensure_token_valid := time_ensure_token_valid e;
     time_refresh_token := time_refresh_token e;
     time_check_rate_limit := time_check_rate_limit e;
     now_timestamp := now_timestamp e;
     now_last_sync := now_last_sync e;
     now_manual_sync := now_manual_sync e;
     refresh_reply := refresh_reply e;
     update_entry_raises := update_entry_raises e;
     activities_reply := reply;
     profile_raises := profile_raises e |}.

(** The same environment with another state of the distance entity. *)
Definition with_sensor (v : option sensor_value) (e : env) : env :=
  {| data_activity_type := data_activity_type e;
     data_stride_length := data_stride_length e;
     data_auto_sync := data_auto_sync e;
     data_notification_enabled := data_notification_enabled e;
     options_distance_entity := options_distance_entity e;
     states_get := fun _ => v;
     time_ensure_token_valid := time_ensure_token_valid e;
     time_refresh_token := time_refresh_token e;
     time_check_rate_limit := time_check_rate_limit e;
     now_timestamp := now_timestamp e;
     now_last_sync := now_last_sync e;
     now_manual_sync := now_manual_sync e;
     refresh_reply := refresh_reply e;
     update_entry_raises := update_entry_raises e;
     activities_reply := activities_reply e;
     profile_raises := profile_raises e |}.

Definition is_notification (ev : event) : bool :=
  match ev with
  | Notification _ _ _ _ => true
  | _ => false
  end.

(** The sync history holds at most [MAX_HISTORY_SIZE] entries and every
    one of them is a success. *)
Definition history_ok (s : store) : Prop :=
  (length (sync_history s) <= MAX_HISTORY_SIZE)%nat
  /\ Forall (fun r => success r = true) (sync_history s).

(** A store whose history holds 50 successful entries. *)
Definition store_full_history : store :=
  set_sync_history
    (repeat (sync_record_of (env_reading 0) "Treadmill" 1 2112 20
               "manual_calculation" None) 50)
    store_idle.

Definition is_activities_request (ev : event) : bool :=
  match ev with
  | ActivitiesRequest _ => true
  | _ => false
  end.

(** The number of activities requests sent so far. *)
Definition activities_requests (s : store) : nat :=
  length (filter is_activities_request (trace s)).

(** The stored timestamps and the attempts lie within less than an hour
    of each other. *)
Definition within_one_hour (ts : list Q) : Prop :=
  forall x y : Q, In x ts -> In y ts -> y - x < 3600.

(** 200 attempts, one per second from 1000 on. *)
Definition burst : list Q :=
  map (fun n => inject_Z (1000 + Z.of_nat n)) (seq 0 200).

(** An environment with another reading of the clock in
    [_ensure_token_valid]. *)
Definition with_time_ensure (t : Q) (e : env) : env :=
  {| data_activity_type := data_activity_type e;
     data_stride_length := data_stride_length e;
     data_auto_sync := data_auto_sync e;
     data_notification_enabled := data_notification_enabled e;
     options_distance_entity := options_distance_entity e;
     states_get := states_get e;
     time_ensure_token_valid := t;
     time_refresh_token := time_refresh_token e;
     time_check_rate_limit := time_check_rate_limit e;
     now_timestamp := now_timestamp e;
     now_last_sync := now_last_sync e;
     now_manual_sync := now_manual_sync e;
     refresh_reply := refresh_reply e;
     update_entry_raises := update_entry_raises e;
     activities_reply := activities_reply e;
     profile_raises := profile_raises e |}.

(** The text of the failure notification that the [except] clauses of
    [_async_sync_workout] send for [err]. *)
Definition handler_text (err : exn) : error_text :=
  match err with
  | ConfigEntryAuthFailed => AuthenticationFailedText
  | RateLimitError => RateLimitExceededText
  | FitbitAPIError => FitbitApiErrorText err
  | _ => UnexpectedErrorText err
  end.

(** The events that the two handlers of a failed sync add in the
    completion pipeline: the one of [_async_sync_workout], then the one
    of [_async_complete_session]. *)
Definition failure_events (e : env) (err : exn) : list event :=
  (if get_default (data_notification_enabled e) true
   then [Notification false None None (Some (handler_text err))] else [])
  ++ (match err with ConfigEntryAuthFailed => [StartReauth] | _ => [] end)
  ++ (if get_default (data_notification_enabled e) true
      then [Notification false None None (Some (StrOf err))] else []).

(** The activities count grows by one at most. *)
Definition one_more_at_most (s s' : store) : Prop :=
  (activities_requests s' <= S (activities_requests s))%nat.

(* ================================================================== *)
(** ** config_flow.py: the two steps that store the stride *)

Definition DEFAULT_ACTIVITY_TYPE : string := "Walking".
Definition DEFAULT_AUTO_SYNC : bool := true.
Definition DEFAULT_NOTIFICATION_ENABLED : bool := true.
Definition DEFAULT_STRIDE_MULTIPLIER : Q := 413 # 1000.
Definition INCHES_TO_FEET : Q := 12.
Definition MIN_HEIGHT : Q := 36.
Definition MAX_HEIGHT : Q := 96.

(** The keys of [user_input] that the two steps read; a key may be
    missing. *)
Record user_input : Type := {
  ui_status_entity : option string;
  ui_distance_entity : option string;
  ui_activity_type : option string;
  ui_stride_length : option Q;
  ui_user_height : option Q;
  ui_auto_sync : option bool;
  ui_notification_enabled : option bool
}.

(** The keys of [entry.data] that the steps write. *)
Record entry_data : Type := {
  ed_activity_type : option string;
  ed_stride_length : option Q;
  ed_auto_sync : bool;
  ed_notification_enabled : bool
}.

(** The dict [errors]: keys with their messages, in the order in which
    they were set. *)
Definition errors : Type := list (string * string).

(** The stride and height validation, the same statements in both
    steps: the height is looked at only when no stride is given. *)
Definition stride_errors (stride_length user_height : option Q) : errors :=
  match stride_length, user_height with
  | None, None => [("base", "stride_or_height_required")]%string
  | Some stride, _ =>
      if Qlt_bool stride MIN_STRIDE || Qlt_bool MAX_STRIDE stride
      then [("stride_length", "stride_out_of_range")]%string
      else []
  | None, Some height =>
      if Qlt_bool height MIN_HEIGHT || Qlt_bool MAX_HEIGHT height
      then [("user_height", "height_out_of_range")]%string
      else []
  end.

(** The statement that calculates the stride from the height when no
    stride is given. *)
Definition stride_or_from_height (stride_length user_height : option Q)
  : option Q :=
  match stride_length, user_height with
  | None, Some height =>
      Some ((height * DEFAULT_STRIDE_MULTIPLIER) / INCHES_TO_FEET)
  | _, _ => stride_length
  end.

(** What a step returns: the form again with the errors, the entry that
    is created or updated, the abort of an already configured entry, or
    the [KeyError] of [user_input[key]]. *)
Inductive flow_result : Type :=
| ShowForm (step_id : string) (errs : errors)
| CreateEntry (data : entry_data) (status distance : option string)
| AbortAlreadyConfigured
| FlowKeyError (key : string).

(** [FitbitOAuth2FlowHandler.async_step_conversion]; [entity_config] is
    what the entities step stored, [configured] says whether the unique
    id is configured already. *)
Definition async_step_conversion (entity_config : user_input)
    (configured : bool) (input : option user_input) : flow_result :=
  match input with
  | None => ShowForm "conversion" []
  | Some ui =>
      let activity_type := ui_activity_type ui in
      let stride_length := ui_stride_length ui in
      let user_height := ui_user_height ui in
      let errs := stride_errors stride_length user_height in
      match errs with
      | [] =>
          let stride_length :=
            stride_or_from_height stride_length user_height in
          let config_data :=
            {| ed_activity_type := activity_type;
               ed_stride_length := stride_length;
               ed_auto_sync :=
                 get_default (ui_auto_sync ui) DEFAULT_AUTO_SYNC;
               ed_notification_enabled :=
                 get_default (ui_notification_enabled ui)
                   DEFAULT_NOTIFICATION_ENABLED |} in
          match ui_status_entity entity_config with
          | None => FlowKeyError "status_entity"
          | Some _ =>
              if configured then AbortAlreadyConfigured
              else CreateEntry config_data (ui_status_entity entity_config)
                     (ui_distance_entity entity_config)
          end
      | _ => ShowForm "conversion" errs
      end
  end.

(** The two entity checks of [FitbitOptionsFlowHandler.async_step_init];
    [exists_ entity] is the truth value of [hass.states.get(entity)]. *)
Definition entity_errors (exists_ : option string -> bool)
    (status_entity distance_entity : option string) : errors :=
  (if exists_ status_entity then []
   else [("status_entity", "entity_not_found")]%string)
  ++ (if exists_ distance_entity then []
      else [("distance_entity", "entity_not_found")]%string).

(** [FitbitOptionsFlowHandler.async_step_init]: on success the entry is
    updated with the new data and options. *)
Definition async_step_init (exists_ : option string -> bool)
    (input : option user_input) : flow_result :=
  match input with
  | None => ShowForm "init" []
  | Some ui =>
      let status_entity := ui_status_entity ui in
      let distance_entity := ui_distance_entity ui in
      let stride_length := ui_stride_length ui in
      let user_height := ui_user_height ui in
      let errs :=
        entity_errors exists_ status_entity distance_entity
          ++ stride_errors stride_length user_height in
      match errs with
      | [] =>
          let stride_length :=
            stride_or_from_height stride_length user_height in
          match ui_activity_type ui, ui_auto_sync ui,
                ui_notification_enabled ui with
          | None, _, _ => FlowKeyError "activity_type"
          | Some _, None, _ => FlowKeyError "auto_sync"
          | Some _, Some _, None => FlowKeyError "notification_enabled"
          | Some activity, Some auto, Some notify =>
              CreateEntry
                {| ed_activity_type := Some activity;
                   ed_stride_length := stride_length;
                   ed_auto_sync := auto;
                   ed_notification_enabled := notify |}
                status_entity distance_entity
          end
      | _ => ShowForm "init" errs
      end
  end.

(** An input with a stride of 2.5 ft and a height of 500 in, and one with
    a height of 70 in only. *)
Definition input_stride_and_height : user_input :=
  {| ui_status_entity := Some "sensor.treadmill_status"%string;
     ui_distance_entity := Some "sensor.treadmill_distance"%string;
     ui_activity_type := Some "Treadmill"%string;
     ui_stride_length := Some (5 # 2);
     ui_user_height := Some 500;
     ui_auto_sync := Some true;
     ui_notification_enabled := Some true |}.

Definition input_height_only : user_input :=
  {| ui_status_entity := Some "sensor.treadmill_status"%string;
     ui_distance_entity := Some "sensor.treadmill_distance"%string;
     ui_activity_type := Some "Treadmill"%string;
     ui_stride_length := None;
     ui_user_height := Some 70;
     ui_auto_sync := Some true;
     ui_notification_enabled := Some true |}.

(** The same environment with another configured stride, and with a
    failing profile endpoint. *)
Definition with_stride (stride : option Q) (e : env) : env :=
  {| data_activity_type := data_activity_type e;
     data_stride_length := stride;
     data_auto_sync := data_auto_sync e;
     data_notification_enabled := data_notification_enabled e;
     options_distance_entity := options_distance_entity e;
     states_get := states_get e;
     time_ensure_token_valid := time_ensure_token_valid e;
     time_refresh_token := time_refresh_token e;
     time_check_rate_limit := time_check_rate_limit e;
     now_timestamp := now_timestamp e;
     now_last_sync := now_last_sync e;
     now_manual_sync := now_manual_sync e;
     refresh_reply := refresh_reply e;
     update_entry_raises := update_entry_raises e;
     activities_reply := activities_reply e;
     profile_raises := profile_raises e |}.

Definition is_profile_request (ev : event) : bool :=
  match ev with
  | UserProfileRequest => true
  | _ => false
  end.

(** The number of profile requests sent so far. *)
Definition profile_requests (s : store) : nat :=
  length (filter is_profile_request (trace s)).

(* ================================================================== *)
(** * Properties *)

Lemma Qlt_bool_iff (a b : Q) : Qlt_bool a b = true <-> a < b.
Proof.
  unfold Qlt_bool. rewrite negb_true_iff. split.
  - intro H. apply Qnot_le_lt. intro Hle.
    apply Qle_bool_iff in Hle. congruence.
  - intro H. destruct (Qle_bool b a) eqn:E; [|reflexivity].
    apply Qle_bool_iff in E. exfalso. exact (Qlt_not_le _ _ H E).
Qed.

Lemma Qlt_bool_false_iff (a b : Q) : Qlt_bool a b = false <-> b <= a.
Proof.
  unfold Qlt_bool. rewrite negb_false_iff. apply Qle_bool_iff.
Qed.

(** On a non-negative float truncation and floor agree. *)
Lemma py_int_floor_nonneg (x : Q) : 0 <= x -> py_int x = Qfloor x.
Proof.
  destruct x as [n d]. unfold Qle, py_int, Qfloor. simpl. intro H.
  apply Z.quot_div_nonneg; lia.
Qed.



(* ================================================================== *)
(** ** Lists *)

Lemma filter_length_le {A : Type} (p : A -> bool) (l : list A) :
  (length (filter p l) <= length l)%nat.
Proof.
  induction l as [|x l IH]; simpl; [lia|].
  destruct (p x); simpl; lia.
Qed.

Lemma filter_length_impl {A : Type} (p q : A -> bool) (l : list A) :
  (forall x, p x = true -> q x = true) ->
  (length (filter p l) <= length (filter q l))%nat.
Proof.
  intro Hpq. induction l as [|x l IH]; simpl; [lia|].
  destruct (p x) eqn:Hp.
  - rewrite (Hpq x Hp). simpl. lia.
  - destruct (q x); simpl; lia.
Qed.

Lemma filter_filter_impl {A : Type} (p q : A -> bool) (l : list A) :
  (forall x, q x = true -> p x = true) ->
  filter q (filter p l) = filter q l.
Proof.
  intro Hqp. induction l as [|x l IH]; simpl; [reflexivity|].
  destruct (p x) eqn:Hp; simpl.
  - destruct (q x); [f_equal|]; exact IH.
  - destruct (q x) eqn:Hq; [|exact IH].
    rewrite (Hqp x Hq) in Hp. discriminate.
Qed.

(* ================================================================== *)
(** ** The rate limiter *)

Lemma within_hour_iff (now t : Q) : within_hour now t = true <-> now - t < 3600.
Proof. unfold within_hour. apply Qlt_bool_iff. Qed.

Lemma within_hour_self (t : Q) : within_hour t t = true.
Proof. apply within_hour_iff. lra. Qed.

Lemma within_hour_mono (t0 t x : Q) :
  t0 <= t -> within_hour t x = true -> within_hour t0 x = true.
Proof. rewrite !within_hour_iff. intros. lra. Qed.

Lemma in_trailing_window_iff (T t : Q) :
  in_trailing_window T t = true <-> T - 3600 < t /\ t <= T.
Proof.
  unfold in_trailing_window.
  rewrite andb_true_iff, Qlt_bool_iff, Qle_bool_iff. tauto.
Qed.

(** A rejection raises [RateLimitError] and stores the purged list, to
    which the current reading is not added. *)
Lemma check_rate_limit_at_reject (t : Q) (w : list Q) (e : exn) :
  fst (check_rate_limit_at t w) = Raise e ->
  check_rate_limit_at t w = (Raise RateLimitError, filter (within_hour t) w).
Proof.
  unfold check_rate_limit_at.
  destruct (150 <=? length (filter (within_hour t) w))%nat; simpl.
  - reflexivity.
  - discriminate.
Qed.

(** An admission stores the purged list followed by the current reading. *)
Lemma check_rate_limit_at_admit (t : Q) (w : list Q) :
  fst (check_rate_limit_at t w) = Ok tt ->
  check_rate_limit_at t w = (Ok tt, filter (within_hour t) w ++ [t])
  /\ (length (filter (within_hour t) w) < 150)%nat.
Proof.
  unfold check_rate_limit_at.
  destruct (150 <=? length (filter (within_hour t) w))%nat eqn:E; simpl.
  - discriminate.
  - intros _. split; [reflexivity|]. apply Nat.leb_gt. exact E.
Qed.

Lemma check_rate_limit_at_length (t : Q) (w : list Q) :
  (length w <= 150)%nat ->
  (length (snd (check_rate_limit_at t w)) <= 150)%nat.
Proof.
  intro Hw. unfold check_rate_limit_at.
  pose proof (filter_length_le (within_hour t) w) as Hf.
  destruct (150 <=? length (filter (within_hour t) w))%nat eqn:E; simpl.
  - lia.
  - apply Nat.leb_gt in E. rewrite length_app. simpl. lia.
Qed.

Lemma window_after_length (ts w : list Q) :
  (length w <= 150)%nat -> (length (window_after ts w) <= 150)%nat.
Proof.
  revert w. induction ts as [|t ts IH]; intros w Hw; simpl.
  - exact Hw.
  - apply IH. apply check_rate_limit_at_length. exact Hw.
Qed.

(** The invariant of a run whose clock never goes back: the stored list is
    the log of admitted timestamps purged at the last reading, and no
    trailing window holds more than 150 of the log. *)
Lemma admitted_window_bound (ts : list Q) :
  forall (t0 : Q) (w adm : list Q),
    nondecreasing_from t0 ts ->
    w = filter (within_hour t0) adm ->
    (forall T, (length (filter (in_trailing_window T) adm) <= 150)%nat) ->
    forall T,
      (length (filter (in_trailing_window T) (adm ++ admitted ts w))
       <= 150)%nat.
Proof.
  induction ts as [|t ts IH]; intros t0 w adm Hnd Hw Hadm T.
  - simpl. rewrite app_nil_r. apply Hadm.
  - destruct Hnd as [Ht Hnd]. simpl.
    assert (Hpurge : filter (within_hour t) w = filter (within_hour t) adm).
    { subst w. apply filter_filter_impl.
      intros x Hx. exact (within_hour_mono t0 t x Ht Hx). }
    destruct (check_rate_limit_at t w) as [r w'] eqn:Hc.
    destruct r as [[]|e].
    + destruct (check_rate_limit_at_admit t w) as [Heq Hlt];
        [rewrite Hc; reflexivity|].
      rewrite Hc in Heq. injection Heq as Hw'.
      replace (adm ++ t :: admitted ts w')
        with ((adm ++ [t]) ++ admitted ts w')
        by (rewrite <- app_assoc; reflexivity).
      apply (IH t); [exact Hnd| |].
      * rewrite Hw', Hpurge, filter_app. simpl.
        rewrite within_hour_self. reflexivity.
      * intro T'. rewrite filter_app, length_app. simpl.
        destruct (in_trailing_window T' t) eqn:Hin; simpl.
        -- apply in_trailing_window_iff in Hin.
           assert (length (filter (in_trailing_window T') adm)
                   <= length (filter (within_hour t) adm))%nat.
           { apply filter_length_impl. intros x Hx.
             apply in_trailing_window_iff in Hx.
             apply within_hour_iff. lra. }
           rewrite <- Hpurge in *. lia.
        -- pose proof (Hadm T'). lia.
    + pose proof (check_rate_limit_at_reject t w e) as Heq.
      rewrite Hc in Heq. specialize (Heq eq_refl).
      injection Heq as _ Hw'.
      apply (IH t); [exact Hnd| |exact Hadm].
      rewrite Hw'. exact Hpurge.
Qed.

(** [_check_rate_limit] changes nothing but [_request_times]. *)
Lemma _check_rate_limit_eq (e : env) (s : store) :
  _check_rate_limit e s =
  (fst (check_rate_limit_at (time_check_rate_limit e) (request_times s)),
   set_request_times
     (snd (check_rate_limit_at (time_check_rate_limit e) (request_times s))) s).
Proof.
  unfold _check_rate_limit.
  destruct (check_rate_limit_at _ _); reflexivity.
Qed.

(** C4, as stated, at clock readings that step back by one second: the
    trailing window that ends at 7199 holds 299 admitted requests. *)
Lemma rate_limiter_clock_back_overshoot :
  length (filter (in_trailing_window 7199) (admitted clock_steps_back []))
  = 299%nat
  /\ ~ (length (filter (in_trailing_window 7199) (admitted clock_steps_back []))
        <= 150)%nat.
Proof.
  assert (H : length (filter (in_trailing_window 7199)
                        (admitted clock_steps_back [])) = 299%nat)
    by (vm_compute; reflexivity).
  split; [exact H|]. rewrite H. lia.
Qed.

(** C4 (amended): for every sequence of admission attempts whose clock
    readings never go back, starting from the empty list, no trailing
    3600-second window holds more than 150 admitted requests.  For every
    sequence of attempts at arbitrary readings the stored list never
    exceeds 150 entries, and a rejection raises [RateLimitError] and stores
    the purged list without the attempt's reading. *)
Theorem rate_limiter_quota (ts : list Q) (Hclock : nondecreasing ts) :
  (forall T : Q,
      (length (filter (in_trailing_window T) (admitted ts [])) <= 150)%nat)
  /\ (forall ts' : list Q, (length (window_after ts' []) <= 150)%nat)
  /\ (forall (e : env) (s s' : store) (err : exn),
         _check_rate_limit e s = (Raise err, s') ->
         err = RateLimitError
         /\ s' = set_request_times
                   (filter (within_hour (time_check_rate_limit e))
                      (request_times s)) s
         /\ (length (request_times s) <= 150 ->
             length (request_times s') <= 150)%nat).
Proof.
  split; [|split].
  - intro T. destruct ts as [|t ts]; [simpl; lia|].
    apply (admitted_window_bound (t :: ts) t [] [] ); simpl.
    + split; [lra|exact Hclock].
    + reflexivity.
    + intro. lia.
  - intro ts'. apply window_after_length. simpl. lia.
  - intros e s s' err H. rewrite _check_rate_limit_eq in H.
    injection H as Hf Hs.
    pose proof (check_rate_limit_at_reject _ _ _ Hf) as Heq.
    rewrite Heq in Hf, Hs. simpl in Hf, Hs.
    split; [congruence|]. split; [congruence|].
    intro Hlen. subst s'. simpl.
    pose proof (filter_length_le (within_hour (time_check_rate_limit e))
                  (request_times s)). lia.
Qed.

Lemma rate_limiter_quota_witness :
  nondecreasing steady_clock
  /\ (length (filter (in_trailing_window 4000) (admitted steady_clock []))
      <= 150)%nat
  /\ (length (window_after clock_steps_back []) <= 150)%nat
  /\ (length (request_times
                (snd (_check_rate_limit (env_reading 0) store_quota_used)))
      <= 150)%nat.
Proof.
  assert (H : nondecreasing steady_clock).
  { simpl. repeat split; unfold Qle; simpl; lia. }
  destruct (rate_limiter_quota steady_clock H) as (Hwin & Hlen & Hrej).
  split; [exact H|]. split; [exact (Hwin 4000)|].
  split; [exact (Hlen clock_steps_back)|].
  destruct (Hrej (env_reading 0) store_quota_used
              (snd (_check_rate_limit (env_reading 0) store_quota_used))
              RateLimitError) as (_ & _ & Hkeep).
  - vm_compute. reflexivity.
  - apply Hkeep. apply Nat.leb_le. vm_compute. reflexivity.
Defined.

(* ================================================================== *)
(** ** The duration of a session *)

Lemma elapsed_minutes_nonneg (t0 t1 : datetime) :
  (t0 <= t1)%Z -> 0 <= total_seconds (t1 - t0) / 60.
Proof.
  intro H. unfold total_seconds, Qdiv, Qle. simpl. lia.
Qed.

Lemma elapsed_minutes_floor (t0 t1 : datetime) :
  Qfloor (total_seconds (t1 - t0) / 60) = ((t1 - t0) / 60000000)%Z.
Proof.
  unfold total_seconds, Qdiv. simpl. rewrite Z.mul_1_r. reflexivity.
Qed.

(** C5, as stated, at a session of 110 seconds: 110 s is 1.83 minutes,
    nearer to 2 than to 1, and the code computes 1. *)
Lemma duration_110s_not_rounded :
  duration_minutes_of 0%Z 110000000%Z = 1%Z
  /\ spec_duration_minutes 0%Z 110000000%Z = 2%Z
  /\ duration_minutes_of 0%Z 110000000%Z
     <> spec_duration_minutes 0%Z 110000000%Z.
Proof.
  assert (H1 : duration_minutes_of 0%Z 110000000%Z = 1%Z) by reflexivity.
  assert (H2 : spec_duration_minutes 0%Z 110000000%Z = 2%Z) by reflexivity.
  repeat split; trivial. rewrite H1, H2. discriminate.
Qed.

(** C5 (amended): for every session with start time t0 and end time t1,
    t1 >= t0, the completion pipeline computes
    duration_minutes = max(1, floor((t1 - t0) in minutes)): the elapsed
    time truncated to whole minutes, with a floor of 1. *)
Theorem duration_minutes_truncates (t0 t1 : datetime) (Horder : (t0 <= t1)%Z) :
  duration_minutes_of t0 t1 = Z.max 1 (Qfloor (total_seconds (t1 - t0) / 60))
  /\ duration_minutes_of t0 t1 = Z.max 1 ((t1 - t0) / 60000000)
  /\ (1 <= duration_minutes_of t0 t1)%Z.
Proof.
  unfold duration_minutes_of, max1.
  rewrite (py_int_floor_nonneg _ (elapsed_minutes_nonneg t0 t1 Horder)).
  rewrite elapsed_minutes_floor.
  repeat split; lia.
Qed.

Lemma duration_minutes_truncates_witness :
  duration_minutes_of 0%Z 150000000%Z = Z.max 1 (150000000 / 60000000)
  /\ duration_minutes_of 0%Z 150000000%Z = 2%Z.
Proof.
  assert (H : (0 <= 150000000)%Z) by lia.
  destruct (duration_minutes_truncates 0%Z 150000000%Z H) as [_ [E _]].
  split; [exact E|]. rewrite E. reflexivity.
Defined.

(* ================================================================== *)
(** ** What each method leaves alone *)

Ltac monad_unfold :=
  unfold bind, ret, raise, try_except, try_finally, get, modify, emit, index
    in *.

Lemma same_coordinator_refl (s : store) : same_coordinator s s.
Proof. repeat split. Qed.

Lemma same_coordinator_trans (s1 s2 s3 : store) :
  same_coordinator s1 s2 -> same_coordinator s2 s3 -> same_coordinator s1 s3.
Proof.
  unfold same_coordinator. intros (A & B & C) (A' & B' & C').
  repeat split; congruence.
Qed.

Lemma _get_distance_value_pure (e : env) :
  exists r, forall s, _get_distance_value e s = (r, s).
Proof.
  unfold _get_distance_value. monad_unfold.
  destruct (options_distance_entity e) as [ent|]; [|eexists; reflexivity].
  destruct (String.eqb ent ""); [eexists; reflexivity|].
  destruct (states_get e ent) as [[| |[q|]]|]; eexists; reflexivity.
Qed.

Lemma _notify_sync_result_eq (e : env) ok n m err (s : store) :
  _notify_sync_result e ok n m err s
  = (Ok tt, notified e (Notification ok n m err) s).
Proof.
  unfold _notify_sync_result, notified. monad_unfold.
  destruct (get_default (data_notification_enabled e) true); reflexivity.
Qed.

Lemma notified_same_coordinator (e : env) (ev : event) (s : store) :
  same_coordinator s (notified e ev s).
Proof.
  unfold notified. destruct (get_default _ _); repeat split.
Qed.

Lemma refresh_after_reply_frame (e : env) (s s' : store) (r : result unit) :
  refresh_after_reply e s = (r, s') ->
  same_coordinator s s' /\ request_times s' = request_times s.
Proof.
  unfold refresh_after_reply. monad_unfold.
  destruct (refresh_reply e) as [[[a|] [b|] [c|]]|]; simpl;
    try destruct (update_entry_raises e); simpl;
    intro H; injection H as <- <-; repeat split.
Qed.

Lemma _ensure_token_valid_frame (e : env) (s s' : store) (r : result unit) :
  _ensure_token_valid e s = (r, s') ->
  same_coordinator s s' /\ request_times s' = request_times s.
Proof.
  unfold _ensure_token_valid, _refresh_token. monad_unfold.
  destruct (needs_refresh _ _).
  - intro H. apply refresh_after_reply_frame in H. exact H.
  - intro H. injection H as <- <-. repeat split.
Qed.

Lemma _check_rate_limit_frame (e : env) (s s' : store) (r : result unit) :
  _check_rate_limit e s = (r, s') ->
  same_coordinator s s' /\ same_tokens s s'.
Proof.
  rewrite _check_rate_limit_eq. intro H. injection H as <- <-.
  repeat split.
Qed.

Lemma create_activity_log_frame (e : env) activity miles start minutes nsteps
    (s s' : store) (r : result (option Z)) :
  create_activity_log e activity miles start minutes nsteps s = (r, s') ->
  same_coordinator s s'.
Proof.
  unfold create_activity_log. unfold bind at 1.
  destruct (_ensure_token_valid e s) as [[[]|x] s1] eqn:E1.
  - apply _ensure_token_valid_frame in E1. destruct E1 as [E1 _].
    unfold bind at 1.
    destruct (_check_rate_limit e s1) as [[[]|y] s2] eqn:E2.
    + apply _check_rate_limit_frame in E2. destruct E2 as [E2 _].
      monad_unfold. intro H.
      apply (same_coordinator_trans _ _ _ E1).
      apply (same_coordinator_trans _ _ _ E2).
      destruct (activities_reply e); injection H as <- <-; repeat split.
    + apply _check_rate_limit_frame in E2. destruct E2 as [E2 _].
      intro H. injection H as <- <-.
      exact (same_coordinator_trans _ _ _ E1 E2).
  - apply _ensure_token_valid_frame in E1. destruct E1 as [E1 _].
    intro H. injection H as <- <-. exact E1.
Qed.

(* ================================================================== *)
(** ** The sync pipeline *)

Lemma append_history_eq (r : sync_record) (h : list sync_record) :
  append_history r h
  = if (MAX_HISTORY_SIZE <=? length h)%nat then tl h ++ [r] else h ++ [r].
Proof.
  unfold append_history.
  assert (Hn : (1 <= MAX_HISTORY_SIZE)%nat) by (unfold MAX_HISTORY_SIZE; lia).
  revert Hn. generalize MAX_HISTORY_SIZE as n. intros n Hn.
  rewrite length_app. cbn [length].
  destruct (n <=? length h)%nat eqn:E.
  - apply Nat.leb_le in E.
    replace (n <? length h + 1)%nat with true
      by (symmetry; apply Nat.ltb_lt; lia).
    destruct h; [cbn [length] in E; lia|reflexivity].
  - apply Nat.leb_gt in E.
    replace (n <? length h + 1)%nat with false
      by (symmetry; apply Nat.ltb_ge; lia).
    reflexivity.
Qed.

Lemma append_history_last (r : sync_record) (h : list sync_record) :
  exists h', append_history r h = h' ++ [r].
Proof.
  rewrite append_history_eq. destruct (_ <=? _)%nat; eexists; reflexivity.
Qed.

Lemma append_history_length (r : sync_record) (h : list sync_record) :
  (length h <= MAX_HISTORY_SIZE)%nat ->
  (length (append_history r h) <= MAX_HISTORY_SIZE)%nat.
Proof.
  rewrite append_history_eq.
  assert (Hn : (1 <= MAX_HISTORY_SIZE)%nat) by (unfold MAX_HISTORY_SIZE; lia).
  revert Hn. generalize MAX_HISTORY_SIZE as n. intros n Hn H.
  destruct (n <=? length h)%nat eqn:E.
  - apply Nat.leb_le in E. rewrite length_app. cbn [length].
    destruct h; cbn [length tl] in *; lia.
  - apply Nat.leb_gt in E. rewrite length_app. cbn [length]. lia.
Qed.

(** The store after a successful [_async_sync_workout], from the store
    [s2] in which [create_activity_log] returned. *)
Lemma _async_sync_workout_ok (e : env) (miles : Q) (start : datetime)
    (minutes : Z) (s s2 : store) (logId : option Z) :
  let activity := get_default (data_activity_type e) "Walking"%string in
  let stride := get_default (data_stride_length e) (5 # 2) in
  let nsteps := py_int (miles * FEET_PER_MILE / stride) in
  let method := "manual_calculation"%string in
  Qeq_bool stride 0 = false ->
  create_activity_log e activity miles start minutes (Some nsteps)
    (add_event (LogCreatingActivity activity miles nsteps method) s)
  = (Ok logId, s2) ->
  _async_sync_workout e miles start minutes s
  = (Ok (sync_record_of e activity miles nsteps minutes method logId),
     synced e (sync_record_of e activity miles nsteps minutes method logId) s2).
Proof.
  intros activity stride nsteps method Hstride Hcreate.
  unfold _async_sync_workout, convert_distance_to_steps.
  fold activity. fold stride. rewrite Hstride.
  unfold try_except, bind at 1, ret at 1. simpl fst. simpl snd.
  unfold bind at 1, emit at 1, modify at 1.
  fold nsteps. fold method.
  unfold bind at 1. rewrite Hcreate.
  unfold synced, sync_record_of.
  repeat (unfold bind at 1; unfold modify at 1).
  unfold bind at 1. rewrite _notify_sync_result_eq.
  reflexivity.
Qed.

Lemma _async_complete_session_eq (e : env) (end_time : datetime) (s : store) :
  _async_complete_session e end_time s
  = complete_session_from e end_time
      (session_start (current_session s) end_time)
      (session_start_distance (current_session s)) s.
Proof.
  unfold _async_complete_session, session_start, session_start_distance.
  unfold bind, get. destruct (current_session s); reflexivity.
Qed.



(** The completion pipeline on a distance delta within the bounds, when
    the create-activity call returns a response. *)
Lemma complete_session_from_ok (e : env) (end_time start : datetime)
    (start_miles end_distance : Q) (s s2 : store) (logId : option Z) :
  let d := end_distance - start_miles in
  let activity := get_default (data_activity_type e) "Walking"%string in
  let stride := get_default (data_stride_length e) (5 # 2) in
  let nsteps := py_int (d * FEET_PER_MILE / stride) in
  let method := "manual_calculation"%string in
  let minutes := duration_minutes_of start end_time in
  _get_distance_value e s = (Ok end_distance, s) ->
  MIN_DISTANCE <= d -> d <= MAX_DISTANCE ->
  Qeq_bool stride 0 = false ->
  create_activity_log e activity d start minutes (Some nsteps)
    (add_event (LogCreatingActivity activity d nsteps method) s)
  = (Ok logId, s2) ->
  complete_session_from e end_time start start_miles s
  = (Ok tt,
     set_current_session None
       (synced e (sync_record_of e activity d nsteps minutes method logId) s2)).
Proof.
  intros d activity stride nsteps method minutes
    Hread Hmin Hmax Hstride Hcreate.
  apply Qlt_bool_false_iff in Hmin. apply Qlt_bool_false_iff in Hmax.
  unfold complete_session_from, try_finally, try_except.
  unfold bind at 1. rewrite Hread. fold d. rewrite Hmin, Hmax.
  unfold bind at 1. fold minutes.
  rewrite (_async_sync_workout_ok e d start minutes s s2 logId Hstride Hcreate).
  reflexivity.
Qed.

Lemma synced_sync_history (e : env) (r : sync_record) (s : store) :
  sync_history (synced e r s) = append_history r (sync_history s).
Proof.
  unfold synced, notified. destruct (get_default _ _); reflexivity.
Qed.

Lemma steps_floor (d stride : Q) :
  0 <= d -> 0 < stride ->
  py_int (d * FEET_PER_MILE / stride) = Qfloor (d * 5280 / stride).
Proof.
  intros Hd Hs. apply py_int_floor_nonneg.
  apply Qle_shift_div_l; [exact Hs|]. unfold FEET_PER_MILE.
  rewrite Qmult_0_l. apply Qmult_le_0_compat; [exact Hd|]. lra.
Qed.

Lemma stride_nonzero (stride : Q) : 0 < stride -> Qeq_bool stride 0 = false.
Proof.
  intro H. destruct (Qeq_bool stride 0) eqn:E; [|reflexivity].
  apply Qeq_bool_iff in E. rewrite E in H. lra.
Qed.



Lemma notified_trace (e : env) (ev : event) (s : store) :
  trace (notified e ev s)
  = trace s ++ (if get_default (data_notification_enabled e) true
                then [ev] else []).
Proof.
  unfold notified. destruct (get_default _ _); simpl.
  - reflexivity.
  - rewrite app_nil_r. reflexivity.
Qed.

Lemma notified_remote_requests (e : env) ok n m err (s : store) :
  remote_requests (notified e (Notification ok n m err) s) = remote_requests s.
Proof.
  unfold remote_requests. rewrite notified_trace, filter_app.
  destruct (get_default _ _); simpl; rewrite app_nil_r; reflexivity.
Qed.




(* ================================================================== *)
(** ** The status handler *)

Lemma _async_status_changed_working (e : env) (old new : State) (s : store) :
  state old <> STATE_WORKING -> state new = STATE_WORKING ->
  _async_status_changed e (Some old) (Some new) s
  = _async_start_session e (last_changed new) s.
Proof.
  intros Hold Hnew. unfold _async_status_changed.
  apply String.eqb_neq in Hold. apply String.eqb_eq in Hnew.
  rewrite Hold, Hnew. reflexivity.
Qed.

Lemma _async_status_changed_post_workout (e : env) (old new : State)
    (s : store) :
  state old = STATE_WORKING -> state new = STATE_POST_WORKOUT ->
  _async_status_changed e (Some old) (Some new) s
  = if get_default (data_auto_sync e) true
    then _async_complete_session e (last_changed new) s
    else (Ok tt, s).
Proof.
  intros Hold Hnew. unfold _async_status_changed.
  rewrite Hold, Hnew. simpl.
  destruct (get_default (data_auto_sync e) true); reflexivity.
Qed.

Lemma _async_status_changed_other (e : env) (old new : State) (s : store) :
  state new <> STATE_WORKING \/ state old = STATE_WORKING ->
  state new <> STATE_POST_WORKOUT \/ state old <> STATE_WORKING ->
  _async_status_changed e (Some old) (Some new) s = (Ok tt, s).
Proof.
  intros H1 H2. unfold _async_status_changed.
  destruct (String.eqb_spec (state old) STATE_WORKING) as [Ho|Ho];
    destruct (String.eqb_spec (state new) STATE_WORKING) as [Hn|Hn];
    destruct (String.eqb_spec (state new) STATE_POST_WORKOUT) as [Hp|Hp];
    simpl; try reflexivity.
  - rewrite Hp in Hn. discriminate.
  - destruct H2 as [H2|H2]; contradiction.
  - rewrite Hp in Hn. discriminate.
  - destruct H1 as [H1|H1]; contradiction.
Qed.

Lemma _async_start_session_eq (e : env) (start : datetime) (s : store) :
  exists miles : Q,
    _async_start_session e start s
    = (Ok tt,
       set_current_session
         (Some {| start_time := start; start_distance := miles |}) s)
    /\ (_get_distance_value e s = (Ok miles, s)
        \/ (miles = 0 /\ exists err, _get_distance_value e s = (Raise err, s))).
Proof.
  unfold _async_start_session, try_except, bind, modify.
  destruct (_get_distance_value_pure e) as [r Hr]. rewrite Hr.
  destruct r as [miles|err].
  - exists miles. split; [reflexivity|left; reflexivity].
  - exists 0. split; [reflexivity|right; split; [reflexivity|]].
    exists err. reflexivity.
Qed.

(** C3, as stated, at a change from Standby to Post-Workout with no
    session open: the handler returns and the store, with its empty trace,
    is as before; no sync is attempted. *)
Lemma post_workout_from_standby_no_attempt :
  current_session store_idle = None
  /\ _async_status_changed (env_reading (35 # 10))
       (Some (status_at STATE_STANDBY 0%Z))
       (Some (status_at STATE_POST_WORKOUT 1800000000%Z)) store_idle
     = (Ok tt, store_idle)
  /\ trace store_idle = [].
Proof.
  repeat split.
Qed.

(** C3 (amended): a status change from Working to Post-Workout while no
    session is open, with auto-sync enabled, triggers one run of the
    completion pipeline that uses start_distance = 0 and
    start_time = end_time, so that the distance delta is the currently
    read distance and, when it is synced, the duration is 1 minute.  A
    change to Post-Workout from any status other than Working triggers
    nothing. *)
Theorem post_workout_without_session
    (e : env) (s : store) (new : State)
    (Hnew : state new = STATE_POST_WORKOUT)
    (Hidle : current_session s = None) :
  (forall old : State,
      state old = STATE_WORKING ->
      get_default (data_auto_sync e) true = true ->
      _async_status_changed e (Some old) (Some new) s
      = complete_session_from e (last_changed new) (last_changed new) 0 s
      /\ forall (end_distance : Q) (s2 : store) (logId : option Z),
          let d := end_distance - 0 in
          let activity := get_default (data_activity_type e) "Walking"%string in
          let stride := get_default (data_stride_length e) (5 # 2) in
          let nsteps := py_int (d * FEET_PER_MILE / stride) in
          _get_distance_value e s = (Ok end_distance, s) ->
          MIN_DISTANCE <= end_distance -> end_distance <= MAX_DISTANCE ->
          0 < stride ->
          create_activity_log e activity d (last_changed new) 1 (Some nsteps)
            (add_event
               (LogCreatingActivity activity d nsteps "manual_calculation") s)
          = (Ok logId, s2) ->
          exists (r : sync_record) (s' : store) (h : list sync_record),
            _async_status_changed e (Some old) (Some new) s = (Ok tt, s')
            /\ sync_history s' = h ++ [r]
            /\ distance_miles r == end_distance
            /\ duration_minutes r = 1%Z
            /\ current_session s' = None)
  /\ (forall old : State,
         state old <> STATE_WORKING ->
         _async_status_changed e (Some old) (Some new) s = (Ok tt, s)).
Proof.
  split.
  - intros old Hold Hauto.
    assert (Heq : _async_status_changed e (Some old) (Some new) s
                  = complete_session_from e (last_changed new)
                      (last_changed new) 0 s).
    { rewrite (_async_status_changed_post_workout e old new s Hold Hnew).
      rewrite Hauto, _async_complete_session_eq, Hidle. reflexivity. }
    split; [exact Heq|].
    intros end_distance s2 logId d activity stride nsteps
      Hread Hmin Hmax Hstride Hcreate.
    assert (Hone : duration_minutes_of (last_changed new) (last_changed new)
                   = 1%Z).
    { unfold duration_minutes_of. rewrite Z.sub_diag. reflexivity. }
    assert (Hd : d == end_distance) by (unfold d; ring).
    rewrite Heq.
    rewrite (complete_session_from_ok e (last_changed new) (last_changed new)
               0 end_distance s s2 logId); trivial.
    + destruct (append_history_last
                  (sync_record_of e activity d nsteps 1
                     "manual_calculation" logId) (sync_history s2))
        as [h Hh].
      eexists. eexists. exists h. split; [reflexivity|].
      rewrite Hone.
      change (sync_history (set_current_session None ?x))
        with (sync_history x).
      rewrite synced_sync_history.
      split; [exact Hh|]. split; [exact Hd|]. split; reflexivity.
    + fold d. rewrite Hd. exact Hmin.
    + fold d. rewrite Hd. exact Hmax.
    + apply stride_nonzero. exact Hstride.
    + rewrite Hone. exact Hcreate.
  - intros old Hold.
    apply _async_status_changed_other; [|right; exact Hold].
    left. rewrite Hnew. discriminate.
Qed.

Lemma post_workout_without_session_witness :
  _async_status_changed (env_reading (35 # 10))
    (Some (status_at STATE_WORKING 0%Z))
    (Some (status_at STATE_POST_WORKOUT 1800000000%Z)) store_idle
  = complete_session_from (env_reading (35 # 10)) 1800000000%Z 1800000000%Z
      0 store_idle
  /\ (exists (r : sync_record) (s' : store),
         _async_status_changed (env_reading (35 # 10))
           (Some (status_at STATE_WORKING 0%Z))
           (Some (status_at STATE_POST_WORKOUT 1800000000%Z)) store_idle
         = (Ok tt, s')
         /\ sync_history s' = [r]
         /\ distance_miles r == 35 # 10
         /\ duration_minutes r = 1%Z)
  /\ _async_status_changed (env_reading (35 # 10))
       (Some (status_at STATE_STANDBY 0%Z))
       (Some (status_at STATE_POST_WORKOUT 1800000000%Z)) store_idle
     = (Ok tt, store_idle).
Proof.
  pose (e := env_reading (35 # 10)).
  pose (new := status_at STATE_POST_WORKOUT 1800000000%Z).
  destruct (post_workout_without_session e store_idle new eq_refl eq_refl)
    as [Hworking Hother].
  destruct (Hworking (status_at STATE_WORKING 0%Z) eq_refl eq_refl)
    as [Heq Hsync].
  split; [exact Heq|]. split.
  - pose (s2 := snd (create_activity_log e "Treadmill" ((35 # 10) - 0)
                       1800000000%Z 1%Z (Some 7392%Z)
                       (add_event
                          (LogCreatingActivity "Treadmill" ((35 # 10) - 0)
                             7392%Z "manual_calculation")
                          store_idle))).
    destruct (Hsync (35 # 10) s2 (Some 77%Z))
      as (r & s' & h & Hrun & Hhist & Hdist & Hdur & _).
    + reflexivity.
    + unfold Qle. simpl. lia.
    + unfold Qle. simpl. lia.
    + unfold Qlt. simpl. lia.
    + vm_compute. reflexivity.
    + exists r, s'. split; [exact Hrun|].
      split; [|split; assumption].
      rewrite Hrun in Heq. vm_compute in Heq.
      injection Heq as Hs'. rewrite Hs' in Hhist |- *. simpl in *.
      destruct h as [|x [|y h]]; simpl in Hhist; try discriminate.
      injection Hhist as <-. reflexivity.
  - apply Hother. discriminate.
Defined.

(** C8, as stated, at an open session (start_time 0, start_distance 1.0)
    and a change from Standby to Working at a later time with the sensor
    reading 2.0: the open session is replaced by a new one. *)
Lemma working_again_replaces_open_session :
  current_session store_in_session
  = Some {| start_time := 0%Z; start_distance := 1 |}
  /\ STATE_WORKING <> STATE_POST_WORKOUT
  /\ current_session
       (snd (_async_status_changed (env_reading 2)
               (Some (status_at STATE_STANDBY 500000000%Z))
               (Some (status_at STATE_WORKING 600000000%Z)) store_in_session))
     = Some {| start_time := 600000000%Z; start_distance := 2 |}
  /\ current_session
       (snd (_async_status_changed (env_reading 2)
               (Some (status_at STATE_STANDBY 500000000%Z))
               (Some (status_at STATE_WORKING 600000000%Z)) store_in_session))
     <> current_session store_in_session.
Proof.
  split; [reflexivity|]. split; [discriminate|].
  split; [reflexivity|]. discriminate.
Qed.

(** C8 (amended): while a session is open, an incoming status is a no-op
    (the whole store, and so the session's start_time and start_distance,
    is unchanged) unless it is Working coming from another status or
    Post-Workout coming from Working; Post-Workout coming from Working is
    a no-op as well when auto-sync is disabled.  Working coming from
    another status replaces the open session by a new one, whose
    start_time is the time of the change and whose start_distance is the
    current reading, or 0 when the reading fails.  The store holds at most
    one session. *)
Theorem open_session_transitions
    (e : env) (s : store) (ses : session) (old new : State)
    (Hopen : current_session s = Some ses) :
  (state new <> STATE_WORKING \/ state old = STATE_WORKING ->
   state new <> STATE_POST_WORKOUT \/ state old <> STATE_WORKING
     \/ get_default (data_auto_sync e) true = false ->
   _async_status_changed e (Some old) (Some new) s = (Ok tt, s))
  /\ (state old <> STATE_WORKING -> state new = STATE_WORKING ->
      exists miles : Q,
        _async_status_changed e (Some old) (Some new) s
        = (Ok tt,
           set_current_session
             (Some {| start_time := last_changed new;
                      start_distance := miles |}) s)
        /\ (_get_distance_value e s = (Ok miles, s)
            \/ (miles = 0
                /\ exists err, _get_distance_value e s = (Raise err, s)))).
Proof.
  split.
  - intros H1 [H2|[H2|H2]].
    + apply _async_status_changed_other; [exact H1|left; exact H2].
    + apply _async_status_changed_other; [exact H1|right; exact H2].
    + destruct (String.eqb_spec (state old) STATE_WORKING) as [Ho|Ho];
        [|apply _async_status_changed_other; [exact H1|right; exact Ho]].
      destruct (String.eqb_spec (state new) STATE_POST_WORKOUT) as [Hp|Hp];
        [|apply _async_status_changed_other; [exact H1|left; exact Hp]].
      rewrite (_async_status_changed_post_workout e old new s Ho Hp), H2.
      reflexivity.
  - intros Hold Hnew.
    rewrite (_async_status_changed_working e old new s Hold Hnew).
    apply _async_start_session_eq.
Qed.

Lemma open_session_transitions_witness :
  _async_status_changed (env_reading 2)
    (Some (status_at STATE_WORKING 500000000%Z))
    (Some (status_at STATE_STANDBY 600000000%Z)) store_in_session
  = (Ok tt, store_in_session)
  /\ exists miles : Q,
       _async_status_changed (env_reading 2)
         (Some (status_at STATE_STANDBY 500000000%Z))
         (Some (status_at STATE_WORKING 600000000%Z)) store_in_session
       = (Ok tt,
          set_current_session
            (Some {| start_time := 600000000%Z; start_distance := miles |})
            store_in_session).
Proof.
  split.
  - destruct (open_session_transitions (env_reading 2) store_in_session
                {| start_time := 0%Z; start_distance := 1 |}
                (status_at STATE_WORKING 500000000%Z)
                (status_at STATE_STANDBY 600000000%Z) eq_refl) as [Hnoop _].
    apply Hnoop.
    + left. discriminate.
    + left. discriminate.
  - destruct (open_session_transitions (env_reading 2) store_in_session
                {| start_time := 0%Z; start_distance := 1 |}
                (status_at STATE_STANDBY 500000000%Z)
                (status_at STATE_WORKING 600000000%Z) eq_refl) as [_ Hreplace].
    destruct Hreplace as (miles & Hrun & _).
    + discriminate.
    + reflexivity.
    + exists miles. exact Hrun.
Defined.

(* ================================================================== *)
(** ** Manual sync *)

Lemma sync_workout_handler_eq (e : env) (err : exn) (s : store) :
  sync_workout_handler e err s = (Raise err, handled e err s).
Proof.
  unfold sync_workout_handler, handled.
  destruct err; unfold bind; rewrite _notify_sync_result_eq; reflexivity.
Qed.

Lemma handled_trace (e : env) (err : exn) (s : store) :
  exists rest, trace (handled e err s) = trace s ++ rest.
Proof.
  unfold handled.
  destruct err; cbn [trace add_event]; rewrite notified_trace;
    try rewrite <- app_assoc; eexists; reflexivity.
Qed.

Lemma synced_trace (e : env) (r : sync_record) (s : store) :
  exists rest, trace (synced e r s) = trace s ++ rest.
Proof.
  unfold synced. cbn [trace add_event]. rewrite notified_trace.
  cbn [trace set_last_sync_time set_sync_history].
  rewrite <- app_assoc. eexists. reflexivity.
Qed.

(** [_async_sync_workout] when [create_activity_log] raises. *)
Lemma _async_sync_workout_raise (e : env) (miles : Q) (start : datetime)
    (minutes : Z) (s s2 : store) (err : exn) :
  let activity := get_default (data_activity_type e) "Walking"%string in
  let stride := get_default (data_stride_length e) (5 # 2) in
  let nsteps := py_int (miles * FEET_PER_MILE / stride) in
  let method := "manual_calculation"%string in
  Qeq_bool stride 0 = false ->
  create_activity_log e activity miles start minutes (Some nsteps)
    (add_event (LogCreatingActivity activity miles nsteps method) s)
  = (Raise err, s2) ->
  _async_sync_workout e miles start minutes s = (Raise err, handled e err s2).
Proof.
  intros activity stride nsteps method Hstride Hcreate.
  unfold _async_sync_workout, convert_distance_to_steps.
  fold activity. fold stride. rewrite Hstride.
  unfold try_except, bind at 1, ret at 1. simpl fst. simpl snd.
  unfold bind at 1, emit at 1, modify at 1.
  fold nsteps. fold method.
  unfold bind at 1. rewrite Hcreate.
  apply sync_workout_handler_eq.
Qed.


Lemma stride_nonzero_neq (stride : Q) :
  ~ stride == 0 -> Qeq_bool stride 0 = false.
Proof.
  intro H. destruct (Qeq_bool stride 0) eqn:E; [|reflexivity].
  apply Qeq_bool_iff in E. contradiction.
Qed.



(* ================================================================== *)
(** ** Token refresh *)

Lemma refresh_after_reply_raises (e : env) (s s' : store) (err : exn) :
  refresh_after_reply e s = (Raise err, s') -> err = ConfigEntryAuthFailed.
Proof.
  unfold refresh_after_reply. monad_unfold.
  destruct (refresh_reply e) as [[[a|] [b|] [c|]]|]; simpl;
    try destruct (update_entry_raises e); simpl;
    intro H; try discriminate; injection H as <- _; reflexivity.
Qed.

Lemma refresh_after_reply_no_access_token (e : env) (s : store) :
  refresh_reply e = None
  \/ (exists td, refresh_reply e = Some td /\ td_access_token td = None) ->
  refresh_after_reply e s = (Raise ConfigEntryAuthFailed, s).
Proof.
  unfold refresh_after_reply. monad_unfold.
  intros [H|(td & H & Ha)]; rewrite H; [reflexivity|].
  simpl. rewrite Ha. reflexivity.
Qed.

Lemma refresh_after_reply_ok (e : env) (s s' : store) :
  refresh_after_reply e s = (Ok tt, s') ->
  exists a r x,
    refresh_reply e
    = Some {| td_access_token := Some a; td_refresh_token := Some r;
              td_expires_in := Some x |}
    /\ update_entry_raises e = false
    /\ s' = add_event (UpdateEntry a r (time_refresh_token e + x))
              (set_expires_at (time_refresh_token e + x)
                 (set_refresh_token r (set_access_token a s))).
Proof.
  unfold refresh_after_reply. monad_unfold.
  destruct (refresh_reply e) as [[[a|] [b|] [c|]]|]; simpl;
    try (intro H; discriminate H).
  destruct (update_entry_raises e); simpl; intro H; [discriminate H|].
  injection H as <-. exists a, b, c. repeat split.
Qed.

(** C7, as stated, at a reply of the token endpoint that lacks the key
    [refresh_token]: the refresh raises [ConfigEntryAuthFailed], and the
    stored access token has been replaced already. *)
Lemma partial_reply_replaces_access_token :
  fst (_refresh_token
         (with_refresh_reply (Some reply_without_refresh_token) (env_reading 0))
         store_idle) = Raise ConfigEntryAuthFailed
  /\ access_token store_idle = "at0"%string
  /\ access_token
       (snd (_refresh_token
               (with_refresh_reply (Some reply_without_refresh_token)
                  (env_reading 0)) store_idle)) = "at1"%string
  /\ ~ same_tokens store_idle
         (snd (_refresh_token
                 (with_refresh_reply (Some reply_without_refresh_token)
                    (env_reading 0)) store_idle)).
Proof.
  repeat split. intros (H & _). discriminate H.
Qed.

(** C7 (amended): every failure of a token refresh raises
    [ConfigEntryAuthFailed].  When the remote call raises, or the response
    lacks [access_token], all three stored token fields are unchanged.  On
    success the response held all three keys and the three fields are
    replaced by [access_token], [refresh_token] and the clock reading plus
    [expires_in], in one uninterrupted run, and the same three values are
    written to the config entry. *)
Theorem refresh_token_outcomes (e : env) (s s' : store) (r : result unit)
    (Hrun : _refresh_token e s = (r, s')) :
  (forall err, r = Raise err -> err = ConfigEntryAuthFailed)
  /\ (refresh_reply e = None
      \/ (exists td, refresh_reply e = Some td /\ td_access_token td = None) ->
      r = Raise ConfigEntryAuthFailed /\ same_tokens s s')
  /\ (r = Ok tt ->
      exists a rt x,
        refresh_reply e
        = Some {| td_access_token := Some a; td_refresh_token := Some rt;
                  td_expires_in := Some x |}
        /\ access_token s' = a
        /\ refresh_token s' = rt
        /\ expires_at s' = time_refresh_token e + x
        /\ trace s'
           = trace s ++ [RefreshTokenRequest;
                         UpdateEntry a rt (time_refresh_token e + x)]).
Proof.
  unfold _refresh_token in Hrun. unfold bind at 1, emit, modify in Hrun.
  split; [|split].
  - intros err ->. exact (refresh_after_reply_raises _ _ _ _ Hrun).
  - intro Hreply.
    rewrite (refresh_after_reply_no_access_token e _ Hreply) in Hrun.
    injection Hrun as <- <-. repeat split.
  - intros ->. apply refresh_after_reply_ok in Hrun.
    destruct Hrun as (a & rt & x & Hreply & _ & ->).
    exists a, rt, x. split; [exact Hreply|].
    cbn. rewrite <- app_assoc. repeat split.
Qed.

Lemma refresh_token_outcomes_witness :
  (fst (_refresh_token (env_reading 0) store_idle)
   = Raise ConfigEntryAuthFailed
   /\ ConfigEntryAuthFailed = ConfigEntryAuthFailed
   /\ same_tokens store_idle (snd (_refresh_token (env_reading 0) store_idle)))
  /\ exists a rt x,
       access_token
         (snd (_refresh_token
                 (with_refresh_reply (Some reply_complete) (env_reading 0))
                 store_idle)) = a
       /\ refresh_token
            (snd (_refresh_token
                    (with_refresh_reply (Some reply_complete) (env_reading 0))
                    store_idle)) = rt
       /\ expires_at
            (snd (_refresh_token
                    (with_refresh_reply (Some reply_complete) (env_reading 0))
                    store_idle)) = 5001 + x
       /\ a = "at1"%string /\ rt = "rt1"%string /\ x = 28800.
Proof.
  split.
  - destruct (refresh_token_outcomes (env_reading 0) store_idle
                (snd (_refresh_token (env_reading 0) store_idle))
                (fst (_refresh_token (env_reading 0) store_idle)))
      as (Hexn & Hfail & _).
    + reflexivity.
    + destruct Hfail as [Hraise Hsame]; [left; reflexivity|].
      split; [exact Hraise|]. split; [|exact Hsame].
      exact (Hexn ConfigEntryAuthFailed Hraise).
  - destruct (refresh_token_outcomes
                (with_refresh_reply (Some reply_complete) (env_reading 0))
                store_idle
                (snd (_refresh_token
                        (with_refresh_reply (Some reply_complete)
                           (env_reading 0)) store_idle))
                (Ok tt))
      as (_ & _ & Hok).
    + reflexivity.
    + destruct (Hok eq_refl) as (a & rt & x & Hreply & Ha & Hr & Hx & _).
      exists a, rt, x. split; [exact Ha|]. split; [exact Hr|].
      split; [exact Hx|].
      injection Hreply as <- <- <-. repeat split.
Defined.

(* ================================================================== *)
(** ** The profile request and the rate limiter *)

Lemma get_user_profile_request_times (e : env) (s : store) :
  request_times (snd (get_user_profile e s)) = request_times s.
Proof.
  unfold get_user_profile. unfold bind at 1.
  destruct (_ensure_token_valid e s) as [[[]|err] s1] eqn:E;
    apply _ensure_token_valid_frame in E; destruct E as [_ E].
  - monad_unfold. destruct (profile_raises e); exact E.
  - exact E.
Qed.

(** C6: the code at the inputs where it departs from the claim.
    [get_user_profile] never reads or writes the rate window.  At startup
    (empty window, valid token) the profile request goes out and the
    window stays empty, so the request is not counted.  With 150 requests
    of the last hour in the window, [create_activity_log] raises
    [RateLimitError] and sends nothing, while [get_user_profile] sends its
    request and returns. *)
Theorem get_user_profile_skips_rate_limit :
  (forall (e : env) (s : store),
      request_times (snd (get_user_profile e s)) = request_times s)
  /\ get_user_profile (env_reading 0) store_idle
     = (Ok tt, add_event UserProfileRequest store_idle)
  /\ request_times (snd (get_user_profile (env_reading 0) store_idle)) = []
  /\ length (filter (within_hour 5002) (request_times store_quota_used))
     = 150%nat
  /\ fst (create_activity_log (env_reading 0) "Walking" 1 0%Z 1%Z None
            store_quota_used) = Raise RateLimitError
  /\ trace (snd (create_activity_log (env_reading 0) "Walking" 1 0%Z 1%Z None
                   store_quota_used)) = []
  /\ get_user_profile (env_reading 0) store_quota_used
     = (Ok tt, add_event UserProfileRequest store_quota_used).
Proof.
  split; [exact get_user_profile_request_times|].
  repeat split; vm_compute; reflexivity.
Qed.

(* ================================================================== *)
(** ** Callers on the event loop *)

Lemma filter_set_nth {A : Type} (p : A -> bool) (l : list A) :
  forall (i : nat) (c c' : A),
    nth_error l i = Some c ->
    (length (filter p (set_nth i c' l)) + (if p c then 1 else 0)
     = length (filter p l) + (if p c' then 1 else 0))%nat.
Proof.
  induction l as [|x l IH]; intros i c c' H.
  - destruct i; discriminate H.
  - destruct i as [|i].
    + injection H as ->. simpl.
      destruct (p c), (p c'); simpl; lia.
    + simpl in H. specialize (IH i c c' H). simpl.
      destruct (p x); simpl; lia.
Qed.

Lemma nth_error_filter_pos {A : Type} (p : A -> bool) (l : list A) :
  forall (i : nat) (c : A),
    nth_error l i = Some c -> p c = true ->
    (0 < length (filter p l))%nat.
Proof.
  induction l as [|x l IH]; intros i c H Hp.
  - destruct i; discriminate H.
  - destruct i as [|i].
    + injection H as ->. simpl. rewrite Hp. simpl. lia.
    + simpl in H. specialize (IH i c H Hp). simpl.
      destruct (p x); simpl; lia.
Qed.

(** Starting a caller that finds the token near expiry puts one more
    refresh call in flight, whatever the other callers are doing. *)
Lemma start_near_expiry (l : loop) (i : nat) (now : Q) :
  nth_error (callers l) i = Some Ready ->
  needs_refresh now (expires_at (shared l)) = true ->
  in_flight (loop_step (Start i now) l) = S (in_flight l)
  /\ refresh_requests (shared (loop_step (Start i now) l))
     = S (refresh_requests (shared l)).
Proof.
  intros Hi Hneed. unfold loop_step. rewrite Hi, Hneed.
  unfold in_flight, refresh_requests. cbn [callers shared trace add_event].
  pose proof (filter_set_nth is_awaiting (callers l) i Ready AwaitingRefresh Hi)
    as H. simpl in H.
  split; [lia|].
  rewrite filter_app, length_app. simpl. lia.
Qed.

Lemma set_nth_nth_error {A : Type} (l : list A) :
  forall (i : nat) (c c' : A),
    nth_error l i = Some c -> nth_error (set_nth i c' l) i = Some c'.
Proof.
  induction l as [|x l IH]; intros [|i] c c' H; try discriminate H.
  - reflexivity.
  - simpl. exact (IH i c c' H).
Qed.

(** Starting a caller with nothing in flight: either nothing is in flight
    after it and the caller is not suspended, or its own call is the one
    in flight. *)
Lemma start_alone (l : loop) (i : nat) (now : Q) :
  in_flight l = 0%nat ->
  (in_flight (loop_step (Start i now) l) = 0%nat
   /\ nth_error (callers (loop_step (Start i now) l)) i <> Some AwaitingRefresh)
  \/ (in_flight (loop_step (Start i now) l) = 1%nat
      /\ nth_error (callers (loop_step (Start i now) l)) i
         = Some AwaitingRefresh).
Proof.
  intro H0. unfold loop_step.
  destruct (nth_error (callers l) i) as [c|] eqn:Hi.
  - destruct c.
    + destruct (needs_refresh now (expires_at (shared l))).
      * right. unfold in_flight in *. cbn [callers].
        pose proof (filter_set_nth is_awaiting (callers l) i Ready
                      AwaitingRefresh Hi) as H. simpl in H.
        split; [lia|]. exact (set_nth_nth_error _ _ _ _ Hi).
      * left. unfold in_flight in *. cbn [callers].
        pose proof (filter_set_nth is_awaiting (callers l) i Ready
                      (Finished (Ok tt)) Hi) as H. simpl in H.
        split; [lia|].
        rewrite (set_nth_nth_error _ _ _ (Finished (Ok tt)) Hi).
        discriminate.
    + exfalso.
      pose proof (nth_error_filter_pos is_awaiting (callers l) i
                    AwaitingRefresh Hi eq_refl) as H.
      unfold in_flight in H0. lia.
    + left. split; [exact H0|]. rewrite Hi. discriminate.
  - left. split; [exact H0|]. rewrite Hi. discriminate.
Qed.

(** Resuming a suspended caller takes its call out of flight; resuming
    any other caller changes nothing. *)
Lemma resume_suspended (l : loop) (i : nat) (e : env) :
  nth_error (callers l) i = Some AwaitingRefresh ->
  S (in_flight (loop_step (Resume i e) l)) = in_flight l.
Proof.
  intro Hi. unfold loop_step. rewrite Hi.
  destruct (refresh_after_reply e (shared l)) as [r s'].
  unfold in_flight. cbn [callers].
  pose proof (filter_set_nth is_awaiting (callers l) i AwaitingRefresh
                (Finished r) Hi) as H. simpl in H. lia.
Qed.

Lemma resume_not_suspended (l : loop) (i : nat) (e : env) :
  nth_error (callers l) i <> Some AwaitingRefresh ->
  loop_step (Resume i e) l = l.
Proof.
  intro Hi. unfold loop_step.
  destruct (nth_error (callers l) i) as [[| |r]|]; try reflexivity.
  contradiction.
Qed.

(** A caller started and resumed with nothing in flight leaves nothing in
    flight, and has at most its own call in flight in between. *)
Lemma start_resume_alone (l : loop) (i : nat) (now : Q) (e : env) :
  in_flight l = 0%nat ->
  (in_flight (loop_step (Start i now) l) <= 1)%nat
  /\ in_flight (loop_step (Resume i e) (loop_step (Start i now) l)) = 0%nat.
Proof.
  intro H0.
  destruct (start_alone l i now H0) as [[H1 Hi]|[H1 Hi]].
  - rewrite (resume_not_suspended _ i e Hi). lia.
  - pose proof (resume_suspended _ i e Hi) as H. lia.
Qed.

Lemma one_after_another_in_flight (calls : list (nat * env)) :
  forall (l : loop) (k : nat),
    in_flight l = 0%nat ->
    (in_flight (loop_run (firstn k (one_after_another calls)) l) <= 1)%nat.
Proof.
  induction calls as [|[i e] calls IH]; intros l k H0.
  - simpl. rewrite firstn_nil. simpl. lia.
  - destruct (start_resume_alone l i (time_ensure_token_valid e) e H0)
      as [H1 H2].
    destruct k as [|[|k]]; simpl.
    + lia.
    + exact H1.
    + apply IH. exact H2.
Qed.

(** A lone caller, started and resumed, does what [_ensure_token_valid]
    does. *)
Lemma lone_caller_is_ensure_token_valid (e : env) (s : store) :
  loop_run [Start 0 (time_ensure_token_valid e); Resume 0 e]
    {| shared := s; callers := [Ready] |}
  = {| shared := snd (_ensure_token_valid e s);
       callers := [Finished (fst (_ensure_token_valid e s))] |}.
Proof.
  assert (H : _ensure_token_valid e s
              = if needs_refresh (time_ensure_token_valid e) (expires_at s)
                then refresh_after_reply e (add_event RefreshTokenRequest s)
                else (Ok tt, s)).
  { unfold _ensure_token_valid, _refresh_token, bind, get, emit, modify, ret.
    destruct (needs_refresh _ _); reflexivity. }
  rewrite H. simpl.
  destruct (needs_refresh (time_ensure_token_valid e) (expires_at s)); simpl.
  - destruct (refresh_after_reply e (add_event RefreshTokenRequest s));
      reflexivity.
  - reflexivity.
Qed.

(** C9, as stated, at two callers that start at clock readings 5000 and
    5001 while the token expires at 5100: both find it near expiry, and
    two refresh calls are in flight at once. *)
Lemma two_refreshes_in_flight :
  needs_refresh 5000 (expires_at (shared two_callers)) = true
  /\ needs_refresh 5001 (expires_at (shared two_callers)) = true
  /\ in_flight (loop_run [Start 0 5000; Start 1 5001] two_callers) = 2%nat
  /\ refresh_requests (shared (loop_run [Start 0 5000; Start 1 5001]
                                 two_callers)) = 2%nat
  /\ ~ (in_flight (loop_run [Start 0 5000; Start 1 5001] two_callers)
        <= 1)%nat.
Proof.
  repeat split. vm_compute. lia.
Qed.

(** C9 (amended): token refresh is per caller, not single-flight.  A
    caller that finds the token near expiry when it starts sends its own
    refresh call, whatever calls are in flight already.  Callers that run
    one after another, each finished before the next starts, have at most
    one refresh call in flight at any time; such a caller does what
    [_ensure_token_valid] does. *)
Theorem refresh_is_per_caller :
  (forall (l : loop) (i : nat) (now : Q),
      nth_error (callers l) i = Some Ready ->
      needs_refresh now (expires_at (shared l)) = true ->
      in_flight (loop_step (Start i now) l) = S (in_flight l)
      /\ refresh_requests (shared (loop_step (Start i now) l))
         = S (refresh_requests (shared l)))
  /\ (forall (calls : list (nat * env)) (l : loop) (k : nat),
         in_flight l = 0%nat ->
         (in_flight (loop_run (firstn k (one_after_another calls)) l) <= 1)%nat)
  /\ (forall (e : env) (s : store),
         loop_run [Start 0 (time_ensure_token_valid e); Resume 0 e]
           {| shared := s; callers := [Ready] |}
         = {| shared := snd (_ensure_token_valid e s);
              callers := [Finished (fst (_ensure_token_valid e s))] |}).
Proof.
  split; [exact start_near_expiry|].
  split; [intros calls l k; apply one_after_another_in_flight|].
  exact lone_caller_is_ensure_token_valid.
Qed.

Lemma refresh_is_per_caller_witness :
  in_flight (loop_step (Start 1 5001) (loop_step (Start 0 5000) two_callers))
  = 2%nat
  /\ (in_flight
        (loop_run
           (firstn 3 (one_after_another
                        [(0%nat, env_reading 0); (1%nat, env_reading 0)]))
           two_callers) <= 1)%nat.
Proof.
  destruct refresh_is_per_caller as (Hstart & Hseq & _).
  split.
  - destruct (Hstart (loop_step (Start 0 5000) two_callers) 1%nat 5001)
      as [H _]; [reflexivity|reflexivity|].
    rewrite H.
    destruct (Hstart two_callers 0%nat 5000) as [H' _];
      [reflexivity|reflexivity|].
    rewrite H'. reflexivity.
  - apply Hseq. reflexivity.
Defined.

(* ================================================================== *)
(** ** Relating the store before and after: the combinators *)

#[local] Instance emits_only_preorder (P : event -> Prop) :
  PreOrder (emits_only P).
Proof.
  split.
  - intro s. exists []. rewrite app_nil_r. split; [reflexivity|constructor].
  - intros a b c (e1 & H1 & F1) (e2 & H2 & F2). exists (e1 ++ e2).
    rewrite H2, H1, app_assoc. split; [reflexivity|].
    apply Forall_app. split; assumption.
Qed.

#[local] Instance keeps_preorder {A : Type} (f : store -> A) :
  PreOrder (keeps f).
Proof.
  split.
  - intro s. reflexivity.
  - intros a b c H1 H2. unfold keeps in *. congruence.
Qed.

#[local] Instance maintains_preorder (I : store -> Prop) :
  PreOrder (maintains I).
Proof.
  split.
  - intros s H. exact H.
  - intros a b c H1 H2 H. exact (H2 (H1 H)).
Qed.

Section Relates.

Context (R : store -> store -> Prop) `{!PreOrder R}.

Lemma relates_ret {A : Type} (a : A) : relates R (ret a).
Proof. intros s r s' H. injection H as _ <-. reflexivity. Qed.

Lemma relates_raise {A : Type} (e : exn) : relates R (@raise A e).
Proof. intros s r s' H. injection H as _ <-. reflexivity. Qed.

Lemma relates_get {A : Type} (f : store -> A) : relates R (get f).
Proof. intros s r s' H. injection H as _ <-. reflexivity. Qed.

Lemma relates_modify (f : store -> store) :
  (forall s, R s (f s)) -> relates R (modify f).
Proof. intros Hf s r s' H. injection H as _ <-. apply Hf. Qed.

Lemma relates_bind {A B : Type} (m : M A) (k : A -> M B) :
  relates R m -> (forall a, relates R (k a)) -> relates R (bind m k).
Proof.
  intros Hm Hk s r s' H. unfold bind in H.
  destruct (m s) as [[a|e] s1] eqn:E.
  - transitivity s1; [exact (Hm _ _ _ E)|exact (Hk a _ _ _ H)].
  - injection H as _ <-. exact (Hm _ _ _ E).
Qed.

Lemma relates_try_except {A : Type} (body : M A) (handler : exn -> M A) :
  relates R body -> (forall e, relates R (handler e)) ->
  relates R (try_except body handler).
Proof.
  intros Hb Hh s r s' H. unfold try_except in H.
  destruct (body s) as [[a|e] s1] eqn:E.
  - injection H as _ <-. exact (Hb _ _ _ E).
  - transitivity s1; [exact (Hb _ _ _ E)|exact (Hh e _ _ _ H)].
Qed.

Lemma relates_try_finally {A : Type} (body : M A) (fin : M unit) :
  relates R body -> relates R fin -> relates R (try_finally body fin).
Proof.
  intros Hb Hf s r s' H. unfold try_finally in H.
  destruct (body s) as [rb s1] eqn:E.
  destruct (fin s1) as [[u|e] s2] eqn:E2; injection H as _ <-;
    (transitivity s1; [exact (Hb _ _ _ E)|exact (Hf _ _ _ E2)]).
Qed.

End Relates.

(** One step of a proof that a method built from the combinators relates
    the stores: the matching combinator, or a case split. *)
Ltac relates_step :=
  lazymatch goal with
  | |- relates _ (bind _ _) => apply relates_bind; [exact _| |intro]
  | |- relates _ (try_except _ _) => apply relates_try_except; [exact _| |intro]
  | |- relates _ (try_finally _ _) => apply relates_try_finally; [exact _| |]
  | |- relates _ (ret _) => apply relates_ret; exact _
  | |- relates _ (raise _) => apply relates_raise; exact _
  | |- relates _ (get _) => apply relates_get; exact _
  | |- relates _ (emit _) => apply relates_modify; intro
  | |- relates _ (modify _) => apply relates_modify; intro
  | |- relates _ (index _ _) => unfold index
  | |- relates _ (match ?x with _ => _ end) => destruct x
  end.

(* ================================================================== *)
(** ** What each method may send *)

Lemma emits_only_event (P : event -> Prop) (ev : event) (s : store) :
  P ev -> emits_only P s (add_event ev s).
Proof.
  intro H. exists [ev]. split; [reflexivity|].
  constructor; [exact H|constructor].
Qed.

Lemma emits_only_same_trace (P : event -> Prop) (s s' : store) :
  trace s' = trace s -> emits_only P s s'.
Proof.
  intro H. exists []. rewrite app_nil_r. split; [exact H|constructor].
Qed.

Lemma emits_only_impl (P Q : event -> Prop) (s s' : store) :
  (forall ev, P ev -> Q ev) -> emits_only P s s' -> emits_only Q s s'.
Proof.
  intros HPQ (evs & H & F). exists evs. split; [exact H|].
  exact (Forall_impl _ HPQ F).
Qed.

Lemma relates_emits_only_impl (P Q : event -> Prop) {A : Type} (m : M A) :
  (forall ev, P ev -> Q ev) ->
  relates (emits_only P) m -> relates (emits_only Q) m.
Proof.
  intros HPQ Hm s r s' H. exact (emits_only_impl P Q s s' HPQ (Hm s r s' H)).
Qed.

(** Closes the goals that [relates_step] leaves for [emits_only]: a
    setter keeps the trace, an event has to be allowed. *)
Ltac emits_finish :=
  first [ apply emits_only_same_trace; reflexivity
        | apply emits_only_event; cbn; auto ].

Lemma _get_distance_value_emits (P : event -> Prop) (e : env) :
  relates (emits_only P) (_get_distance_value e).
Proof.
  intros s r s' H. destruct (_get_distance_value_pure e) as [r0 H0].
  rewrite H0 in H. injection H as _ <-. reflexivity.
Qed.

Lemma refresh_after_reply_emits (P : event -> Prop) (e : env) :
  (forall a r x, P (UpdateEntry a r x)) ->
  relates (emits_only P) (refresh_after_reply e).
Proof.
  intro HP. unfold refresh_after_reply.
  repeat relates_step;
    first [ apply emits_only_same_trace; reflexivity
          | apply emits_only_event; apply HP ].
Qed.

Lemma _ensure_token_valid_emits (P : event -> Prop) (e : env) :
  P RefreshTokenRequest -> (forall a r x, P (UpdateEntry a r x)) ->
  relates (emits_only P) (_ensure_token_valid e).
Proof.
  intros HR HU. unfold _ensure_token_valid, _refresh_token.
  relates_step; [relates_step|].
  relates_step; [|relates_step].
  relates_step; [|apply refresh_after_reply_emits; exact HU].
  relates_step. apply emits_only_event. exact HR.
Qed.

Lemma _check_rate_limit_emits (P : event -> Prop) (e : env) :
  relates (emits_only P) (_check_rate_limit e).
Proof.
  intros s r s' H. rewrite _check_rate_limit_eq in H. injection H as _ <-.
  apply emits_only_same_trace. reflexivity.
Qed.

Lemma create_activity_log_emits (e : env) activity miles start minutes nsteps :
  relates (emits_only (create_event activity miles start minutes nsteps))
    (create_activity_log e activity miles start minutes nsteps).
Proof.
  unfold create_activity_log.
  relates_step; [apply _ensure_token_valid_emits; cbn; auto|].
  relates_step; [apply _check_rate_limit_emits|].
  cbv zeta. repeat relates_step; try emits_finish.
Qed.

Lemma _notify_sync_result_emits (P : event -> Prop) (e : env) ok n m err :
  (get_default (data_notification_enabled e) true = true ->
   P (Notification ok n m err)) ->
  relates (emits_only P) (_notify_sync_result e ok n m err).
Proof.
  intros HP s r s' H. rewrite _notify_sync_result_eq in H.
  injection H as _ <-. unfold notified.
  destruct (get_default (data_notification_enabled e) true).
  - apply emits_only_event. apply HP. reflexivity.
  - reflexivity.
Qed.

Lemma bind_ret {A B : Type} (a : A) (k : A -> M B) : bind (ret a) k = k a.
Proof. reflexivity. Qed.

Lemma bind_raise {A B : Type} (err : exn) (k : A -> M B) :
  bind (raise err) k = raise err.
Proof. reflexivity. Qed.

Lemma sync_workout_handler_emits (e : env) miles start minutes (err : exn) :
  relates (emits_only (sync_event e miles start minutes))
    (sync_workout_handler e err).
Proof.
  unfold sync_workout_handler.
  destruct err;
    repeat first
      [ apply _notify_sync_result_emits; intro; cbn;
        repeat split; try assumption; discriminate
      | relates_step ];
    emits_finish.
Qed.

Lemma _async_sync_workout_emits (e : env) miles start minutes :
  relates (emits_only (sync_event e miles start minutes))
    (_async_sync_workout e miles start minutes).
Proof.
  unfold _async_sync_workout, convert_distance_to_steps. cbv zeta.
  apply relates_try_except; [exact _| |apply sync_workout_handler_emits].
  destruct (Qeq_bool (get_default (data_stride_length e) (5 # 2)) 0).
  - rewrite bind_raise. relates_step.
  - rewrite bind_ret. cbn [fst snd].
    relates_step; [relates_step; emits_finish|].
    relates_step.
    { apply (relates_emits_only_impl
               (create_event
                  (get_default (data_activity_type e) "Walking"%string)
                  miles start minutes
                  (Some (py_int
                           (miles * FEET_PER_MILE
                            / get_default (data_stride_length e) (5 # 2)))))).
      - intros [] H; cbn in *; try exact I; try contradiction. exact H.
      - apply create_activity_log_emits. }
    relates_step; [relates_step; emits_finish|].
    relates_step; [relates_step; emits_finish|].
    relates_step.
    { apply _notify_sync_result_emits. intro. cbn. repeat split; assumption. }
    relates_step; [relates_step; emits_finish|].
    relates_step.
Qed.

Lemma max1_ge_1 (n : Z) : (1 <= max1 n)%Z.
Proof. unfold max1. lia. Qed.

Lemma failure_notice_intro (e : env) (why : error_text) :
  get_default (data_notification_enabled e) true = true ->
  failure_notice e (Notification false None None (Some why)).
Proof. intro H. exists why. split; [reflexivity|exact H]. Qed.

Lemma complete_session_from_emits (e : env) (end_time start : datetime)
    (start_miles : Q) :
  relates (emits_only (completion_event e))
    (complete_session_from e end_time start start_miles).
Proof.
  unfold complete_session_from.
  relates_step; [|relates_step; emits_finish].
  relates_step.
  - relates_step; [apply _get_distance_value_emits|].
    cbv zeta.
    destruct (Qlt_bool (a - start_miles) MIN_DISTANCE) eqn:Hmin.
    { relates_step; [|relates_step; emits_finish].
      apply _notify_sync_result_emits. intro H. left.
      apply failure_notice_intro. exact H. }
    destruct (Qlt_bool MAX_DISTANCE (a - start_miles)) eqn:Hmax.
    { relates_step; [|relates_step; emits_finish].
      apply _notify_sync_result_emits. intro H. left.
      apply failure_notice_intro. exact H. }
    relates_step; [|relates_step].
    apply (relates_emits_only_impl
             (sync_event e (a - start_miles) start
                (duration_minutes_of start end_time)));
      [|apply _async_sync_workout_emits].
    intros ev Hev. right.
    exists (a - start_miles), start, (duration_minutes_of start end_time).
    apply Qlt_bool_false_iff in Hmin. apply Qlt_bool_false_iff in Hmax.
    repeat split; try assumption. apply max1_ge_1.
  - apply _notify_sync_result_emits. intro H. left.
    apply failure_notice_intro. exact H.
Qed.

Lemma _async_start_session_emits (P : event -> Prop) (e : env)
    (start : datetime) :
  relates (emits_only P) (_async_start_session e start).
Proof.
  unfold _async_start_session.
  relates_step; [|relates_step; emits_finish].
  relates_step; [apply _get_distance_value_emits|].
  relates_step. emits_finish.
Qed.

Lemma _async_status_changed_emits (e : env) (old new : option State) :
  relates (emits_only (completion_event e)) (_async_status_changed e old new).
Proof.
  unfold _async_status_changed.
  destruct new as [new|]; [|relates_step].
  destruct old as [old|]; [|relates_step].
  destruct (_ && _); [apply _async_start_session_emits|].
  destruct (_ && _); [|relates_step].
  destruct (get_default (data_auto_sync e) true); [|relates_step].
  unfold _async_complete_session.
  relates_step; [relates_step|].
  destruct a; apply complete_session_from_emits.
Qed.

Lemma manual_sync_emits (e : env) (distance_override : option Q) :
  relates (emits_only (manual_event e)) (manual_sync e distance_override).
Proof.
  unfold manual_sync.
  relates_step.
  - relates_step.
    + destruct distance_override;
        [relates_step|apply _get_distance_value_emits].
    + cbv zeta.
      apply (relates_emits_only_impl
               (sync_event e a (now_manual_sync e) (max1 (py_int (a * 20)))));
        [|apply _async_sync_workout_emits].
      intros ev Hev. right. exists a. exact Hev.
  - relates_step; [|relates_step].
    apply _notify_sync_result_emits. intro H. left.
    apply failure_notice_intro. exact H.
Qed.

Lemma steps_nonneg (miles stride : Q) :
  0 <= miles -> 0 < stride ->
  (0 <= py_int (miles * FEET_PER_MILE / stride))%Z.
Proof.
  intros Hm Hs. rewrite (steps_floor miles stride Hm Hs).
  assert (H : 0 <= miles * 5280 / stride).
  { apply Qle_shift_div_l; [exact Hs|]. rewrite Qmult_0_l.
    apply Qmult_le_0_compat; [exact Hm|]. lra. }
  pose proof (Qfloor_resp_le _ _ H) as Hf. exact Hf.
Qed.

(* ================================================================== *)
(** ** Further properties of the coordinator *)

(** X1: whatever the status change and whatever the sensor and the remote
    service answer, every activities request that the status handler
    sends carries a distance within [MIN_DISTANCE, MAX_DISTANCE], a
    duration of at least one minute (60000 ms), the unit "mi" and, for a
    positive configured stride, a step count that is not negative. *)
Theorem automatic_requests_in_bounds
    (e : env) (old new : option State) (s : store)
    (Hstride : 0 < get_default (data_stride_length e) (5 # 2)) :
  exists evs : list event,
    trace (snd (_async_status_changed e old new s)) = trace s ++ evs
    /\ forall data : activity_data,
         In (ActivitiesRequest data) evs ->
         MIN_DISTANCE <= distance data /\ distance data <= MAX_DISTANCE
         /\ (60000 <= durationMillis data)%Z
         /\ distanceUnit data = "mi"%string
         /\ exists n : Z, payload_steps data = Some n /\ (0 <= n)%Z.
Proof.
  destruct (_async_status_changed e old new s) as [r s'] eqn:Hrun.
  destruct (_async_status_changed_emits e old new s r s' Hrun)
    as (evs & Htrace & Hall).
  exists evs. split; [exact Htrace|].
  intros data Hin. rewrite Forall_forall in Hall.
  destruct (Hall _ Hin) as [(why & Hev & _)|Hsync]; [discriminate Hev|].
  destruct Hsync as (miles & start & minutes & Hmin & Hmax & Hdur & Hev).
  cbn in Hev. subst data. cbn.
  split; [exact Hmin|]. split; [exact Hmax|]. split; [lia|].
  split; [reflexivity|].
  eexists. split; [reflexivity|].
  apply steps_nonneg; [|exact Hstride].
  unfold MIN_DISTANCE in Hmin. lra.
Qed.

Lemma automatic_requests_in_bounds_witness :
  exists evs : list event,
    trace (snd (_async_status_changed (env_reading (35 # 10))
                  (Some (status_at STATE_WORKING 0%Z))
                  (Some (status_at STATE_POST_WORKOUT 1800000000%Z))
                  store_in_session)) = [] ++ evs
    /\ forall data : activity_data,
         In (ActivitiesRequest data) evs ->
         MIN_DISTANCE <= distance data /\ distance data <= MAX_DISTANCE.
Proof.
  destruct (automatic_requests_in_bounds (env_reading (35 # 10))
              (Some (status_at STATE_WORKING 0%Z))
              (Some (status_at STATE_POST_WORKOUT 1800000000%Z))
              store_in_session) as (evs & Htrace & Hall).
  - unfold Qlt. simpl. lia.
  - exists evs. split; [exact Htrace|].
    intros data Hin. destruct (Hall data Hin) as (H1 & H2 & _).
    split; assumption.
Defined.

(** X2: with notifications disabled in the configuration, neither the
    status handler nor a manual sync sends any notification, on success
    or on failure. *)
Theorem disabled_notifications_send_none
    (e : env) (Hoff : data_notification_enabled e = Some false)
    (old new : option State) (distance_override : option Q) (s : store) :
  (exists evs : list event,
      trace (snd (_async_status_changed e old new s)) = trace s ++ evs
      /\ filter is_notification evs = [])
  /\ (exists evs : list event,
         trace (snd (manual_sync e distance_override s)) = trace s ++ evs
         /\ filter is_notification evs = []).
Proof.
  assert (Hnone : forall (P : event -> Prop) (evs : list event),
             (forall ev,
                 P ev -> is_notification ev = true ->
                 get_default (data_notification_enabled e) true = true) ->
             Forall P evs -> filter is_notification evs = []).
  { intros P evs HP Hall. induction Hall as [|ev evs Hev _ IH]; [reflexivity|].
    simpl. destruct (is_notification ev) eqn:Hn; [|exact IH].
    pose proof (HP ev Hev Hn) as H. rewrite Hoff in H. discriminate H. }
  assert (Hsync : forall miles start minutes ev,
             sync_event e miles start minutes ev -> is_notification ev = true ->
             get_default (data_notification_enabled e) true = true).
  { intros miles start minutes [] H Hn; try discriminate Hn.
    cbn in H. apply H. }
  split.
  - destruct (_async_status_changed e old new s) as [r s'] eqn:Hrun.
    destruct (_async_status_changed_emits e old new s r s' Hrun)
      as (evs & Htrace & Hall).
    exists evs. split; [exact Htrace|].
    apply (Hnone (completion_event e)); [|exact Hall].
    intros ev [(why & _ & H)|(miles & start & minutes & _ & _ & _ & H)] Hn;
      [exact H|exact (Hsync _ _ _ _ H Hn)].
  - destruct (manual_sync e distance_override s) as [r s'] eqn:Hrun.
    destruct (manual_sync_emits e distance_override s r s' Hrun)
      as (evs & Htrace & Hall).
    exists evs. split; [exact Htrace|].
    apply (Hnone (manual_event e)); [|exact Hall].
    intros ev [(why & _ & H)|(miles & H)] Hn;
      [exact H|exact (Hsync _ _ _ _ H Hn)].
Qed.

Lemma disabled_notifications_send_none_witness :
  (exists evs : list event,
      trace (snd (_async_status_changed
                    (with_notifications (Some false) (env_reading 500))
                    (Some (status_at STATE_WORKING 0%Z))
                    (Some (status_at STATE_POST_WORKOUT 1800000000%Z))
                    store_in_session)) = [] ++ evs
      /\ filter is_notification evs = [])
  /\ trace (snd (_async_status_changed
                   (with_notifications (Some false) (env_reading 500))
                   (Some (status_at STATE_WORKING 0%Z))
                   (Some (status_at STATE_POST_WORKOUT 1800000000%Z))
                   store_in_session)) = [].
Proof.
  split; [|reflexivity].
  exact (proj1 (disabled_notifications_send_none
                  (with_notifications (Some false) (env_reading 500)) eq_refl
                  (Some (status_at STATE_WORKING 0%Z))
                  (Some (status_at STATE_POST_WORKOUT 1800000000%Z))
                  None store_in_session)).
Defined.

Lemma complete_session_from_returns (e : env) (end_time start : datetime)
    (start_miles : Q) (s : store) :
  exists s1 : store,
    complete_session_from e end_time start start_miles s
    = (Ok tt, set_current_session None s1).
Proof.
  unfold complete_session_from, try_finally, try_except, modify.
  match goal with
  | |- context [match ?body s with _ => _ end] =>
      destruct (body s) as [[[]|err] s1]
  end.
  - exists s1. reflexivity.
  - rewrite _notify_sync_result_eq. eexists. reflexivity.
Qed.

(** X3: the status handler never raises.  Whatever the event, the sensor
    and the remote service do, it returns normally; failures of the
    sensor, of the token refresh and of the activities request end in the
    handler. *)
Theorem status_handler_never_raises
    (e : env) (old new : option State) (s : store) :
  fst (_async_status_changed e old new s) = Ok tt.
Proof.
  unfold _async_status_changed.
  destruct new as [new|]; [|reflexivity].
  destruct old as [old|]; [|reflexivity].
  destruct (_ && _).
  - destruct (_async_start_session_eq e (last_changed new) s) as (m & H & _).
    rewrite H. reflexivity.
  - destruct (_ && _); [|reflexivity].
    destruct (get_default (data_auto_sync e) true); [|reflexivity].
    rewrite _async_complete_session_eq.
    destruct (complete_session_from_returns e (last_changed new)
                (session_start (current_session s) (last_changed new))
                (session_start_distance (current_session s)) s) as [s1 H].
    rewrite H. reflexivity.
Qed.

(** X4: the completion pipeline always ends with no session open: after a
    sync, after a distance out of bounds, after a failure of the sensor
    and after a failure of the remote service alike. *)
Theorem completion_always_clears_session
    (e : env) (end_time : datetime) (s : store) :
  current_session (snd (_async_complete_session e end_time s)) = None.
Proof.
  rewrite _async_complete_session_eq.
  destruct (complete_session_from_returns e end_time
              (session_start (current_session s) end_time)
              (session_start_distance (current_session s)) s) as [s1 H].
  rewrite H. reflexivity.
Qed.

(* ================================================================== *)
(** ** The sync history and the session under every entry point *)

Lemma relates_of_frame {A B : Type} (f : store -> A) (m : M B) :
  (forall s r s', m s = (r, s') -> f s' = f s) -> relates (keeps f) m.
Proof. intros H s r s' E. exact (H s r s' E). Qed.

Lemma relates_maintains_of_keeps {A B : Type} (f : store -> A)
    (I : store -> Prop) (m : M B) :
  (forall s s', f s' = f s -> I s -> I s') ->
  relates (keeps f) m -> relates (maintains I) m.
Proof. intros HI Hm s r s' E. exact (HI s s' (Hm s r s' E)). Qed.

Lemma create_activity_log_keeps_history (e : env)
    activity miles start minutes nsteps :
  relates (keeps sync_history)
    (create_activity_log e activity miles start minutes nsteps).
Proof.
  apply relates_of_frame. intros s r s' H.
  exact (proj1 (create_activity_log_frame _ _ _ _ _ _ _ _ _ H)).
Qed.

Lemma create_activity_log_keeps_session (e : env)
    activity miles start minutes nsteps :
  relates (keeps current_session)
    (create_activity_log e activity miles start minutes nsteps).
Proof.
  apply relates_of_frame. intros s r s' H.
  exact (proj1 (proj2 (create_activity_log_frame _ _ _ _ _ _ _ _ _ H))).
Qed.

Lemma _get_distance_value_relates (R : store -> store -> Prop)
    `{!PreOrder R} (e : env) :
  relates R (_get_distance_value e).
Proof.
  intros s r s' H. destruct (_get_distance_value_pure e) as [r0 H0].
  rewrite H0 in H. injection H as _ <-. reflexivity.
Qed.

Lemma _notify_sync_result_relates (R : store -> store -> Prop)
    `{!PreOrder R} (e : env) ok n m err :
  (forall ev s, R s (add_event ev s)) ->
  relates R (_notify_sync_result e ok n m err).
Proof.
  intros HR s r s' H. rewrite _notify_sync_result_eq in H.
  injection H as _ <-. unfold notified.
  destruct (get_default (data_notification_enabled e) true);
    [apply HR|reflexivity].
Qed.

Lemma history_ok_same (s s' : store) :
  sync_history s' = sync_history s -> history_ok s -> history_ok s'.
Proof. unfold history_ok. intros ->. tauto. Qed.

Lemma history_ok_append (r : sync_record) (s : store) :
  success r = true -> history_ok s ->
  history_ok (set_sync_history (append_history r (sync_history s)) s).
Proof.
  intros Hr [Hlen Hall]. split; cbn [sync_history set_sync_history].
  - apply append_history_length. exact Hlen.
  - rewrite append_history_eq.
    destruct (MAX_HISTORY_SIZE <=? length (sync_history s))%nat;
      apply Forall_app; split; try (constructor; [exact Hr|constructor]).
    + destruct (sync_history s) as [|x h]; [constructor|].
      inversion Hall. assumption.
    + exact Hall.
Qed.

Ltac history_finish :=
  let H := fresh "H" in
  intro H; first [ exact H | exact (history_ok_same _ _ eq_refl H) ].

Lemma sync_workout_handler_history (e : env) (err : exn) :
  relates (maintains history_ok) (sync_workout_handler e err).
Proof.
  unfold sync_workout_handler.
  destruct err;
    repeat first
      [ apply _notify_sync_result_relates;
        [exact _|intros ev s0 H; exact (history_ok_same _ _ eq_refl H)]
      | relates_step ];
    history_finish.
Qed.

Lemma _async_sync_workout_history (e : env) miles start minutes :
  relates (maintains history_ok) (_async_sync_workout e miles start minutes).
Proof.
  unfold _async_sync_workout, convert_distance_to_steps. cbv zeta.
  apply relates_try_except; [exact _| |apply sync_workout_handler_history].
  destruct (Qeq_bool (get_default (data_stride_length e) (5 # 2)) 0).
  - rewrite bind_raise. relates_step.
  - rewrite bind_ret. cbn [fst snd].
    relates_step; [relates_step; history_finish|].
    relates_step.
    { apply (relates_maintains_of_keeps sync_history);
        [exact history_ok_same|apply create_activity_log_keeps_history]. }
    relates_step.
    { relates_step. unfold maintains. apply history_ok_append. reflexivity. }
    relates_step; [relates_step; history_finish|].
    relates_step.
    { apply _notify_sync_result_relates; [exact _|].
      intros ev s0 H. exact (history_ok_same _ _ eq_refl H). }
    relates_step; [relates_step; history_finish|].
    relates_step.
Qed.

Lemma complete_session_from_history (e : env) (end_time start : datetime)
    (start_miles : Q) :
  relates (maintains history_ok)
    (complete_session_from e end_time start start_miles).
Proof.
  unfold complete_session_from.
  assert (Hn : forall ok n m err,
             relates (maintains history_ok) (_notify_sync_result e ok n m err)).
  { intros. apply _notify_sync_result_relates; [exact _|].
    intros ev s0 H. exact (history_ok_same _ _ eq_refl H). }
  relates_step; [|relates_step; history_finish].
  relates_step; [|apply Hn].
  relates_step; [apply _get_distance_value_relates; exact _|].
  cbv zeta.
  destruct (Qlt_bool _ _);
    [relates_step; [apply Hn|relates_step; history_finish]|].
  destruct (Qlt_bool _ _);
    [relates_step; [apply Hn|relates_step; history_finish]|].
  relates_step; [apply _async_sync_workout_history|relates_step].
Qed.

Lemma _async_status_changed_history (e : env) (old new : option State) :
  relates (maintains history_ok) (_async_status_changed e old new).
Proof.
  unfold _async_status_changed.
  destruct new as [new|]; [|relates_step].
  destruct old as [old|]; [|relates_step].
  destruct (_ && _).
  - unfold _async_start_session.
    relates_step; [|relates_step; history_finish].
    relates_step; [apply _get_distance_value_relates; exact _|].
    relates_step. history_finish.
  - destruct (_ && _); [|relates_step].
    destruct (get_default (data_auto_sync e) true); [|relates_step].
    unfold _async_complete_session.
    relates_step; [relates_step|].
    destruct a; apply complete_session_from_history.
Qed.

Lemma manual_sync_history (e : env) (distance_override : option Q) :
  relates (maintains history_ok) (manual_sync e distance_override).
Proof.
  unfold manual_sync.
  relates_step.
  - relates_step; [|cbv zeta; apply _async_sync_workout_history].
    destruct distance_override;
      [relates_step|apply _get_distance_value_relates; exact _].
  - relates_step; [|relates_step].
    apply _notify_sync_result_relates; [exact _|].
    intros ev s0 H. exact (history_ok_same _ _ eq_refl H).
Qed.

(** X5: the sync history never grows beyond [MAX_HISTORY_SIZE] = 50
    entries and never holds a failed attempt: a store whose history has at
    most 50 entries, all with success = true, keeps both properties under
    every status change and every manual sync. *)
Theorem history_stays_bounded_and_successful
    (e : env) (s : store) (Hs : history_ok s)
    (old new : option State) (distance_override : option Q) :
  history_ok (snd (_async_status_changed e old new s))
  /\ history_ok (snd (manual_sync e distance_override s)).
Proof.
  split.
  - destruct (_async_status_changed e old new s) as [r s'] eqn:H.
    exact (_async_status_changed_history e old new s r s' H Hs).
  - destruct (manual_sync e distance_override s) as [r s'] eqn:H.
    exact (manual_sync_history e distance_override s r s' H Hs).
Qed.

Lemma history_stays_bounded_and_successful_witness :
  history_ok store_full_history
  /\ length (sync_history store_full_history) = 50%nat
  /\ history_ok (snd (manual_sync (env_reading 0) (Some 2) store_full_history))
  /\ length (sync_history
               (snd (manual_sync (env_reading 0) (Some 2) store_full_history)))
     = 50%nat.
Proof.
  assert (H : history_ok store_full_history).
  { split.
    - apply Nat.leb_le. reflexivity.
    - apply Forall_forall. intros r Hr. apply repeat_spec in Hr.
      subst r. reflexivity. }
  split; [exact H|]. split; [reflexivity|].
  split; [|reflexivity].
  exact (proj2 (history_stays_bounded_and_successful (env_reading 0)
                  store_full_history H None None (Some 2))).
Defined.

Lemma _async_sync_workout_keeps_session (e : env) miles start minutes :
  relates (keeps current_session) (_async_sync_workout e miles start minutes).
Proof.
  assert (Hn : forall ok n m err,
             relates (keeps current_session)
               (_notify_sync_result e ok n m err)).
  { intros. apply _notify_sync_result_relates; [exact _|].
    intros ev s0. reflexivity. }
  unfold _async_sync_workout, convert_distance_to_steps. cbv zeta.
  apply relates_try_except; [exact _| |].
  - destruct (Qeq_bool (get_default (data_stride_length e) (5 # 2)) 0).
    + rewrite bind_raise. relates_step.
    + rewrite bind_ret. cbn [fst snd].
      relates_step; [relates_step; reflexivity|].
      relates_step; [apply create_activity_log_keeps_session|].
      relates_step; [relates_step; reflexivity|].
      relates_step; [relates_step; reflexivity|].
      relates_step; [apply Hn|].
      relates_step; [relates_step; reflexivity|].
      relates_step.
  - intro err. unfold sync_workout_handler.
    destruct err;
      repeat first [ apply Hn | relates_step ]; reflexivity.
Qed.

(** X6: a manual sync never touches the session: whether it succeeds or
    raises, with or without an override distance, the session that was
    open before (or the absence of one) is the same after it. *)
Theorem manual_sync_keeps_session
    (e : env) (distance_override : option Q) (s : store) :
  current_session (snd (manual_sync e distance_override s))
  = current_session s.
Proof.
  destruct (manual_sync e distance_override s) as [r s'] eqn:H.
  revert s r s' H. change (relates (keeps current_session)
                             (manual_sync e distance_override)).
  unfold manual_sync.
  relates_step.
  - relates_step; [|cbv zeta; apply _async_sync_workout_keeps_session].
    destruct distance_override;
      [relates_step|apply _get_distance_value_relates; exact _].
  - relates_step; [|relates_step].
    apply _notify_sync_result_relates; [exact _|].
    intros ev s0. reflexivity.
Qed.

(** X7: without an override a manual sync depends on the distance sensor
    alone.  When the sensor gives a reading, the sync behaves exactly as a
    manual sync with that reading as override, whatever session is open:
    the raw reading is the workout distance and the start distance of an
    open session is not subtracted.  When the sensor cannot be read, the
    sync raises the sensor's error after one failure notification, sends
    no remote request and leaves the history alone. *)
Theorem manual_sync_reads_sensor (e : env) (s : store) :
  (forall reading : Q,
      _get_distance_value e s = (Ok reading, s) ->
      manual_sync e None s = manual_sync e (Some reading) s)
  /\ (forall err : exn,
         _get_distance_value e s = (Raise err, s) ->
         manual_sync e None s
         = (Raise err,
            notified e (Notification false None None (Some (StrOf err))) s)
         /\ remote_requests (snd (manual_sync e None s)) = remote_requests s
         /\ sync_history (snd (manual_sync e None s)) = sync_history s).
Proof.
  split.
  - intros reading Hread.
    unfold manual_sync, try_except. unfold bind at 1 3.
    rewrite Hread. reflexivity.
  - intros err Hread.
    assert (Hrun : manual_sync e None s
                   = (Raise err,
                      notified e
                        (Notification false None None (Some (StrOf err))) s)).
    { unfold manual_sync, try_except. unfold bind at 1.
      rewrite Hread. unfold bind. rewrite _notify_sync_result_eq.
      reflexivity. }
    rewrite Hrun. cbn [snd].
    split; [reflexivity|].
    split; [apply notified_remote_requests|apply notified_same_coordinator].
Qed.

Lemma manual_sync_reads_sensor_witness :
  manual_sync (env_reading 3) None store_in_session
  = manual_sync (env_reading 3) (Some 3) store_in_session
  /\ (exists r : sync_record,
         fst (manual_sync (env_reading 3) None store_in_session) = Ok r
         /\ distance_miles r = 3)
  /\ fst (manual_sync (with_sensor None (env_reading 0)) None store_in_session)
     = Raise (ValueError DistanceEntityNotFound).
Proof.
  destruct (manual_sync_reads_sensor (env_reading 3) store_in_session)
    as [Hok _].
  destruct (manual_sync_reads_sensor (with_sensor None (env_reading 0))
              store_in_session) as [_ Herr].
  pose proof (Hok 3 eq_refl) as H.
  split; [exact H|]. split.
  - rewrite H. eexists. split; reflexivity.
  - destruct (Herr (ValueError DistanceEntityNotFound) eq_refl) as [Hrun _].
    rewrite Hrun. reflexivity.
Defined.

(** X8: when the distance sensor cannot be read at the end of a workout
    (entity not configured, not found, unavailable, unknown or not a
    number), the completion pipeline makes no remote request, leaves the
    history as it was, sends one failure notification when notifications
    are enabled, clears the session and returns normally. *)
Theorem completion_sensor_failure
    (e : env) (end_time : datetime) (s : store) (err : exn)
    (Hread : _get_distance_value e s = (Raise err, s)) :
  _async_complete_session e end_time s
  = (Ok tt,
     set_current_session None
       (notified e (Notification false None None (Some (StrOf err))) s))
  /\ remote_requests (snd (_async_complete_session e end_time s))
     = remote_requests s
  /\ sync_history (snd (_async_complete_session e end_time s))
     = sync_history s
  /\ exists why : value_error, err = ValueError why.
Proof.
  assert (Hrun : _async_complete_session e end_time s
                 = (Ok tt,
                    set_current_session None
                      (notified e
                         (Notification false None None (Some (StrOf err))) s))).
  { rewrite _async_complete_session_eq.
    unfold complete_session_from, try_finally, try_except.
    unfold bind at 1. rewrite Hread. rewrite _notify_sync_result_eq.
    reflexivity. }
  rewrite Hrun. cbn [snd].
  split; [reflexivity|].
  split; [apply notified_remote_requests|].
  split; [apply notified_same_coordinator|].
  revert Hread. unfold _get_distance_value, raise, ret.
  destruct (options_distance_entity e) as [ent|];
    [|intro H; injection H as <-; eexists; reflexivity].
  destruct (String.eqb ent "");
    [intro H; injection H as <-; eexists; reflexivity|].
  destruct (states_get e ent) as [[| |[q|]]|]; intro H;
    try discriminate H; injection H as <-; eexists; reflexivity.
Qed.

Lemma completion_sensor_failure_witness :
  _async_complete_session (with_sensor (Some STATE_UNAVAILABLE) (env_reading 0))
    1800000000%Z store_in_session
  = (Ok tt,
     set_current_session None
       (add_event
          (Notification false None None
             (Some (StrOf (ValueError DistanceEntityUnavailable))))
          store_in_session)).
Proof.
  exact (proj1 (completion_sensor_failure
                  (with_sensor (Some STATE_UNAVAILABLE) (env_reading 0))
                  1800000000%Z store_in_session
                  (ValueError DistanceEntityUnavailable) eq_refl)).
Defined.

(* ================================================================== *)
(** ** Further properties of the API client *)

Lemma filter_all {A : Type} (p : A -> bool) (l : list A) :
  (forall x, In x l -> p x = true) -> filter p l = l.
Proof.
  intro H. induction l as [|x l IH]; [reflexivity|].
  simpl. rewrite (H x (or_introl eq_refl)). f_equal.
  apply IH. intros y Hy. apply H. right. exact Hy.
Qed.

Lemma filter_none {A : Type} (p : A -> bool) (l : list A) :
  Forall (fun x => p x = false) l -> filter p l = [].
Proof.
  intro H. induction H as [|x l Hx _ IH]; [reflexivity|].
  simpl. rewrite Hx. exact IH.
Qed.

Lemma admitted_within_one_hour (ts : list Q) :
  forall w : list Q,
    within_one_hour (w ++ ts) ->
    admitted ts w = firstn (150 - length w) ts.
Proof.
  induction ts as [|t ts IH]; intros w Hw.
  - rewrite firstn_nil. reflexivity.
  - assert (Hkeep : filter (within_hour t) w = w).
    { apply filter_all. intros x Hx. apply within_hour_iff.
      apply Hw; apply in_or_app; [left; exact Hx|right; left; reflexivity]. }
    cbn [admitted]. unfold check_rate_limit_at. rewrite Hkeep.
    destruct (150 <=? length w)%nat eqn:E; cbv beta iota zeta.
    + apply Nat.leb_le in E.
      rewrite IH.
      * replace (150 - length w)%nat with 0%nat by lia. reflexivity.
      * intros x y Hx Hy. apply Hw.
        -- apply in_app_or in Hx. apply in_or_app.
           destruct Hx; [left|right; right]; assumption.
        -- apply in_app_or in Hy. apply in_or_app.
           destruct Hy; [left|right; right]; assumption.
    + apply Nat.leb_gt in E.
      rewrite IH.
      * rewrite length_app. cbn [length].
        replace (150 - length w)%nat with (S (150 - (length w + 1)))%nat
          by lia.
        reflexivity.
      * rewrite <- app_assoc. exact Hw.
Qed.

(** X9: the rate limiter is exact within an hour: when the stored
    timestamps and a sequence of attempts all lie within less than 3600
    seconds of each other, the attempts admitted are exactly the first
    150 - n of the sequence, n being the number of stored timestamps (at
    most 150); from the empty list, the first 150. *)
Theorem rate_limiter_admits_first_150 (ts w : list Q)
    (Hhour : within_one_hour (w ++ ts)) :
  admitted ts w = firstn (150 - length w) ts
  /\ (w = [] -> admitted ts w = firstn 150 ts).
Proof.
  split.
  - apply admitted_within_one_hour. exact Hhour.
  - intros ->. rewrite (admitted_within_one_hour ts [] Hhour). reflexivity.
Qed.

Lemma rate_limiter_admits_first_150_witness :
  admitted burst [] = firstn 150 burst
  /\ length (admitted burst []) = 150%nat
  /\ length burst = 200%nat.
Proof.
  assert (H : within_one_hour ([] ++ burst)).
  { intros x y Hx Hy. cbn [app] in Hx, Hy. unfold burst in Hx, Hy.
    apply in_map_iff in Hx. destruct Hx as (n & <- & Hn).
    apply in_map_iff in Hy. destruct Hy as (m & <- & Hm).
    apply in_seq in Hn. apply in_seq in Hm.
    unfold Qlt, Qminus, Qplus, Qopp, inject_Z. cbn [Qnum Qden]. lia. }
  destruct (rate_limiter_admits_first_150 burst [] H) as [_ Hfirst].
  split; [exact (Hfirst eq_refl)|].
  split; [rewrite (Hfirst eq_refl)|]; reflexivity.
Defined.

(** X10: after every admission check, admitted or rejected, all stored
    timestamps are younger than 3600 seconds at the reading of the clock
    used by the check. *)
Theorem rate_window_holds_last_hour (t : Q) (w : list Q) :
  Forall (fun x => t - x < 3600) (snd (check_rate_limit_at t w)).
Proof.
  assert (H : Forall (fun x => t - x < 3600) (filter (within_hour t) w)).
  { apply Forall_forall. intros x Hx. apply filter_In in Hx.
    apply within_hour_iff. exact (proj2 Hx). }
  unfold check_rate_limit_at.
  destruct (150 <=? length (filter (within_hour t) w))%nat; cbn [snd].
  - exact H.
  - apply Forall_app. split; [exact H|].
    constructor; [lra|constructor].
Qed.

Lemma _ensure_token_valid_raises (e : env) (s s1 : store) (err : exn) :
  _ensure_token_valid e s = (Raise err, s1) -> err = ConfigEntryAuthFailed.
Proof.
  unfold _ensure_token_valid, _refresh_token, bind, get, emit, modify, ret.
  destruct (needs_refresh _ _); [|discriminate].
  apply refresh_after_reply_raises.
Qed.

Lemma _ensure_token_valid_no_activities (e : env) (s s1 : store)
    (r : result unit) :
  _ensure_token_valid e s = (r, s1) ->
  activities_requests s1 = activities_requests s.
Proof.
  intro H.
  destruct (_ensure_token_valid_emits
              (fun ev => is_activities_request ev = false) e
              eq_refl (fun _ _ _ => eq_refl) s r s1 H) as (evs & Ht & Hall).
  unfold activities_requests. rewrite Ht, filter_app, (filter_none _ _ Hall).
  rewrite app_nil_r. reflexivity.
Qed.

(** X11: [create_activity_log] sends its request only after both checks
    have passed.  When the token check raises, it raises
    [ConfigEntryAuthFailed], sends no activities request and leaves the
    rate window as it was: a failed refresh uses no quota.  When the token
    check passes and the window is full, it raises [RateLimitError] and
    sends nothing.  When both pass, the request is sent and its timestamp
    is stored before the reply is known, so a request that the service
    answers with an error is counted as well. *)
Theorem create_activity_log_gates (e : env) (activity : string) (miles : Q)
    (start : datetime) (minutes : Z) (nsteps : option Z) (s : store) :
  (forall (err : exn) (s1 : store),
      _ensure_token_valid e s = (Raise err, s1) ->
      create_activity_log e activity miles start minutes nsteps s
      = (Raise ConfigEntryAuthFailed, s1)
      /\ request_times s1 = request_times s
      /\ activities_requests s1 = activities_requests s)
  /\ (forall s1 : store,
         _ensure_token_valid e s = (Ok tt, s1) ->
         ~ quota_left e s1 ->
         create_activity_log e activity miles start minutes nsteps s
         = (Raise RateLimitError,
            set_request_times
              (filter (within_hour (time_check_rate_limit e))
                 (request_times s1)) s1))
  /\ (forall s1 : store,
         _ensure_token_valid e s = (Ok tt, s1) ->
         quota_left e s1 ->
         create_activity_log e activity miles start minutes nsteps s
         = (result_of_reply (activities_reply e),
            add_event
              (ActivitiesRequest
                 (activity_data_of activity miles start minutes nsteps))
              (set_request_times
                 (filter (within_hour (time_check_rate_limit e))
                    (request_times s1) ++ [time_check_rate_limit e]) s1))).
Proof.
  split; [|split].
  - intros err s1 H.
    pose proof (_ensure_token_valid_raises e s s1 err H) as ->.
    split; [unfold create_activity_log; unfold bind at 1; rewrite H;
            reflexivity|].
    split; [exact (proj2 (_ensure_token_valid_frame e s s1 _ H))|].
    exact (_ensure_token_valid_no_activities e s s1 _ H).
  - intros s1 H Hfull. unfold quota_left in Hfull.
    unfold create_activity_log. unfold bind at 1. rewrite H.
    unfold bind at 1. rewrite _check_rate_limit_eq.
    unfold check_rate_limit_at.
    replace (150 <=? length (filter (within_hour (time_check_rate_limit e))
                                (request_times s1)))%nat with true
      by (symmetry; apply Nat.leb_le; lia).
    reflexivity.
  - intros s1 H Hleft. unfold quota_left in Hleft.
    unfold create_activity_log. unfold bind at 1. rewrite H.
    unfold bind at 1. rewrite _check_rate_limit_eq.
    unfold check_rate_limit_at.
    apply Nat.leb_gt in Hleft. rewrite Hleft. cbn [fst snd].
    unfold bind, emit, modify, result_of_reply, activity_data_of, ret, raise.
    destruct (activities_reply e); reflexivity.
Qed.

Lemma create_activity_log_gates_witness :
  create_activity_log (with_activities_reply HTTPBadRequest (env_reading 0))
    "Walking" 1 0%Z 1%Z None store_idle
  = (Raise FitbitAPIError,
     add_event (ActivitiesRequest (activity_data_of "Walking" 1 0%Z 1%Z None))
       (set_request_times [5002] store_idle))
  /\ create_activity_log (env_reading 0) "Walking" 1 0%Z 1%Z None
       store_quota_used
     = (Raise RateLimitError, store_quota_used)
  /\ create_activity_log (env_reading 0) "Walking" 1 0%Z 1%Z None
       store_near_expiry
     = (Raise ConfigEntryAuthFailed,
        add_event RefreshTokenRequest store_near_expiry).
Proof.
  split; [|split].
  - destruct (create_activity_log_gates
                (with_activities_reply HTTPBadRequest (env_reading 0))
                "Walking" 1 0%Z 1%Z None store_idle) as (_ & _ & Hsend).
    apply (Hsend store_idle); [reflexivity|].
    unfold quota_left. simpl. lia.
  - destruct (create_activity_log_gates (env_reading 0)
                "Walking" 1 0%Z 1%Z None store_quota_used) as (_ & Hfull & _).
    rewrite (Hfull store_quota_used); [reflexivity|reflexivity|].
    unfold quota_left. intro H. vm_compute in H. lia.
  - destruct (create_activity_log_gates (env_reading 0)
                "Walking" 1 0%Z 1%Z None store_near_expiry) as (Hauth & _ & _).
    destruct (Hauth ConfigEntryAuthFailed
                (add_event RefreshTokenRequest store_near_expiry) eq_refl)
      as [Hrun _].
    exact Hrun.
Defined.

Lemma refresh_after_reply_no_refresh_request (e : env) (s s' : store)
    (r : result unit) :
  refresh_after_reply e s = (r, s') ->
  refresh_requests s' = refresh_requests s.
Proof.
  intro H.
  destruct (refresh_after_reply_emits
              (fun ev => is_refresh_request ev = false) e
              (fun _ _ _ => eq_refl) s r s' H) as (evs & Ht & Hall).
  unfold refresh_requests. rewrite Ht, filter_app, (filter_none _ _ Hall).
  rewrite app_nil_r. reflexivity.
Qed.

Lemma _ensure_token_valid_fresh (e : env) (s : store) :
  time_ensure_token_valid e < expires_at s - 300 ->
  _ensure_token_valid e s = (Ok tt, s).
Proof.
  intro H. unfold _ensure_token_valid, bind, get, ret.
  unfold needs_refresh, TOKEN_REFRESH_BUFFER.
  replace (Qle_bool (expires_at s - 300) (time_ensure_token_valid e))
    with false; [reflexivity|].
  symmetry. apply Qlt_bool_iff in H. unfold Qlt_bool in H.
  apply negb_true_iff in H. exact H.
Qed.

Lemma _ensure_token_valid_due (e : env) (s : store) :
  expires_at s - 300 <= time_ensure_token_valid e ->
  refresh_requests (snd (_ensure_token_valid e s)) = S (refresh_requests s).
Proof.
  intro H.
  assert (Hrun : _ensure_token_valid e s
                 = refresh_after_reply e (add_event RefreshTokenRequest s)).
  { unfold _ensure_token_valid, _refresh_token, bind, get, emit, modify, ret.
    unfold needs_refresh, TOKEN_REFRESH_BUFFER.
    apply Qle_bool_iff in H. rewrite H. reflexivity. }
  rewrite Hrun.
  destruct (refresh_after_reply e (add_event RefreshTokenRequest s))
    as [r s'] eqn:E.
  cbn [snd]. rewrite (refresh_after_reply_no_refresh_request _ _ _ _ E).
  unfold refresh_requests. cbn [trace add_event].
  rewrite filter_app, length_app. simpl. lia.
Qed.

(** X12: the token check refreshes exactly from 300 seconds before the
    expiry on.  While the clock reads less than expires_at - 300 the check
    returns at once and changes nothing; from expires_at - 300 on (the
    bound included) it sends exactly one refresh request, whatever the
    token endpoint answers. *)
Theorem ensure_token_valid_threshold (e : env) (s : store) :
  (time_ensure_token_valid e < expires_at s - 300 ->
   _ensure_token_valid e s = (Ok tt, s))
  /\ (expires_at s - 300 <= time_ensure_token_valid e ->
      refresh_requests (snd (_ensure_token_valid e s))
      = S (refresh_requests s)).
Proof.
  split; [apply _ensure_token_valid_fresh|apply _ensure_token_valid_due].
Qed.

Lemma ensure_token_valid_threshold_witness :
  _ensure_token_valid (with_time_ensure 4799 (env_reading 0)) store_near_expiry
  = (Ok tt, store_near_expiry)
  /\ refresh_requests
       (snd (_ensure_token_valid (with_time_ensure 4800 (env_reading 0))
               store_near_expiry)) = 1%nat.
Proof.
  split.
  - apply (proj1 (ensure_token_valid_threshold
                    (with_time_ensure 4799 (env_reading 0)) store_near_expiry)).
    unfold Qlt. simpl. lia.
  - rewrite (proj2 (ensure_token_valid_threshold
                      (with_time_ensure 4800 (env_reading 0))
                      store_near_expiry)); [reflexivity|].
    unfold Qle. simpl. lia.
Defined.

(** X13: a refreshed token is good until 300 seconds before its new
    expiry.  After a successful refresh at clock reading t with
    expires_in = x, every token check at a reading below t + x - 300
    returns at once without a request; and if x is at most 300, every
    token check at a reading from t on refreshes again. *)
Theorem refreshed_token_is_valid (e : env) (s s' : store)
    (Hok : _refresh_token e s = (Ok tt, s')) :
  exists x : Q,
    expires_at s' = time_refresh_token e + x
    /\ (forall e2 : env,
           time_ensure_token_valid e2 < time_refresh_token e + x - 300 ->
           _ensure_token_valid e2 s' = (Ok tt, s'))
    /\ (x <= 300 ->
        forall e2 : env,
          time_refresh_token e <= time_ensure_token_valid e2 ->
          refresh_requests (snd (_ensure_token_valid e2 s'))
          = S (refresh_requests s')).
Proof.
  unfold _refresh_token in Hok. unfold bind at 1, emit, modify in Hok.
  apply refresh_after_reply_ok in Hok.
  destruct Hok as (a & rt & x & _ & _ & ->).
  exists x. split; [reflexivity|]. split.
  - intros e2 H. apply _ensure_token_valid_fresh. exact H.
  - intros Hx e2 H. apply _ensure_token_valid_due.
    cbn [expires_at add_event set_expires_at]. lra.
Qed.

Lemma refreshed_token_is_valid_witness :
  exists s' : store,
    _refresh_token (with_refresh_reply (Some reply_complete) (env_reading 0))
      store_near_expiry = (Ok tt, s')
    /\ expires_at s' = 5001 + 28800
    /\ _ensure_token_valid (with_time_ensure 33500 (env_reading 0)) s'
       = (Ok tt, s').
Proof.
  eexists. split; [reflexivity|].
  destruct (refreshed_token_is_valid
              (with_refresh_reply (Some reply_complete) (env_reading 0))
              store_near_expiry _ eq_refl) as (x & Hx & Hvalid & _).
  split; [reflexivity|].
  apply Hvalid. rewrite <- Hx. unfold Qlt. simpl. lia.
Defined.

Lemma handled_trace_eq (e : env) (err : exn) (s : store) :
  trace (handled e err s)
  = trace s
    ++ (if get_default (data_notification_enabled e) true
        then [Notification false None None (Some (handler_text err))] else [])
    ++ (match err with ConfigEntryAuthFailed => [StartReauth] | _ => [] end).
Proof.
  unfold handled, handler_text.
  destruct err; cbn [trace add_event]; rewrite notified_trace;
    rewrite <- ?app_assoc, ?app_nil_r; reflexivity.
Qed.

(** X14: when the create-activity call fails in the completion pipeline,
    the status handler still returns normally and clears the session; the
    history and [last_sync_time] are as before; with notifications enabled
    the user gets two failure notifications, one from each handler on the
    way; and a re-authentication is started exactly when the error is
    [ConfigEntryAuthFailed]. *)
Theorem completion_remote_failure
    (e : env) (s s2 : store) (end_time : datetime) (end_distance : Q)
    (err : exn) :
  let start := session_start (current_session s) end_time in
  let d := end_distance - session_start_distance (current_session s) in
  let activity := get_default (data_activity_type e) "Walking"%string in
  let stride := get_default (data_stride_length e) (5 # 2) in
  let nsteps := py_int (d * FEET_PER_MILE / stride) in
  let minutes := duration_minutes_of start end_time in
  _get_distance_value e s = (Ok end_distance, s) ->
  MIN_DISTANCE <= d -> d <= MAX_DISTANCE ->
  ~ stride == 0 ->
  create_activity_log e activity d start minutes (Some nsteps)
    (add_event (LogCreatingActivity activity d nsteps "manual_calculation") s)
  = (Raise err, s2) ->
  exists s' : store,
    _async_complete_session e end_time s = (Ok tt, s')
    /\ trace s' = trace s2 ++ failure_events e err
    /\ (In StartReauth (failure_events e err) <-> err = ConfigEntryAuthFailed)
    /\ (get_default (data_notification_enabled e) true = true ->
        length (filter is_notification (failure_events e err)) = 2%nat)
    /\ sync_history s' = sync_history s
    /\ last_sync_time s' = last_sync_time s
    /\ current_session s' = None.
Proof.
  intros start d activity stride nsteps minutes
    Hread Hmin Hmax Hstride Hcreate.
  apply stride_nonzero_neq in Hstride.
  pose proof (create_activity_log_frame _ _ _ _ _ _ _ _ _ Hcreate)
    as (Hhist & _ & Hlast).
  cbn [sync_history last_sync_time add_event] in Hhist, Hlast.
  exists (set_current_session None
            (notified e (Notification false None None (Some (StrOf err)))
               (handled e err s2))).
  split.
  { rewrite _async_complete_session_eq.
    apply Qlt_bool_false_iff in Hmin. apply Qlt_bool_false_iff in Hmax.
    unfold complete_session_from, try_finally, try_except.
    unfold bind at 1. rewrite Hread. fold start. fold d. rewrite Hmin, Hmax.
    unfold bind at 1. fold minutes.
    rewrite (_async_sync_workout_raise e d start minutes s s2 err
               Hstride Hcreate).
    rewrite _notify_sync_result_eq. reflexivity. }
  split.
  { cbn [trace set_current_session]. rewrite notified_trace, handled_trace_eq.
    unfold failure_events. rewrite <- !app_assoc. reflexivity. }
  split.
  { unfold failure_events.
    destruct (get_default (data_notification_enabled e) true);
      destruct err; cbn; split; intro H;
      try reflexivity; try discriminate H;
      repeat (destruct H as [H|H]; try discriminate H); try contradiction;
      auto. }
  split.
  { intro H. unfold failure_events. rewrite H. destruct err; reflexivity. }
  split; [|split; [|reflexivity]].
  - change (sync_history (notified e
                            (Notification false None None (Some (StrOf err)))
                            (handled e err s2)) = sync_history s).
    rewrite (proj1 (notified_same_coordinator e _ _)).
    unfold handled. destruct err; cbn [sync_history add_event];
      rewrite (proj1 (notified_same_coordinator e _ _)); exact Hhist.
  - change (last_sync_time (notified e
                              (Notification false None None (Some (StrOf err)))
                              (handled e err s2)) = last_sync_time s).
    rewrite (proj2 (proj2 (notified_same_coordinator e _ _))).
    unfold handled. destruct err; cbn [last_sync_time add_event];
      rewrite (proj2 (proj2 (notified_same_coordinator e _ _))); exact Hlast.
Qed.

Lemma completion_remote_failure_witness :
  exists s' : store,
    _async_complete_session
      (with_activities_reply HTTPUnauthorized (env_reading (35 # 10)))
      1800000000%Z store_in_session = (Ok tt, s')
    /\ filter is_notification (trace s')
       = [Notification false None None (Some AuthenticationFailedText);
          Notification false None None (Some (StrOf ConfigEntryAuthFailed))]
    /\ In StartReauth (trace s')
    /\ sync_history s' = [].
Proof.
  pose (e := with_activities_reply HTTPUnauthorized (env_reading (35 # 10))).
  pose (s2 := snd (create_activity_log e "Treadmill" ((35 # 10) - 1) 0%Z 30%Z
                     (Some 5280%Z)
                     (add_event
                        (LogCreatingActivity "Treadmill" ((35 # 10) - 1)
                           5280%Z "manual_calculation")
                        store_in_session))).
  destruct (completion_remote_failure e store_in_session s2 1800000000%Z
              (35 # 10) ConfigEntryAuthFailed)
    as (s' & Hrun & Htrace & _ & _ & Hhist & _).
  - reflexivity.
  - unfold Qle. simpl. lia.
  - unfold Qle. simpl. lia.
  - intro H. discriminate H.
  - vm_compute. reflexivity.
  - exists s'. split; [exact Hrun|].
    rewrite Htrace. split; [reflexivity|].
    split; [|exact Hhist].
    vm_compute. tauto.
Defined.

(* ================================================================== *)
(** ** At most one activities request per run *)

Section OneMore.

Let K := keeps activities_requests.
Let B := one_more_at_most.

Lemma one_more_of_keeps {A : Type} (m : M A) : relates K m -> relates B m.
Proof.
  intros H s r s' E. unfold B, one_more_at_most.
  rewrite (H s r s' E). lia.
Qed.

Lemma one_more_bind_l {A C : Type} (m : M A) (k : A -> M C) :
  relates K m -> (forall a, relates B (k a)) -> relates B (bind m k).
Proof.
  intros Hm Hk s r s' H. unfold bind in H.
  destruct (m s) as [[a|e] s1] eqn:E.
  - pose proof (Hm _ _ _ E) as H1. pose proof (Hk a _ _ _ H) as H2.
    unfold B, K, keeps, one_more_at_most in *. lia.
  - injection H as _ <-. pose proof (Hm _ _ _ E) as H1.
    unfold B, K, keeps, one_more_at_most in *. lia.
Qed.

Lemma one_more_bind_r {A C : Type} (m : M A) (k : A -> M C) :
  relates B m -> (forall a, relates K (k a)) -> relates B (bind m k).
Proof.
  intros Hm Hk s r s' H. unfold bind in H.
  destruct (m s) as [[a|e] s1] eqn:E.
  - pose proof (Hm _ _ _ E) as H1. pose proof (Hk a _ _ _ H) as H2.
    unfold B, K, keeps, one_more_at_most in *. lia.
  - injection H as _ <-. exact (Hm _ _ _ E).
Qed.

Lemma one_more_try_except {A : Type} (body : M A) (handler : exn -> M A) :
  relates B body -> (forall e, relates K (handler e)) ->
  relates B (try_except body handler).
Proof.
  intros Hb Hh s r s' H. unfold try_except in H.
  destruct (body s) as [[a|e] s1] eqn:E.
  - injection H as _ <-. exact (Hb _ _ _ E).
  - pose proof (Hb _ _ _ E) as H1. pose proof (Hh e _ _ _ H) as H2.
    unfold B, K, keeps, one_more_at_most in *. lia.
Qed.

Lemma one_more_try_finally {A : Type} (body : M A) (fin : M unit) :
  relates B body -> relates K fin -> relates B (try_finally body fin).
Proof.
  intros Hb Hf s r s' H. unfold try_finally in H.
  destruct (body s) as [rb s1] eqn:E.
  pose proof (Hb _ _ _ E) as H1.
  destruct (fin s1) as [[u|e] s2] eqn:E2; injection H as _ <-;
    pose proof (Hf _ _ _ E2) as H2;
    unfold B, K, keeps, one_more_at_most in *; lia.
Qed.

End OneMore.

Lemma keeps_activities_of_emits {A : Type} (m : M A) :
  relates (emits_only (fun ev => is_activities_request ev = false)) m ->
  relates (keeps activities_requests) m.
Proof.
  intros H s r s' E. destruct (H s r s' E) as (evs & Ht & Hall).
  unfold keeps, activities_requests.
  rewrite Ht, filter_app, (filter_none _ _ Hall), app_nil_r. reflexivity.
Qed.

Lemma keeps_activities_add_event (ev : event) (s : store) :
  is_activities_request ev = false ->
  keeps activities_requests s (add_event ev s).
Proof.
  intro H. unfold keeps, activities_requests. cbn [trace add_event].
  rewrite filter_app. simpl. rewrite H, app_nil_r. reflexivity.
Qed.

Ltac activities_finish :=
  first [ reflexivity | apply keeps_activities_add_event; reflexivity ].

Lemma _notify_sync_result_keeps_activities (e : env) ok n m err :
  relates (keeps activities_requests) (_notify_sync_result e ok n m err).
Proof.
  apply keeps_activities_of_emits, _notify_sync_result_emits.
  intro. reflexivity.
Qed.

Lemma create_activity_log_one_more (e : env)
    activity miles start minutes nsteps :
  relates one_more_at_most
    (create_activity_log e activity miles start minutes nsteps).
Proof.
  unfold create_activity_log.
  apply one_more_bind_l.
  { apply keeps_activities_of_emits, _ensure_token_valid_emits;
      [reflexivity|intros; reflexivity]. }
  intros _. apply one_more_bind_l.
  { apply keeps_activities_of_emits, _check_rate_limit_emits. }
  intros _. cbv zeta. apply one_more_bind_r.
  - intros s r s' H. injection H as _ <-.
    unfold one_more_at_most, activities_requests. cbn [trace add_event].
    rewrite filter_app, length_app. simpl. lia.
  - intros _. destruct (activities_reply e); relates_step.
Qed.

Lemma _async_sync_workout_one_more (e : env) miles start minutes :
  relates one_more_at_most (_async_sync_workout e miles start minutes).
Proof.
  unfold _async_sync_workout, convert_distance_to_steps. cbv zeta.
  apply one_more_try_except.
  - destruct (Qeq_bool (get_default (data_stride_length e) (5 # 2)) 0).
    + rewrite bind_raise. apply one_more_of_keeps. relates_step.
    + rewrite bind_ret. cbn [fst snd].
      apply one_more_bind_l; [relates_step; activities_finish|intros _].
      apply one_more_bind_r; [apply create_activity_log_one_more|intro a].
      relates_step; [relates_step; activities_finish|].
      relates_step; [relates_step; activities_finish|].
      relates_step; [apply _notify_sync_result_keeps_activities|].
      relates_step; [relates_step; activities_finish|].
      relates_step.
  - intro err. unfold sync_workout_handler.
    destruct err;
      repeat first [ apply _notify_sync_result_keeps_activities
                   | relates_step ]; activities_finish.
Qed.

Lemma complete_session_from_one_more (e : env) (end_time start : datetime)
    (start_miles : Q) :
  relates one_more_at_most
    (complete_session_from e end_time start start_miles).
Proof.
  unfold complete_session_from.
  apply one_more_try_finally; [|relates_step; reflexivity].
  apply one_more_try_except;
    [|intro; apply _notify_sync_result_keeps_activities].
  apply one_more_bind_l; [apply _get_distance_value_relates; exact _|].
  intro d. cbv zeta.
  destruct (Qlt_bool _ _).
  { apply one_more_of_keeps.
    relates_step; [apply _notify_sync_result_keeps_activities|].
    relates_step. reflexivity. }
  destruct (Qlt_bool _ _).
  { apply one_more_of_keeps.
    relates_step; [apply _notify_sync_result_keeps_activities|].
    relates_step. reflexivity. }
  apply one_more_bind_r; [apply _async_sync_workout_one_more|].
  intros _. relates_step.
Qed.

(** X15: one run sends one activities request at most.  A status change,
    whatever it is, and a manual sync each add at most one activities
    request to those sent before: no path through the handlers submits a
    workout twice. *)
Theorem one_activities_request_per_run
    (e : env) (old new : option State) (distance_override : option Q)
    (s : store) :
  (activities_requests (snd (_async_status_changed e old new s))
   <= S (activities_requests s))%nat
  /\ (activities_requests (snd (manual_sync e distance_override s))
      <= S (activities_requests s))%nat.
Proof.
  split.
  - destruct (_async_status_changed e old new s) as [r s'] eqn:H.
    revert s r s' H.
    change (relates one_more_at_most (_async_status_changed e old new)).
    unfold _async_status_changed.
    destruct new as [new|]; [|apply one_more_of_keeps; relates_step].
    destruct old as [old|]; [|apply one_more_of_keeps; relates_step].
    destruct (_ && _).
    { apply one_more_of_keeps, keeps_activities_of_emits.
      apply _async_start_session_emits. }
    destruct (_ && _); [|apply one_more_of_keeps; relates_step].
    destruct (get_default (data_auto_sync e) true);
      [|apply one_more_of_keeps; relates_step].
    unfold _async_complete_session.
    apply one_more_bind_l; [relates_step|].
    intros []; apply complete_session_from_one_more.
  - destruct (manual_sync e distance_override s) as [r s'] eqn:H.
    revert s r s' H.
    change (relates one_more_at_most (manual_sync e distance_override)).
    unfold manual_sync.
    apply one_more_try_except.
    + apply one_more_bind_l.
      * destruct distance_override;
          [relates_step|apply _get_distance_value_relates; exact _].
      * intro d. cbv zeta. apply _async_sync_workout_one_more.
    + intro err.
      relates_step; [apply _notify_sync_result_keeps_activities|relates_step].
Qed.

(* ================================================================== *)
(** ** A whole workout *)




(* ================================================================== *)
(** ** The configuration flow *)

Lemma stride_errors_none (stride_length user_height : option Q) :
  stride_errors stride_length user_height = [] ->
  exists stride : Q,
    stride_or_from_height stride_length user_height = Some stride
    /\ MIN_STRIDE <= stride /\ stride <= MAX_STRIDE
    /\ match stride_length, user_height with
       | Some given, _ => stride = given
       | None, Some height =>
           stride = (height * DEFAULT_STRIDE_MULTIPLIER) / INCHES_TO_FEET
           /\ MIN_HEIGHT <= height /\ height <= MAX_HEIGHT
       | None, None => False
       end.
Proof.
  unfold stride_errors, stride_or_from_height.
  destruct stride_length as [stride|]; [|destruct user_height as [height|]].
  - destruct (Qlt_bool stride MIN_STRIDE) eqn:E1; [discriminate|].
    destruct (Qlt_bool MAX_STRIDE stride) eqn:E2; [discriminate|].
    intros _. exists stride.
    apply Qlt_bool_false_iff in E1. apply Qlt_bool_false_iff in E2.
    repeat split; assumption.
  - destruct (Qlt_bool height MIN_HEIGHT) eqn:E1; [discriminate|].
    destruct (Qlt_bool MAX_HEIGHT height) eqn:E2; [discriminate|].
    intros _. eexists. split; [reflexivity|].
    apply Qlt_bool_false_iff in E1. apply Qlt_bool_false_iff in E2.
    unfold MIN_HEIGHT, MAX_HEIGHT in *.
    assert (H : (height * DEFAULT_STRIDE_MULTIPLIER) / INCHES_TO_FEET
                == height * (413 # 12000)).
    { unfold DEFAULT_STRIDE_MULTIPLIER, INCHES_TO_FEET. field. }
    unfold MIN_STRIDE, MAX_STRIDE.
    repeat split; try assumption; rewrite H; lra.
  - discriminate.
Qed.

(** X17: the conversion step of the configuration flow creates an entry
    only with a stride between [MIN_STRIDE] = 0.5 and [MAX_STRIDE] = 5.0
    feet, so the stride that the sync reads is positive.  A given stride
    is stored as it is, and the height is then not looked at, not even its
    range; with a height alone the stride is height * 0.413 / 12 and the
    height lies between 36 and 96 inches.  Without both, or with a value
    out of range, the form is shown again with one error. *)
Theorem conversion_step_stride_in_range
    (entity_config ui : user_input) (configured : bool) :
  (forall data status distance,
      async_step_conversion entity_config configured (Some ui)
      = CreateEntry data status distance ->
      exists stride : Q,
        ed_stride_length data = Some stride
        /\ MIN_STRIDE <= stride /\ stride <= MAX_STRIDE /\ 0 < stride
        /\ match ui_stride_length ui, ui_user_height ui with
           | Some given, _ => stride = given
           | None, Some height =>
               stride = (height * DEFAULT_STRIDE_MULTIPLIER) / INCHES_TO_FEET
               /\ MIN_HEIGHT <= height /\ height <= MAX_HEIGHT
           | None, None => False
           end)
  /\ (stride_errors (ui_stride_length ui) (ui_user_height ui) <> [] ->
      async_step_conversion entity_config configured (Some ui)
      = ShowForm "conversion"
          (stride_errors (ui_stride_length ui) (ui_user_height ui))
      /\ length (stride_errors (ui_stride_length ui) (ui_user_height ui))
         = 1%nat).
Proof.
  split.
  - intros data status distance. unfold async_step_conversion. cbv zeta.
    destruct (stride_errors (ui_stride_length ui) (ui_user_height ui))
      eqn:Herr; [|discriminate].
    destruct (ui_status_entity entity_config); [|discriminate].
    destruct configured; [discriminate|].
    intro H. injection H as <- _ _. cbn [ed_stride_length].
    destruct (stride_errors_none _ _ Herr) as (stride & Hs & Hlo & Hhi & Hm).
    exists stride. split; [exact Hs|]. split; [exact Hlo|].
    split; [exact Hhi|]. split; [|exact Hm].
    unfold MIN_STRIDE in Hlo. lra.
  - intro Herr. unfold async_step_conversion. cbv zeta.
    destruct (stride_errors (ui_stride_length ui) (ui_user_height ui))
      eqn:E; [contradiction|].
    split; [reflexivity|].
    revert E. unfold stride_errors.
    destruct (ui_stride_length ui); [|destruct (ui_user_height ui)];
      try destruct (_ || _); intro E; try discriminate E;
      injection E as <- <-; reflexivity.
Qed.

Lemma conversion_step_stride_in_range_witness :
  (exists data status distance,
      async_step_conversion input_stride_and_height false
        (Some input_stride_and_height) = CreateEntry data status distance
      /\ ed_stride_length data = Some (5 # 2))
  /\ (exists data status distance,
         async_step_conversion input_height_only false
           (Some input_height_only) = CreateEntry data status distance
         /\ exists stride, ed_stride_length data = Some stride
                           /\ stride == 28910 # 12000).
Proof.
  split.
  - destruct (conversion_step_stride_in_range input_stride_and_height
                input_stride_and_height false) as [Hok _].
    eexists. eexists. eexists. split; [reflexivity|].
    destruct (Hok _ _ _ eq_refl) as (stride & Hs & _ & _ & _ & ->).
    exact Hs.
  - destruct (conversion_step_stride_in_range input_height_only
                input_height_only false) as [Hok _].
    eexists. eexists. eexists. split; [reflexivity|].
    destruct (Hok _ _ _ eq_refl) as (stride & Hs & _ & _ & _ & -> & _).
    eexists. split; [exact Hs|]. reflexivity.
Defined.

(** X18: the options step updates the entry only when both entities
    exist and the stride validation passes; the stride it stores then
    lies between [MIN_STRIDE] and [MAX_STRIDE].  The errors of the
    entities and of the stride are collected together, entities first,
    and shown in one form. *)
Theorem options_step_checks_entities_and_stride
    (exists_ : option string -> bool) (ui : user_input) :
  (forall data status distance,
      async_step_init exists_ (Some ui) = CreateEntry data status distance ->
      exists_ (ui_status_entity ui) = true
      /\ exists_ (ui_distance_entity ui) = true
      /\ status = ui_status_entity ui /\ distance = ui_distance_entity ui
      /\ exists stride : Q,
           ed_stride_length data = Some stride
           /\ MIN_STRIDE <= stride /\ stride <= MAX_STRIDE)
  /\ (exists_ (ui_status_entity ui) = false
      \/ exists_ (ui_distance_entity ui) = false
      \/ stride_errors (ui_stride_length ui) (ui_user_height ui) <> [] ->
      async_step_init exists_ (Some ui)
      = ShowForm "init"
          (entity_errors exists_ (ui_status_entity ui) (ui_distance_entity ui)
             ++ stride_errors (ui_stride_length ui) (ui_user_height ui))).
Proof.
  split.
  - intros data status distance. unfold async_step_init. cbv zeta.
    destruct (entity_errors exists_ (ui_status_entity ui)
                (ui_distance_entity ui)
              ++ stride_errors (ui_stride_length ui) (ui_user_height ui))
      eqn:Herr; [|discriminate].
    apply app_eq_nil in Herr. destruct Herr as [Hent Hstr].
    destruct (ui_activity_type ui); [|discriminate].
    destruct (ui_auto_sync ui); [|discriminate].
    destruct (ui_notification_enabled ui); [|discriminate].
    intro H. injection H as <- <- <-. cbn [ed_stride_length].
    unfold entity_errors in Hent.
    destruct (exists_ (ui_status_entity ui)); [|discriminate Hent].
    destruct (exists_ (ui_distance_entity ui)); [|discriminate Hent].
    repeat split.
    destruct (stride_errors_none _ _ Hstr) as (stride & Hs & Hlo & Hhi & _).
    exists stride. repeat split; assumption.
  - intro Hbad. unfold async_step_init. cbv zeta.
    destruct (entity_errors exists_ (ui_status_entity ui)
                (ui_distance_entity ui)
              ++ stride_errors (ui_stride_length ui) (ui_user_height ui))
      eqn:Herr; [|reflexivity].
    exfalso. apply app_eq_nil in Herr. destruct Herr as [Hent Hstr].
    unfold entity_errors in Hent.
    destruct Hbad as [H|[H|H]].
    + rewrite H in Hent. discriminate Hent.
    + rewrite H in Hent. destruct (exists_ (ui_status_entity ui));
        discriminate Hent.
    + contradiction.
Qed.

Lemma options_step_checks_entities_and_stride_witness :
  (exists data,
      async_step_init (fun _ => true) (Some input_height_only)
      = CreateEntry data (Some "sensor.treadmill_status"%string)
          (Some "sensor.treadmill_distance"%string))
  /\ async_step_init (fun _ => false) (Some input_height_only)
     = ShowForm "init"
         [("status_entity", "entity_not_found");
          ("distance_entity", "entity_not_found")]%string.
Proof.
  split.
  - destruct (options_step_checks_entities_and_stride (fun _ => true)
                input_height_only) as [Hok _].
    eexists.
    assert (E : async_step_init (fun _ => true) (Some input_height_only)
                = CreateEntry
                    {| ed_activity_type := Some "Treadmill"%string;
                       ed_stride_length :=
                         Some ((70 * DEFAULT_STRIDE_MULTIPLIER)
                               / INCHES_TO_FEET);
                       ed_auto_sync := true;
                       ed_notification_enabled := true |}
                    (Some "sensor.treadmill_status"%string)
                    (Some "sensor.treadmill_distance"%string))
      by reflexivity.
    destruct (Hok _ _ _ E) as (_ & _ & _ & _ & _).
    exact E.
  - destruct (options_step_checks_entities_and_stride (fun _ => false)
                input_height_only) as [_ Hbad].
    rewrite Hbad; [reflexivity|]. left. reflexivity.
Defined.

(* ================================================================== *)
(** ** Activity types, the profile request and the step count *)

(** X19: the activity id of a request is looked up by the exact name:
    "Running" gives 90009, "Treadmill" gives 15000, and every other
    string, "Walking" and any unknown or differently spelled name alike,
    gives the id 90013 of Walking. *)
Theorem activity_id_defaults_to_walking (activity : string) :
  (activity = "Running"%string -> activity_id_of activity = 90009%Z)
  /\ (activity = "Treadmill"%string -> activity_id_of activity = 15000%Z)
  /\ (activity <> "Running"%string -> activity <> "Treadmill"%string ->
      activity_id_of activity = 90013%Z)
  /\ (dict_get ACTIVITY_TYPES activity = None <->
      activity <> "Walking"%string /\ activity <> "Running"%string
      /\ activity <> "Treadmill"%string).
Proof.
  unfold activity_id_of, ACTIVITY_TYPES, dict_get.
  destruct (String.eqb_spec activity "Walking") as [Hw|Hw];
    destruct (String.eqb_spec activity "Running") as [Hr|Hr];
    destruct (String.eqb_spec activity "Treadmill") as [Ht|Ht];
    subst; repeat split; intros;
    try reflexivity; try discriminate; try contradiction;
    try (destruct H as (? & ? & ?); contradiction);
    try match goal with H : _ /\ _ |- _ => destruct H as (? & ? & ?) end;
    try contradiction; try congruence.
Qed.

Lemma activity_id_defaults_to_walking_witness :
  activity_id_of "Running" = 90009%Z
  /\ activity_id_of "running" = 90013%Z
  /\ activity_id_of "Treadmill" = 15000%Z.
Proof.
  destruct (activity_id_defaults_to_walking "Running") as (H1 & _).
  destruct (activity_id_defaults_to_walking "running") as (_ & _ & H2 & _).
  destruct (activity_id_defaults_to_walking "Treadmill") as (_ & H3 & _).
  split; [apply H1; reflexivity|].
  split; [apply H2; discriminate|apply H3; reflexivity].
Defined.

(** X20: the outcomes of [get_user_profile].  When the token check
    raises, the call raises [ConfigEntryAuthFailed] and no profile
    request is sent.  When the token check passes, exactly one profile
    request is sent, and the call returns or, whatever the failure of the
    request, raises [FitbitAPIError].  No other exception comes out, and
    the history, the session and the rate window are never touched. *)
Theorem get_user_profile_outcomes (e : env) (s : store) :
  (forall (err : exn) (s1 : store),
      _ensure_token_valid e s = (Raise err, s1) ->
      get_user_profile e s = (Raise ConfigEntryAuthFailed, s1)
      /\ profile_requests s1 = profile_requests s)
  /\ (forall s1 : store,
         _ensure_token_valid e s = (Ok tt, s1) ->
         get_user_profile e s
         = (if profile_raises e then Raise FitbitAPIError else Ok tt,
            add_event UserProfileRequest s1)
         /\ profile_requests (add_event UserProfileRequest s1)
            = S (profile_requests s))
  /\ (forall err : exn,
         fst (get_user_profile e s) = Raise err ->
         err = ConfigEntryAuthFailed \/ err = FitbitAPIError)
  /\ same_coordinator s (snd (get_user_profile e s))
  /\ request_times (snd (get_user_profile e s)) = request_times s.
Proof.
  assert (Hcount : forall r s1,
             _ensure_token_valid e s = (r, s1) ->
             profile_requests s1 = profile_requests s).
  { intros r s1 H.
    destruct (_ensure_token_valid_emits
                (fun ev => is_profile_request ev = false) e
                eq_refl (fun _ _ _ => eq_refl) s r s1 H) as (evs & Ht & Hall).
    unfold profile_requests.
    rewrite Ht, filter_app, (filter_none _ _ Hall), app_nil_r. reflexivity. }
  destruct (_ensure_token_valid e s) as [[[]|err0] s1] eqn:E.
  - split; [intros err s1' H; discriminate H|].
    assert (Hrun : get_user_profile e s
                   = (if profile_raises e then Raise FitbitAPIError else Ok tt,
                      add_event UserProfileRequest s1)).
    { unfold get_user_profile. unfold bind at 1. rewrite E.
      unfold bind, emit, modify, raise, ret.
      destruct (profile_raises e); reflexivity. }
    split.
    { intros s1' H. injection H as <-. split; [exact Hrun|].
      unfold profile_requests at 1. cbn [trace add_event].
      rewrite filter_app, length_app. cbn [filter is_profile_request length].
      fold (profile_requests s1). rewrite (Hcount _ _ eq_refl). lia. }
    rewrite Hrun. cbn [fst snd].
    split.
    { intros err H. destruct (profile_raises e); [|discriminate H].
      injection H as <-. right. reflexivity. }
    apply _ensure_token_valid_frame in E. destruct E as [Hc Ht].
    split; [exact Hc|exact Ht].
  - pose proof (_ensure_token_valid_raises e s s1 err0 E) as ->.
    assert (Hrun : get_user_profile e s = (Raise ConfigEntryAuthFailed, s1)).
    { unfold get_user_profile. unfold bind at 1. rewrite E. reflexivity. }
    split.
    { intros err s1' H. injection H as _ <-. split; [exact Hrun|].
      exact (Hcount _ _ eq_refl). }
    split; [intros s1' H; discriminate H|].
    rewrite Hrun. cbn [fst snd].
    split; [intros err H; injection H as <-; left; reflexivity|].
    apply _ensure_token_valid_frame in E. exact E.
Qed.

Lemma get_user_profile_outcomes_witness :
  get_user_profile (env_reading 0) store_near_expiry
  = (Raise ConfigEntryAuthFailed,
     add_event RefreshTokenRequest store_near_expiry)
  /\ get_user_profile (env_reading 0) store_idle
     = (Ok tt, add_event UserProfileRequest store_idle).
Proof.
  split.
  - destruct (get_user_profile_outcomes (env_reading 0) store_near_expiry)
      as (Hauth & _).
    destruct (Hauth ConfigEntryAuthFailed
                (add_event RefreshTokenRequest store_near_expiry) eq_refl)
      as [H _].
    exact H.
  - destruct (get_user_profile_outcomes (env_reading 0) store_idle)
      as (_ & Hok & _).
    destruct (Hok store_idle eq_refl) as [H _]. exact H.
Defined.

Lemma py_int_mono (x y : Q) : 0 <= x -> x <= y -> (py_int x <= py_int y)%Z.
Proof.
  intros Hx Hxy.
  rewrite (py_int_floor_nonneg x Hx).
  rewrite (py_int_floor_nonneg y) by lra.
  apply Qfloor_resp_le. exact Hxy.
Qed.

(** X21: the step count of the conversion.  For a distance within
    [MIN_DISTANCE, MAX_DISTANCE] and a stride within
    [MIN_STRIDE, MAX_STRIDE] the conversion returns between 10 and
    1056000 steps with the method "manual_calculation"; it does not
    decrease when the distance grows and does not increase when the
    stride grows; and a stride of zero raises [ZeroDivisionError]. *)
Theorem convert_distance_to_steps_range
    (miles stride : Q) (activity : string) (s : store)
    (Hmin : MIN_DISTANCE <= miles) (Hmax : miles <= MAX_DISTANCE)
    (Hlo : MIN_STRIDE <= stride) (Hhi : stride <= MAX_STRIDE) :
  (exists n : Z,
     convert_distance_to_steps miles stride activity s
     = (Ok (n, "manual_calculation"%string), s)
     /\ (10 <= n <= 1056000)%Z)
  /\ (forall miles' : Q,
         miles <= miles' ->
         (py_int (miles * FEET_PER_MILE / stride)
          <= py_int (miles' * FEET_PER_MILE / stride))%Z)
  /\ (forall stride' : Q,
         stride <= stride' ->
         (py_int (miles * FEET_PER_MILE / stride')
          <= py_int (miles * FEET_PER_MILE / stride))%Z)
  /\ convert_distance_to_steps miles 0 activity s
     = (Raise ZeroDivisionError, s).
Proof.
  unfold MIN_DISTANCE, MAX_DISTANCE, MIN_STRIDE, MAX_STRIDE in *.
  assert (Hs : 0 < stride) by lra.
  assert (Hq : forall a b : Q, 0 < b -> a / b * b == a).
  { intros a b Hb. field. intro H0. rewrite H0 in Hb. lra. }
  assert (Hfeet : 0 <= miles * FEET_PER_MILE)
    by (unfold FEET_PER_MILE; lra).
  assert (Hpos : forall st : Q, 0 < st -> 0 <= miles * FEET_PER_MILE / st).
  { intros st Hst. apply Qle_shift_div_l; [exact Hst|]. lra. }
  split; [|split; [|split]].
  - exists (py_int (miles * FEET_PER_MILE / stride)). split.
    + unfold convert_distance_to_steps.
      rewrite (stride_nonzero stride Hs). reflexivity.
    + split.
      * change 10%Z with (py_int 10).
        apply py_int_mono; [lra|].
        apply Qle_shift_div_l; [exact Hs|]. unfold FEET_PER_MILE. nra.
      * change 1056000%Z with (py_int 1056000).
        apply py_int_mono; [apply Hpos; exact Hs|].
        apply Qle_shift_div_r; [exact Hs|]. unfold FEET_PER_MILE. nra.
  - intros miles' Hm. apply py_int_mono; [apply Hpos; exact Hs|].
    apply Qle_shift_div_l; [exact Hs|]. rewrite Hq by exact Hs.
    unfold FEET_PER_MILE. lra.
  - intros stride' Hst. assert (Hs' : 0 < stride') by lra.
    apply py_int_mono; [apply Hpos; exact Hs'|].
    apply Qle_shift_div_l; [exact Hs|].
    pose proof (Hpos stride' Hs') as H0.
    assert (H1 : miles * FEET_PER_MILE / stride' * stride'
                 == miles * FEET_PER_MILE) by (apply Hq; exact Hs').
    nra.
  - reflexivity.
Qed.

Lemma convert_distance_to_steps_range_witness :
  convert_distance_to_steps (5 # 2) (5 # 2) "Treadmill" store_idle
  = (Ok (5280%Z, "manual_calculation"%string), store_idle)
  /\ (10 <= 5280 <= 1056000)%Z.
Proof.
  destruct (convert_distance_to_steps_range (5 # 2) (5 # 2) "Treadmill"
              store_idle) as ((n & Hrun & Hn) & _).
  - unfold Qle. simpl. lia.
  - unfold Qle. simpl. lia.
  - unfold Qle. simpl. lia.
  - unfold Qle. simpl. lia.
  - split; [reflexivity|].
    assert (E : n = 5280%Z).
    { assert (H : convert_distance_to_steps (5 # 2) (5 # 2) "Treadmill"
                    store_idle
                  = (Ok (5280%Z, "manual_calculation"%string), store_idle))
        by reflexivity.
      rewrite H in Hrun. injection Hrun as Hrun. symmetry. exact Hrun. }
    rewrite <- E. exact Hn.
Defined.

Lemma create_activity_log_trace (e : env) activity miles start minutes nsteps
    (s s' : store) (r : result (option Z)) :
  create_activity_log e activity miles start minutes nsteps s = (r, s') ->
  exists evs : list event, trace s' = trace s ++ evs.
Proof.
  intro H.
  destruct (create_activity_log_emits e activity miles start minutes nsteps
              s r s' H) as (evs & Ht & _).
  exists evs. exact Ht.
Qed.

(** The result and the store of [_async_sync_workout], for a stride other
    than zero, from the result and the store of its create-activity
    call. *)
Lemma _async_sync_workout_cases (e : env) (miles : Q) (start : datetime)
    (minutes : Z) (s : store) :
  let activity := get_default (data_activity_type e) "Walking"%string in
  let stride := get_default (data_stride_length e) (5 # 2) in
  let nsteps := py_int (miles * FEET_PER_MILE / stride) in
  let announced :=
    LogCreatingActivity activity miles nsteps "manual_calculation" in
  Qeq_bool stride 0 = false ->
  exists (r2 : result (option Z)) (s2 : store) (evs : list event),
    trace s2 = trace s ++ announced :: evs
    /\ same_coordinator s s2
    /\ _async_sync_workout e miles start minutes s
       = match r2 with
         | Ok logId =>
             (Ok (sync_record_of e activity miles nsteps minutes
                    "manual_calculation" logId),
              synced e (sync_record_of e activity miles nsteps minutes
                          "manual_calculation" logId) s2)
         | Raise err => (Raise err, handled e err s2)
         end.
Proof.
  intros activity stride nsteps announced Hstride.
  destruct (create_activity_log e activity miles start minutes (Some nsteps)
              (add_event announced s)) as [r2 s2] eqn:Hcall.
  destruct (create_activity_log_trace _ _ _ _ _ _ _ _ _ Hcall) as [evs Ht].
  pose proof (create_activity_log_frame _ _ _ _ _ _ _ _ _ Hcall) as Hc.
  exists r2, s2, evs. split.
  { rewrite Ht. cbn [trace add_event]. rewrite <- app_assoc. reflexivity. }
  split; [exact Hc|].
  destruct r2 as [logId|err].
  - exact (_async_sync_workout_ok e miles start minutes s s2 logId
             Hstride Hcall).
  - exact (_async_sync_workout_raise e miles start minutes s s2 err
             Hstride Hcall).
Qed.

(** X22: the stride that a sync uses.  Without a stride in the entry data
    the sync announces and converts with the default of 2.5 feet.  With a
    stride of zero in the entry data the sync raises [ZeroDivisionError]
    before anything is announced or requested: the store is unchanged but
    for one failure notification, sent when notifications are enabled. *)
Theorem sync_stride_default_and_zero
    (e : env) (miles : Q) (start : datetime) (minutes : Z) (s : store) :
  (data_stride_length e = None ->
   exists evs : list event,
     trace (snd (_async_sync_workout e miles start minutes s))
     = trace s
       ++ LogCreatingActivity
            (get_default (data_activity_type e) "Walking"%string) miles
            (py_int (miles * 5280 / (5 # 2))) "manual_calculation" :: evs)
  /\ (forall stride : Q,
         data_stride_length e = Some stride -> stride == 0 ->
         _async_sync_workout e miles start minutes s
         = (Raise ZeroDivisionError,
            notified e
              (Notification false None None
                 (Some (UnexpectedErrorText ZeroDivisionError))) s)).
Proof.
  split.
  - intro Hnone.
    destruct (_async_sync_workout_cases e miles start minutes s)
      as (r2 & s2 & evs & Ht & _ & Hrun).
    { rewrite Hnone. reflexivity. }
    rewrite Hnone in Ht, Hrun. cbn [get_default] in Ht, Hrun.
    rewrite Hrun. destruct r2 as [logId|err]; cbn [snd].
    + destruct (synced_trace e
                  (sync_record_of e
                     (get_default (data_activity_type e) "Walking"%string)
                     miles (py_int (miles * FEET_PER_MILE / (5 # 2))) minutes
                     "manual_calculation" logId) s2) as [rest Hrest].
      rewrite Hrest, Ht, <- app_assoc. eexists. reflexivity.
    + destruct (handled_trace e err s2) as [rest Hrest].
      rewrite Hrest, Ht, <- app_assoc. eexists. reflexivity.
  - intros stride Hsome Hzero.
    unfold _async_sync_workout, convert_distance_to_steps. cbv zeta.
    rewrite Hsome. cbn [get_default].
    apply Qeq_bool_iff in Hzero. rewrite Hzero.
    unfold try_except. rewrite bind_raise. unfold raise at 1.
    apply sync_workout_handler_eq.
Qed.

Lemma sync_stride_default_and_zero_witness :
  (exists evs : list event,
      trace (snd (_async_sync_workout (with_stride None (env_reading 0))
                    1 0%Z 20%Z store_idle))
      = [] ++ LogCreatingActivity "Treadmill" 1 2112 "manual_calculation"
              :: evs)
  /\ _async_sync_workout (with_stride (Some 0) (env_reading 0))
       1 0%Z 20%Z store_idle
     = (Raise ZeroDivisionError,
        add_event
          (Notification false None None
             (Some (UnexpectedErrorText ZeroDivisionError))) store_idle).
Proof.
  split.
  - destruct (sync_stride_default_and_zero (with_stride None (env_reading 0))
                1 0%Z 20%Z store_idle) as [Hdefault _].
    destruct (Hdefault eq_refl) as [evs Hevs].
    exists evs. exact Hevs.
  - destruct (sync_stride_default_and_zero
                (with_stride (Some 0) (env_reading 0)) 1 0%Z 20%Z store_idle)
      as [_ Hzero].
    exact (Hzero 0 eq_refl (Qeq_refl 0)).
Defined.


